(** * Billboard artist checker: a shallow embedding of [main.py]

    The program walks a weekly chart calendar backwards, reads each week's
    artist roster from an sqlite cache (fetching it from billboard.com on a
    miss) and looks for an artist name in it.

    Part I embeds the program: the Python built-ins it relies on
    ([PyStr], [PyDate]), the database and the chart source as an explicit
    state with an event log, and then the functions of [main.py] under their
    own names.  Part II proves the properties. *)

From Stdlib Require Import ZArith Lia Ascii String List.
From stdpp Require Import base strings list gmap.

(* ===================================================================== *)
(** * Part I.  The model                                                   *)
(* ===================================================================== *)

(** ** Python strings

    A [str] is modelled as a [string] of 8-bit characters; [lower] is the
    ASCII case mapping. *)
Module PyStr.

(** [s.startswith(p)] *)
Fixpoint startswith (s p : string) {struct p} : bool :=
  match p with
  | EmptyString => true
  | String a p' =>
      match s with
      | EmptyString => false
      | String b s' => if Ascii.eqb a b then startswith s' p' else false
      end
  end.

(** [sub in s] *)
Fixpoint contains (s sub : string) : bool :=
  if startswith s sub then true
  else match s with
       | EmptyString => false
       | String _ s' => contains s' sub
       end.

Definition lower_char (c : ascii) : ascii :=
  let n := nat_of_ascii c in
  if (65 <=? n)%nat && (n <=? 90)%nat then ascii_of_nat (n + 32) else c.

(** [s.lower()] *)
Fixpoint lower (s : string) : string :=
  match s with
  | EmptyString => EmptyString
  | String c s' => String (lower_char c) (lower s')
  end.

(** [sep.join(l)] *)
Fixpoint join (sep : string) (l : list string) : string :=
  match l with
  | [] => EmptyString
  | x :: l' =>
      match l' with
      | [] => x
      | _ :: _ => x +:+ sep +:+ join sep l'
      end
  end.

(** [s[n:]] *)
Fixpoint drop_chars (n : nat) (s : string) : string :=
  match n with
  | O => s
  | S n' => match s with
            | EmptyString => EmptyString
            | String _ s' => drop_chars n' s'
            end
  end.

(** Puts [c] in front of the first piece of a split. *)
Definition cons_head (c : ascii) (l : list string) : list string :=
  match l with
  | [] => [String c EmptyString]
  | h :: t => String c h :: t
  end.

(** [s.split(sep)] for a non-empty [sep] (Python raises [ValueError] on an
    empty one; the program only splits on [ARTIST_SEPARATOR]).  The string is
    read from the left; at an occurrence of [sep] the current piece ends and
    the scan resumes after the separator.  The recursion skips several
    characters at once, so it is driven by a counter that [split] sets to the
    length of the string. *)
Fixpoint split_go (fuel : nat) (s sep : string) : list string :=
  match fuel with
  | O => [EmptyString]
  | S fuel' =>
      match s with
      | EmptyString => [EmptyString]
      | String c s' =>
          if startswith s sep
          then EmptyString :: split_go fuel' (drop_chars (String.length sep) s) sep
          else cons_head c (split_go fuel' s' sep)
      end
  end.

Definition split (s sep : string) : list string :=
  split_go (String.length s) s sep.

End PyStr.

(** ** Python dates

    A [datetime.date] is represented by its proleptic Gregorian ordinal
    ([date.toordinal()], 1 for 0001-01-01): comparison is comparison of
    ordinals and subtracting a [timedelta] subtracts days.  The conversions
    between ordinals and year-month-day follow CPython's [_ymd2ord] and
    [_ord2ymd]. *)
Module PyDate.
Local Open Scope Z_scope.

Definition date : Type := Z.

Definition MAXORDINAL : Z := 3652059.

Definition is_leap (year : Z) : bool :=
  (year mod 4 =? 0) && (negb (year mod 100 =? 0) || (year mod 400 =? 0)).

Definition days_before_year (year : Z) : Z :=
  let y := year - 1 in y * 365 + y / 4 - y / 100 + y / 400.

Definition DAYS_IN_MONTH : list Z :=
  [31; 28; 31; 30; 31; 30; 31; 31; 30; 31; 30; 31].

Definition DAYS_BEFORE_MONTH : list Z :=
  [0; 31; 59; 90; 120; 151; 181; 212; 243; 273; 304; 334].

Definition days_in_month (year month : Z) : Z :=
  if (month =? 2) && is_leap year then 29
  else nth (Z.to_nat (month - 1)) DAYS_IN_MONTH 0.

Definition days_before_month (year month : Z) : Z :=
  nth (Z.to_nat (month - 1)) DAYS_BEFORE_MONTH 0
  + (if (2 <? month) && is_leap year then 1 else 0).

Definition ymd2ord (year month day : Z) : Z :=
  days_before_year year + days_before_month year month + day.

Definition DI400Y : Z := 146097.
Definition DI100Y : Z := 36524.
Definition DI4Y : Z := 1461.

Definition ord2ymd (ordinal : Z) : Z * Z * Z :=
  let n := ordinal - 1 in
  let n400 := n / DI400Y in
  let n := n mod DI400Y in
  let n100 := n / DI100Y in
  let n := n mod DI100Y in
  let n4 := n / DI4Y in
  let n := n mod DI4Y in
  let n1 := n / 365 in
  let n := n mod 365 in
  let year := n400 * 400 + 1 + n100 * 100 + n4 * 4 + n1 in
  if (n1 =? 4) || (n100 =? 4) then (year - 1, 12, 31)
  else
    let leapyear := (n1 =? 3) && (negb (n4 =? 24) || (n100 =? 3)) in
    let month := Z.shiftr (n + 50) 5 in
    let preceding :=
      nth (Z.to_nat (month - 1)) DAYS_BEFORE_MONTH 0
      + (if (2 <? month) && leapyear then 1 else 0) in
    if n <? preceding then
      let month := month - 1 in
      let preceding :=
        preceding - (nth (Z.to_nat (month - 1)) DAYS_IN_MONTH 0
                     + (if (month =? 2) && leapyear then 1 else 0)) in
      (year, month, n - preceding + 1)
    else (year, month, n - preceding + 1).

(** [date(year, month, day)] for a valid triple. *)
Definition mkdate (year month day : Z) : date := ymd2ord year month day.

(** One decimal digit; a date in range never reaches the last case. *)
Definition digit (n : Z) : ascii :=
  match n with
  | 0 => "0" | 1 => "1" | 2 => "2" | 3 => "3" | 4 => "4"
  | 5 => "5" | 6 => "6" | 7 => "7" | 8 => "8" | 9 => "9"
  | _ => "?"
  end%char.

Definition pad2 (n : Z) : string :=
  String (digit (n / 10)) (String (digit (n mod 10)) EmptyString).

Definition pad4 (n : Z) : string :=
  String (digit (n / 1000)) (String (digit (n / 100 mod 10))
    (String (digit (n / 10 mod 10)) (String (digit (n mod 10)) EmptyString))).

(** [d.isoformat()], that is ["%04d-%02d-%02d" % (year, month, day)]. *)
Definition isoformat (d : date) : string :=
  let '(y, m, dd) := ord2ymd d in
  pad4 y +:+ "-" +:+ pad2 m +:+ "-" +:+ pad2 dd.

Definition digit_val (c : ascii) : option Z :=
  let n := Z.of_nat (nat_of_ascii c) in
  if (48 <=? n) && (n <=? 57) then Some (n - 48) else None.

Fixpoint digits_val (acc : Z) (s : string) : option Z :=
  match s with
  | EmptyString => Some acc
  | String c s' =>
      match digit_val c with
      | Some v => digits_val (acc * 10 + v) s'
      | None => None
      end
  end.

(** [date.fromisoformat(s)] for the format [YYYY-MM-DD]; [None] stands for the
    [ValueError] raised on any other string or on an invalid date. *)
Definition fromisoformat (s : string) : option date :=
  match s with
  | String y1 (String y2 (String y3 (String y4 (String "-"
      (String m1 (String m2 (String "-" (String d1 (String d2 EmptyString))))))))) =>
      match digits_val 0 (String y1 (String y2 (String y3 (String y4 EmptyString)))),
            digits_val 0 (String m1 (String m2 EmptyString)),
            digits_val 0 (String d1 (String d2 EmptyString)) with
      | Some y, Some m, Some d =>
          if (1 <=? y) && (y <=? 9999) && (1 <=? m) && (m <=? 12)
             && (1 <=? d) && (d <=? days_in_month y m)
          then Some (ymd2ord y m d) else None
      | _, _, _ => None
      end
  | _ => None
  end.

(** [d - timedelta(weeks=w)]; [None] stands for the [OverflowError] raised
    when the result leaves the range of [date]. *)
Definition sub_weeks (d : date) (w : Z) : option date :=
  let r := d - 7 * w in
  if (1 <=? r) && (r <=? MAXORDINAL) then Some r else None.

End PyDate.

Export PyDate (date).

(** ** Exceptions, results and the world the program runs in *)

Inductive exn : Type :=
  | SourceError              (* raised by billboard.ChartData *)
  | IntegrityError           (* sqlite3: UNIQUE constraint failed *)
  | OperationalError         (* sqlite3: no such table *)
  | KeyError                 (* dict subscript *)
  | ValueError_isoformat     (* date.fromisoformat: invalid isoformat string *)
  | ValueError_not_in_list   (* list.index: value is not in list *)
  | OverflowError.           (* date - timedelta: date value out of range *)

(** What running a piece of code gives: a value, an uncaught exception, or
    [OutOfFuel] when the iteration bound given to a loop was too small. *)
Inductive outcome (A : Type) : Type :=
  | Return (a : A)
  | Raise (e : exn)
  | OutOfFuel.
Arguments Return {A} a.
Arguments Raise {A} e.
Arguments OutOfFuel {A}.

(** A [billboard.ChartData] object, reduced to what the program reads: its
    [date] and the [artist] of each entry, in chart order. *)
Record ChartData : Type := mkChartData {
  chart_date : string;
  chart_artists : list string
}.

(** Everything observable that a run does, in order.  [EvWeek] is a ghost
    event: it records the loop variable [curr_week] at the top of an iteration
    of [find_in_table] (the canonical date) and its value after the odd-date
    substitution (the date that is queried). *)
Inductive event : Type :=
  | EvChartData (chart_name datestr : string) (res : option ChartData)
  | EvSelect (table_name datestr : string) (res : option string)
  | EvInsert (table_name datestr artists : string)
  | EvWeek (canonical queried : date).

(** billboard.com: the answer to [billboard.ChartData(chart_name, datestr)]
    may depend on everything that happened before; [None] is a failed fetch. *)
Definition source : Type := list event → string → string → option ChartData.

(** The sqlite database (table name ↦ (date ↦ artists); [date] is the
    primary key of both tables) and the log of events so far. *)
Record state : Type := mkState {
  db : gmap string (gmap string string);
  log : list event
}.

Definition M (A : Type) : Type := state → outcome A * state.

Definition ret {A} (a : A) : M A := λ st, (Return a, st).

Definition raise {A} (e : exn) : M A := λ st, (Raise e, st).

Definition bind {A B} (m : M A) (k : A → M B) : M B :=
  λ st, match m st with
        | (Return a, st') => k a st'
        | (Raise e, st') => (Raise e, st')
        | (OutOfFuel, st') => (OutOfFuel, st')
        end.

Notation "'do' x '<-' m ';' k" := (bind m (λ x, k))
  (at level 10, x name, m at level 100, k at level 200).

Definition or_raise {A} (e : exn) (o : option A) : M A :=
  match o with
  | Some a => ret a
  | None => raise e
  end.

Definition emit (e : event) : M unit :=
  λ st, (Return tt, mkState (db st) (log st ++ [e])).

(** [billboard.ChartData(chart_name, datestr)] *)
Definition billboard_ChartData (billboard : source) (chart_name datestr : string)
  : M ChartData :=
  λ st, let res := billboard (log st) chart_name datestr in
        let st' := mkState (db st) (log st ++ [EvChartData chart_name datestr res]) in
        match res with
        | Some chart => (Return chart, st')
        | None => (Raise SourceError, st')
        end.

(** [dbcurs.execute("SELECT artists FROM t WHERE date = ?", (d,))] followed by
    [dbcurs.fetchone()]; the result is the [artists] column of the row. *)
Definition sql_select (table_name datestr : string) : M (option string) :=
  λ st, match db st !! table_name with
        | None => (Raise OperationalError, st)
        | Some t =>
            (Return (t !! datestr),
             mkState (db st) (log st ++ [EvSelect table_name datestr (t !! datestr)]))
        end.

(** [dbcurs.execute("INSERT INTO t VALUES (?,?)", data)] followed by
    [dbconn.commit()]. *)
Definition sql_insert (table_name datestr artists : string) : M unit :=
  λ st, match db st !! table_name with
        | None => (Raise OperationalError, st)
        | Some t =>
            match t !! datestr with
            | Some _ => (Raise IntegrityError, st)
            | None =>
                (Return tt,
                 mkState (<[table_name := <[datestr := artists]> t]> (db st))
                         (log st ++ [EvInsert table_name datestr artists]))
            end
        end.

(** ** The program *)

Record FoundInfo : Type := mkFoundInfo {
  found_date : string;
  found_artist : string;
  found_position : nat
}.

(** The dict literal, in insertion order. *)
Definition ODD_DATES : list (string * date) :=
  [("1976-07-03", PyDate.mkdate 1976 7 4)].

Definition BILLBOARD_200_EARLIEST : date := PyDate.mkdate 1963 8 17.

Definition ARTIST_SEPARATOR : string := "`~".

(** [k in d] and [d[k]] at once: [None] when the key is absent. *)
Fixpoint dict_get {V} (d : list (string * V)) (k : string) : option V :=
  match d with
  | [] => None
  | (k', v) :: d' => if String.eqb k' k then Some v else dict_get d' k
  end.

(** [l.index(x)] *)
Fixpoint list_index (l : list date) (x : date) : option nat :=
  match l with
  | [] => None
  | y :: l' => if Z.eqb y x then Some O else S <$> list_index l' x
  end.

Definition directly_follows (a b src : string) : bool :=
  PyStr.contains src (b +:+ a).

Definition key_from_value (d : list (string * date)) (val : date) : outcome string :=
  match list_index (d.*2) val with
  | None => Raise ValueError_not_in_list
  | Some i =>
      match d.*1 !! i with
      | Some k => Return k
      | None => Raise KeyError
      end
  end.

Definition chart_name_to_table_name (chart_name : string) : string :=
  if String.eqb chart_name "hot-100" then "hot100"
  else if String.eqb chart_name "billboard-200" then "bb200"
  else "".

Definition fetch_and_insert_date (billboard : source) (datestr chart_name : string)
  : M string :=
  let table_name := chart_name_to_table_name chart_name in
  do chart <- billboard_ChartData billboard chart_name datestr;
  let entries :=
    if String.eqb chart_name "hot-100" then chart_artists chart
    else take 20 (chart_artists chart) in
  let artists_str := PyStr.lower (PyStr.join ARTIST_SEPARATOR entries) in
  do _ <- sql_insert table_name (chart_date chart) artists_str;
  ret artists_str.

(** Lines 92-96 of [find_in_table]: the flag [curr_is_odd_date] and the date
    to query. *)
Definition odd_date_subst (curr_week : date) : bool * date :=
  match dict_get ODD_DATES (PyDate.isoformat curr_week) with
  | Some actual => (true, actual)
  | None => (false, curr_week)
  end.

(** Lines 98-105: the cached roster string of the week, fetched and inserted
    when the table has no row for it. *)
Definition get_or_fetch (billboard : source) (table_name chart_name : string)
    (curr_week : date) : M string :=
  do res <- sql_select table_name (PyDate.isoformat curr_week);
  match res with
  | None => fetch_and_insert_date billboard (PyDate.isoformat curr_week) chart_name
  | Some res_str => ret res_str
  end.

(** Lines 111-114: the first listing that contains the artist, with its
    1-indexed position ([i] counts the listings already passed). *)
Fixpoint first_listing (artist : string) (artists_list : list string) (i : nat)
  : option (string * nat) :=
  match artists_list with
  | [] => None
  | a :: rest =>
      if PyStr.contains a artist then Some (a, i + 1)
      else first_listing artist rest (i + 1)
  end.

(** Lines 107-114: the artist matcher on a week's roster string. *)
Definition match_week (artist res_str : string) : option (string * nat) :=
  if PyStr.contains res_str artist
     && negb (directly_follows artist " featuring " res_str)
  then first_listing artist (PyStr.split res_str ARTIST_SEPARATOR) 0
  else None.

(** Lines 116-117: back to the canonical date after an odd week. *)
Definition restore_week (curr_is_odd_date : bool) (curr_week : date) : outcome date :=
  if curr_is_odd_date then
    match key_from_value ODD_DATES curr_week with
    | Return k =>
        match PyDate.fromisoformat k with
        | Some d => Return d
        | None => Raise ValueError_isoformat
        end
    | Raise e => Raise e
    | OutOfFuel => OutOfFuel
    end
  else Return curr_week.

(** One iteration of the [while] loop of [find_in_table], lines 91-119:
    [inl] is the [return] of line 114, [inr] the next value of [curr_week]. *)
Definition find_in_table_body (billboard : source) (artist table_name chart_name : string)
    (curr_week : date) : M (FoundInfo + date) :=
  let '(curr_is_odd_date, queried) := odd_date_subst curr_week in
  do _ <- emit (EvWeek curr_week queried);
  do res_str <- get_or_fetch billboard table_name chart_name queried;
  match match_week artist res_str with
  | Some (a, position) =>
      ret (inl (mkFoundInfo (PyDate.isoformat queried) a position))
  | None =>
      λ st, match restore_week curr_is_odd_date queried with
            | Return canonical =>
                match PyDate.sub_weeks canonical 1 with
                | Some next => (Return (inr next), st)
                | None => (Raise OverflowError, st)
                end
            | Raise e => (Raise e, st)
            | OutOfFuel => (OutOfFuel, st)
            end
  end.

(** The [while curr_week > stop_date] loop, lines 90-121; [fuel] bounds the
    number of times the loop condition is evaluated. *)
Fixpoint find_in_table_loop (fuel : nat) (billboard : source)
    (artist table_name chart_name : string) (stop_date curr_week : date)
  : M (option FoundInfo) :=
  match fuel with
  | O => λ st, (OutOfFuel, st)
  | S fuel' =>
      if (curr_week >? stop_date)%Z then
        do step <- find_in_table_body billboard artist table_name chart_name curr_week;
        match step with
        | inl found => ret (Some found)
        | inr next =>
            find_in_table_loop fuel' billboard artist table_name chart_name stop_date next
        end
      else ret None
  end.

Definition find_in_table (fuel : nat) (billboard : source) (artist : string)
    (start_date stop_date : date) (chart_name : string) : M (option FoundInfo) :=
  let table_name := chart_name_to_table_name chart_name in
  do start_chart <- billboard_ChartData billboard chart_name (PyDate.isoformat start_date);
  do curr_week <- or_raise ValueError_isoformat
                    (PyDate.fromisoformat (chart_date start_chart));
  find_in_table_loop fuel billboard artist table_name chart_name stop_date curr_week.

(** [TWENTY_YEARS_AGO] depends on the day the program runs; it is a
    parameter of the embedding. *)
Definition find_in_hot100 (fuel : nat) (billboard : source) (TWENTY_YEARS_AGO : date)
    (artist : string) (start_date : date) : M (option FoundInfo) :=
  find_in_table fuel billboard artist start_date TWENTY_YEARS_AGO "hot-100".

Definition find_in_bb200 (fuel : nat) (billboard : source)
    (artist : string) (start_date : date) : M (option FoundInfo) :=
  find_in_table fuel billboard artist start_date BILLBOARD_200_EARLIEST "billboard-200".

(** Lines 172 and 180 of [main]: where the caller resumes after a hit. *)
Definition next_date (found : FoundInfo) : outcome date :=
  match PyDate.fromisoformat (found_date found) with
  | None => Raise ValueError_isoformat
  | Some d =>
      match PyDate.sub_weeks d 1 with
      | Some d' => Return d'
      | None => Raise OverflowError
      end
  end.

(** The database that [init_db] creates on a fresh file: both tables, empty. *)
Definition empty_db : state :=
  mkState (<["hot100" := ∅]> (<["bb200" := ∅]> ∅)) [].

(** ** Sample worlds, for the examples *)

(** A chart source that answers every request with a chart dated as asked. *)
Definition echo_source (artists : list string) : source :=
  λ _ _ datestr, Some (mkChartData datestr artists).

(** A chart source that answers every request with the same chart. *)
Definition fixed_source (chart : ChartData) : source := λ _ _ _, Some chart.

(** A chart source that always fails. *)
Definition dead_source : source := λ _ _ _, None.

(** A database whose table [table_name] holds one row. *)
Definition db_with (table_name datestr artists : string) : state :=
  mkState (<[table_name := {[datestr := artists]}]> (db empty_db)) [].

(** ** Reading the event log *)

(** The weeks a run went through, in order: canonical and queried date. *)
Fixpoint weeks_of (l : list event) : list (date * date) :=
  match l with
  | [] => []
  | EvWeek canonical queried :: l' => (canonical, queried) :: weeks_of l'
  | _ :: l' => weeks_of l'
  end.

(** The dates looked up in the cache, in order. *)
Fixpoint selects_of (l : list event) : list string :=
  match l with
  | [] => []
  | EvSelect _ datestr _ :: l' => datestr :: selects_of l'
  | _ :: l' => selects_of l'
  end.

Definition is_source_call (e : event) : bool :=
  match e with
  | EvChartData _ _ _ => true
  | _ => false
  end.

Definition is_failed_fetch (e : event) : bool :=
  match e with
  | EvChartData _ _ None => true
  | _ => false
  end.

(** Every call to the chart source in [l] comes right after a cache lookup of
    the same chart and date that found nothing; [prev] is the event before
    [l], if any. *)
Fixpoint cache_first_from (prev : option event) (l : list event) : Prop :=
  match l with
  | [] => True
  | e :: l' =>
      match e with
      | EvChartData chart_name datestr _ =>
          prev = Some (EvSelect (chart_name_to_table_name chart_name) datestr None)
      | _ => True
      end
      ∧ cache_first_from (Some e) l'
  end.

Definition cache_first (l : list event) : Prop := cache_first_from None l.

(** What [get_or_fetch] may log for the queried date [q], with its outcome. *)
Inductive fetch_events (table_name chart_name : string) (q : date)
  : outcome string → list event → Prop :=
  | fe_no_table :
      fetch_events table_name chart_name q (Raise OperationalError) []
  | fe_hit res_str :
      fetch_events table_name chart_name q (Return res_str)
        [EvSelect table_name (PyDate.isoformat q) (Some res_str)]
  | fe_source_failed :
      fetch_events table_name chart_name q (Raise SourceError)
        [EvSelect table_name (PyDate.isoformat q) None;
         EvChartData chart_name (PyDate.isoformat q) None]
  | fe_insert_failed chart e :
      e = OperationalError ∨ e = IntegrityError →
      fetch_events table_name chart_name q (Raise e)
        [EvSelect table_name (PyDate.isoformat q) None;
         EvChartData chart_name (PyDate.isoformat q) (Some chart)]
  | fe_inserted chart artists_str :
      fetch_events table_name chart_name q (Return artists_str)
        [EvSelect table_name (PyDate.isoformat q) None;
         EvChartData chart_name (PyDate.isoformat q) (Some chart);
         EvInsert (chart_name_to_table_name chart_name) (chart_date chart) artists_str].

(** What the loop of [find_in_table] may log from [curr_week] on, with its
    outcome: the trace semantics of the loop. *)
Inductive scan_events (artist table_name chart_name : string) (stop_date : date)
  : date → outcome (option FoundInfo) → list event → Prop :=
  | se_exhausted curr_week :
      (curr_week ≤ stop_date)%Z →
      scan_events artist table_name chart_name stop_date curr_week (Return None) []
  | se_out_of_fuel curr_week :
      scan_events artist table_name chart_name stop_date curr_week OutOfFuel []
  | se_hit curr_week evs res_str a position :
      (stop_date < curr_week)%Z →
      fetch_events table_name chart_name (odd_date_subst curr_week).2
        (Return res_str) evs →
      match_week artist res_str = Some (a, position) →
      scan_events artist table_name chart_name stop_date curr_week
        (Return (Some (mkFoundInfo
                         (PyDate.isoformat (odd_date_subst curr_week).2) a position)))
        (EvWeek curr_week (odd_date_subst curr_week).2 :: evs)
  | se_raise curr_week evs e :
      (stop_date < curr_week)%Z →
      fetch_events table_name chart_name (odd_date_subst curr_week).2 (Raise e) evs →
      scan_events artist table_name chart_name stop_date curr_week (Raise e)
        (EvWeek curr_week (odd_date_subst curr_week).2 :: evs)
  | se_overflow curr_week evs res_str :
      (stop_date < curr_week)%Z →
      fetch_events table_name chart_name (odd_date_subst curr_week).2
        (Return res_str) evs →
      match_week artist res_str = None →
      PyDate.sub_weeks curr_week 1 = None →
      scan_events artist table_name chart_name stop_date curr_week (Raise OverflowError)
        (EvWeek curr_week (odd_date_subst curr_week).2 :: evs)
  | se_next curr_week evs res_str r rest :
      (stop_date < curr_week)%Z →
      fetch_events table_name chart_name (odd_date_subst curr_week).2
        (Return res_str) evs →
      match_week artist res_str = None →
      scan_events artist table_name chart_name stop_date (curr_week - 7)%Z r rest →
      scan_events artist table_name chart_name stop_date curr_week r
        (EvWeek curr_week (odd_date_subst curr_week).2 :: evs ++ rest).

(** ** The rest of the program *)

(** [date(year, month, day)]; [None] stands for the [ValueError] raised on a
    triple that is not a date. *)
Definition date_new (year month day : Z) : option date :=
  if ((1 <=? year) && (year <=? 9999) && (1 <=? month) && (month <=? 12)
      && (1 <=? day) && (day <=? PyDate.days_in_month year month))%Z
  then Some (PyDate.ymd2ord year month day) else None.

(** Line 25, [date(TODAY.year-20, TODAY.month, TODAY.day)], for the value
    [TODAY] of [date.today()]. *)
Definition TWENTY_YEARS_AGO (TODAY : date) : option date :=
  let '(year, month, day) := PyDate.ord2ymd TODAY in
  date_new (year - 20) month day.

(** [create table if not exists t (...)] *)
Definition sql_create_table (table_name : string)
    (tables : gmap string (gmap string string)) : gmap string (gmap string string) :=
  match tables !! table_name with
  | Some _ => tables
  | None => <[table_name := ∅]> tables
  end.

(** [DELETE FROM t WHERE cond]; [None] stands for sqlite's [OperationalError]
    on a missing table. *)
Definition sql_delete_where (table_name : string) (cond : string → string → bool)
    (tables : gmap string (gmap string string))
  : option (gmap string (gmap string string)) :=
  match tables !! table_name with
  | None => None
  | Some t =>
      Some (<[table_name := filter (λ row, cond row.1 row.2 = false) t]> tables)
  end.

(** [init_db], lines 129-142, on the tables found in [billboard.db] (none
    when the file is new); [cutoff] is the value of sqlite's
    [date('now','-20 years')], and [date < cutoff] compares the two texts byte
    by byte, as sqlite does. *)
Definition init_db (cutoff : string) (file : gmap string (gmap string string))
  : outcome state :=
  let tables := sql_create_table "hot100" file in
  let tables := sql_create_table "bb200" tables in
  match sql_delete_where "hot100" (λ date _, String.ltb date cutoff) tables with
  | None => Raise OperationalError
  | Some tables =>
      match sql_delete_where "hot100" (λ _ artists, String.eqb artists "") tables with
      | None => Raise OperationalError
      | Some tables =>
          match sql_delete_where "bb200" (λ _ artists, String.eqb artists "") tables with
          | None => Raise OperationalError
          | Some tables => Return (mkState tables [])
          end
      end
  end.

(** [get_char], lines 37-42, on the byte of the key pressed.  With
    [sys.platform == "win32"] the byte that [msvcrt.getch()] gives is decoded
    as ASCII, which raises [UnicodeDecodeError] ([None] here) for a byte of
    128 or more, the first byte of an arrow key for one; elsewhere
    [getch.getch()] gives the character as it is. *)
Definition get_char (win32 : bool) (key : ascii) : option ascii :=
  if win32 && (128 <=? N_of_ascii key)%N then None else Some key.

(** How [continue_or_quit] ends on the keys pressed once [flush_stdin] is
    done: it returns, leaving the keys not yet read; it calls [sys.exit()];
    it blocks in [get_char] once the keys are used up; or [get_char] raises
    [UnicodeDecodeError], which nothing catches. *)
Inductive prompt : Type :=
  | Continue (rest : list ascii)
  | Quit (rest : list ascii)
  | AwaitingKey
  | DecodeError (rest : list ascii).

(** [continue_or_quit], lines 144-153. *)
Fixpoint continue_or_quit (win32 : bool) (keys : list ascii) : prompt :=
  match keys with
  | [] => AwaitingKey
  | byte :: rest =>
      match get_char win32 byte with
      | None => DecodeError rest
      | Some key =>
          if Ascii.eqb key "c" then Continue rest
          else if Ascii.eqb key "q" then Quit rest
          else continue_or_quit win32 rest
      end
  end.

(** How the search of one chart in [main] ends (lines 167-173 for the
    singles, 175-181 for the albums): the scan finds nothing more and the
    [while] loop is left; [continue_or_quit] calls [sys.exit()]; it blocks in
    [get_char]; [get_char] raises [UnicodeDecodeError]; an exception of a scan
    or of the date arithmetic goes uncaught; or the bound on the number of
    resumed scans was too small. *)
Inductive search_end : Type :=
  | Exhausted
  | Exited
  | Waiting
  | KeyDecodeError
  | Failed (e : exn)
  | SearchOutOfFuel.

(** The [while found_data:] loop of [main]: [scan] stands for
    [find_in_hot100(query_lowered, _, conn)] or its albums twin, [found_data]
    for the loop variable and [keys] for the keys still to come.  The result
    gives how the loop ended, the hits handed to [output_found_artist] in
    order, the keys left and the final state. *)
Fixpoint report_hits (fuel : nat) (win32 : bool) (scan : date → M (option FoundInfo))
    (found_data : option FoundInfo) (keys : list ascii) (st : state)
  : search_end * list FoundInfo * list ascii * state :=
  match found_data with
  | None => (Exhausted, [], keys, st)
  | Some data =>
      match continue_or_quit win32 keys with
      | AwaitingKey => (Waiting, [data], [], st)
      | Quit rest => (Exited, [data], rest, st)
      | DecodeError rest => (KeyDecodeError, [data], rest, st)
      | Continue rest =>
          match next_date data with
          | Return next =>
              match fuel with
              | O => (SearchOutOfFuel, [data], rest, st)
              | S fuel' =>
                  match scan next st with
                  | (Return found_data', st') =>
                      let '(e, hits, keys', st'') :=
                        report_hits fuel' win32 scan found_data' rest st' in
                      (e, data :: hits, keys', st'')
                  | (Raise e, st') => (Failed e, [data], rest, st')
                  | (OutOfFuel, st') => (SearchOutOfFuel, [data], rest, st')
                  end
              end
          | Raise e => (Failed e, [data], rest, st)
          | OutOfFuel => (SearchOutOfFuel, [data], rest, st)
          end
      end
  end.

(** The search of one chart in [main]: the first scan, from [TODAY], and the
    loop. *)
Definition search_chart (fuel : nat) (win32 : bool) (scan : date → M (option FoundInfo))
    (TODAY : date) (keys : list ascii) (st : state)
  : search_end * list FoundInfo * list ascii * state :=
  match scan TODAY st with
  | (Return found_data, st') => report_hits fuel win32 scan found_data keys st'
  | (Raise e, st') => (Failed e, [], keys, st')
  | (OutOfFuel, st') => (SearchOutOfFuel, [], keys, st')
  end.

(** The roster strings a run worked with, in order: what a cache lookup
    found, or what a fetch stored. *)
Fixpoint rosters_of (l : list event) : list string :=
  match l with
  | [] => []
  | EvSelect _ _ (Some res_str) :: l' => res_str :: rosters_of l'
  | EvInsert _ _ artists :: l' => artists :: rosters_of l'
  | _ :: l' => rosters_of l'
  end.

(** ** Auxiliary definitions for the calendar proofs *)

(** The month and the day of day [n] (from 0) of a year, as the last lines of
    [_ord2ymd] compute them. *)
Definition month_day (leapyear : bool) (n : Z) : Z * Z :=
  (let month := Z.shiftr (n + 50) 5 in
   let preceding :=
     nth (Z.to_nat (month - 1)) PyDate.DAYS_BEFORE_MONTH 0
     + (if (2 <? month) && leapyear then 1 else 0) in
   if n <? preceding then
     let month := month - 1 in
     let preceding :=
       preceding - (nth (Z.to_nat (month - 1)) PyDate.DAYS_IN_MONTH 0
                    + (if (month =? 2) && leapyear then 1 else 0)) in
     (month, n - preceding + 1)
   else (month, n - preceding + 1))%Z.

(** [month_day] gives a month, a day of that month, and the right day of the
    year. *)
Definition month_day_ok (leapyear : bool) (n : Z) : bool :=
  (let '(m, d) := month_day leapyear n in
   (1 <=? m) && (m <=? 12) && (1 <=? d)
   && (d <=? (if (m =? 2) && leapyear then 29
              else nth (Z.to_nat (m - 1)) PyDate.DAYS_IN_MONTH 0))
   && (nth (Z.to_nat (m - 1)) PyDate.DAYS_BEFORE_MONTH 0
       + (if (2 <? m) && leapyear then 1 else 0) + d =? n + 1))%Z.

(* ===================================================================== *)
(** * Part II.  Properties                                                 *)
(* ===================================================================== *)

(** stdpp keeps string concatenation folded; the proofs below compute with it. *)
#[local] Arguments String.append !_ _ / : simpl nomatch.

(** ** Strings *)
Module PyStrFacts.
Import PyStr.

Lemma app_empty_r (s : string) : s +:+ "" = s.
Proof. induction s as [|c s IH]; simpl; congruence. Qed.

Lemma app_assoc (a b c : string) : (a +:+ b) +:+ c = a +:+ (b +:+ c).
Proof. induction a as [|x a IH]; simpl; congruence. Qed.

Lemma startswith_app (p r : string) : startswith (p +:+ r) p = true.
Proof.
  induction p as [|a p IH]; simpl; [done|].
  by rewrite Ascii.eqb_refl.
Qed.

Lemma startswith_inv (s p : string) :
  startswith s p = true → s = p +:+ drop_chars (String.length p) s.
Proof.
  revert s. induction p as [|a p IH]; intros s H; simpl in *; [done|].
  destruct s as [|b s]; [done|].
  destruct (Ascii.eqb a b) eqn:E; [|done].
  apply Ascii.eqb_eq in E. subst b. f_equal. by apply IH.
Qed.

Lemma startswith_spec (s p : string) :
  startswith s p = true ↔ ∃ rest, s = p +:+ rest.
Proof.
  split.
  - intros H. eexists. by apply startswith_inv.
  - intros [rest ->]. apply startswith_app.
Qed.

Lemma contains_unfold (s sub : string) :
  contains s sub =
    if startswith s sub then true
    else match s with
         | EmptyString => false
         | String _ s' => contains s' sub
         end.
Proof. by destruct s. Qed.

Lemma contains_startswith (s sub : string) :
  startswith s sub = true → contains s sub = true.
Proof. intros H. by rewrite contains_unfold, H. Qed.

(** [sub in s] holds exactly when [s] is [pre + sub + post]. *)
Lemma contains_spec (s sub : string) :
  contains s sub = true ↔ ∃ pre post, s = pre +:+ sub +:+ post.
Proof.
  split.
  - induction s as [|c s IH]; simpl.
    + destruct (startswith "" sub) eqn:E; [|done].
      intros _. apply startswith_inv in E. exists "", (drop_chars (String.length sub) ""). done.
    + destruct (startswith (String c s) sub) eqn:E.
      * intros _. apply startswith_inv in E.
        exists "", (drop_chars (String.length sub) (String c s)). done.
      * intros H. destruct (IH H) as (pre & post & ->).
        by exists (String c pre), post.
  - intros (pre & post & ->). induction pre as [|c pre IH]; simpl.
    + apply contains_startswith, startswith_app.
    + by destruct (startswith _ sub).
Qed.

Lemma contains_empty (s : string) : contains s "" = true.
Proof. by destruct s. Qed.

Lemma contains_false_cons (c : ascii) (s sub : string) :
  contains (String c s) sub = false →
  startswith (String c s) sub = false ∧ contains s sub = false.
Proof.
  cbn [contains]. destruct (startswith (String c s) sub); [done|]. done.
Qed.

(** A substring of a substring is a substring. *)
Lemma contains_trans (s a sub : string) :
  contains s a = true → contains a sub = true → contains s sub = true.
Proof.
  rewrite !contains_spec. intros (p1 & q1 & ->) (p2 & q2 & ->).
  exists (p1 +:+ p2), (q2 +:+ q1). by rewrite !app_assoc.
Qed.

Lemma length_drop_chars (n : nat) (s : string) :
  String.length (drop_chars n s) = String.length s - n.
Proof.
  revert s. induction n as [|n IH]; intros s; simpl; [lia|].
  destruct s as [|c s]; simpl; [done|]. apply IH.
Qed.

Lemma drop_chars_app (p r : string) : drop_chars (String.length p) (p +:+ r) = r.
Proof. induction p as [|a p IH]; simpl; done. Qed.

(** The counter of [split_go] is irrelevant once it covers the string. *)
Lemma split_go_enough (f1 f2 : nat) (s sep : string) :
  sep ≠ "" → String.length s ≤ f1 → String.length s ≤ f2 →
  split_go f1 s sep = split_go f2 s sep.
Proof.
  intros Hsep. revert f2 s.
  induction f1 as [|f1 IH]; intros f2 s H1 H2.
  - destruct s; simpl in H1; [|lia]. by destruct f2.
  - destruct f2 as [|f2].
    { destruct s; simpl in H2; [|lia]. done. }
    destruct s as [|c s]; [done|]. cbn [split_go]. simpl in H1, H2.
    destruct (startswith (String c s) sep).
    + f_equal. apply IH.
      * rewrite length_drop_chars. destruct sep; [done|]. simpl. lia.
      * rewrite length_drop_chars. destruct sep; [done|]. simpl. lia.
    + f_equal. apply IH; lia.
Qed.

Lemma split_empty (sep : string) : split "" sep = [""].
Proof. done. Qed.

Lemma split_cons (c : ascii) (s sep : string) :
  sep ≠ "" →
  split (String c s) sep =
    if startswith (String c s) sep
    then "" :: split (drop_chars (String.length sep) (String c s)) sep
    else cons_head c (split s sep).
Proof.
  intros Hsep. unfold split. cbn [String.length split_go].
  destruct (startswith (String c s) sep); [|done].
  f_equal. apply split_go_enough; [done| |done].
  rewrite length_drop_chars. destruct sep; [done|]. simpl. lia.
Qed.

(** A split is never empty; its first piece is a prefix of the string and
    every piece is a substring of it. *)
Lemma split_go_pieces (f : nat) (s sep : string) :
  ∃ h t, split_go f s sep = h :: t
         ∧ (∃ post, s = h +:+ post)
         ∧ ∀ x, x ∈ t → contains s x = true.
Proof.
  revert s. induction f as [|f IH]; intros s.
  { exists "", []. split_and!; [done|by exists s|]. intros x Hx. by apply elem_of_nil in Hx. }
  destruct s as [|c s].
  { exists "", []. split_and!; [done|by exists ""|]. intros x Hx. by apply elem_of_nil in Hx. }
  cbn [split_go]. destruct (startswith (String c s) sep) eqn:E.
  - destruct (IH (drop_chars (String.length sep) (String c s))) as (h & t & -> & [post Hh] & Ht).
    exists "", (h :: t). split_and!; [done|by eexists|].
    apply startswith_inv in E.
    intros x [->|Hx]%elem_of_cons.
    + apply contains_spec. exists sep, post. by rewrite E at 1; rewrite Hh at 1.
    + apply contains_trans with (drop_chars (String.length sep) (String c s)); [|by apply Ht].
      apply contains_spec. exists sep, "". by rewrite app_empty_r.
  - destruct (IH s) as (h & t & -> & [post Hh] & Ht).
    exists (String c h), t. split_and!; [done|exists post; simpl; congruence|].
    intros x Hx. apply contains_trans with s; [|by apply Ht].
    apply contains_spec. exists (String c ""), "". simpl. by rewrite app_empty_r.
Qed.

Lemma split_pieces (s sep x : string) :
  x ∈ split s sep → contains s x = true.
Proof.
  unfold split. destruct (split_go_pieces (String.length s) s sep)
    as (h & t & -> & [post Hh] & Ht).
  intros [->|Hx]%elem_of_cons; [|by apply Ht].
  apply contains_spec. exists "", post. done.
Qed.

(** [lower] and the two characters of the separator. *)
Lemma lower_char_backtick (c : ascii) :
  Ascii.eqb "`" (lower_char c) = Ascii.eqb "`" c.
Proof. destruct c as [[] [] [] [] [] [] [] []]; reflexivity. Qed.

Lemma lower_char_tilde (c : ascii) :
  Ascii.eqb "~" (lower_char c) = Ascii.eqb "~" c.
Proof. destruct c as [[] [] [] [] [] [] [] []]; reflexivity. Qed.

Lemma lower_app (a b : string) : lower (a +:+ b) = lower a +:+ lower b.
Proof. induction a as [|c a IH]; simpl; congruence. Qed.

Lemma lower_join (sep : string) (l : list string) :
  lower (join sep l) = join (lower sep) (lower <$> l).
Proof.
  induction l as [|x l IH]; [done|].
  destruct l as [|y l]; [done|].
  change (join sep (x :: y :: l)) with (x +:+ sep +:+ join sep (y :: l)).
  rewrite !lower_app, IH. done.
Qed.

End PyStrFacts.

(** ** The roster encoding: joining on [ARTIST_SEPARATOR] and splitting back *)
Module RosterFacts.
Import PyStr PyStrFacts.

Lemma sep_nonempty : ARTIST_SEPARATOR ≠ "".
Proof. done. Qed.

Lemma lower_sep : lower ARTIST_SEPARATOR = ARTIST_SEPARATOR.
Proof. reflexivity. Qed.

Lemma split_at_sep (t : string) :
  split (ARTIST_SEPARATOR +:+ t) ARTIST_SEPARATOR = "" :: split t ARTIST_SEPARATOR.
Proof.
  change (ARTIST_SEPARATOR +:+ t) with (String "`" (String "~" t)).
  rewrite split_cons by apply sep_nonempty. reflexivity.
Qed.

(** The separator cannot begin inside an entry that does not contain it, even
    when the entry is followed by a separator: its two characters differ. *)
Lemma startswith_entry_sep (c : ascii) (e t : string) :
  contains (String c e) ARTIST_SEPARATOR = false →
  startswith (String c (e +:+ ARTIST_SEPARATOR +:+ t)) ARTIST_SEPARATOR = false.
Proof.
  intros [H _]%contains_false_cons. revert H.
  unfold ARTIST_SEPARATOR. cbn [startswith].
  destruct (Ascii.eqb "`" c); [|done].
  destruct e as [|c2 e]; simpl; done.
Qed.

Lemma split_entry_sep (e t : string) :
  contains e ARTIST_SEPARATOR = false →
  split (e +:+ ARTIST_SEPARATOR +:+ t) ARTIST_SEPARATOR = e :: split t ARTIST_SEPARATOR.
Proof.
  induction e as [|c e IH]; intros H.
  - apply split_at_sep.
  - change (String c e +:+ ARTIST_SEPARATOR +:+ t)
      with (String c (e +:+ ARTIST_SEPARATOR +:+ t)).
    rewrite split_cons by apply sep_nonempty.
    rewrite startswith_entry_sep by done.
    apply contains_false_cons in H as [_ H]. by rewrite IH.
Qed.

Lemma split_entry (e : string) :
  contains e ARTIST_SEPARATOR = false → split e ARTIST_SEPARATOR = [e].
Proof.
  induction e as [|c e IH]; intros H; [done|].
  rewrite split_cons by apply sep_nonempty.
  apply contains_false_cons in H as [-> H]. by rewrite IH.
Qed.

Lemma split_join (l : list string) :
  l ≠ [] → Forall (λ e, contains e ARTIST_SEPARATOR = false) l →
  split (join ARTIST_SEPARATOR l) ARTIST_SEPARATOR = l.
Proof.
  intros Hne Hl. induction Hl as [|x l Hx Hl IH]; [done|].
  destruct l as [|y l].
  - by apply split_entry.
  - change (join ARTIST_SEPARATOR (x :: y :: l))
      with (x +:+ ARTIST_SEPARATOR +:+ join ARTIST_SEPARATOR (y :: l)).
    rewrite split_entry_sep by done. f_equal. by apply IH.
Qed.

Lemma startswith_lower_sep (e : string) :
  startswith (lower e) ARTIST_SEPARATOR = startswith e ARTIST_SEPARATOR.
Proof.
  unfold ARTIST_SEPARATOR. destruct e as [|c e]; [done|].
  cbn [lower startswith]. rewrite lower_char_backtick.
  destruct e as [|c2 e]; [done|].
  cbn [lower]. by rewrite lower_char_tilde.
Qed.

(** Lowering neither creates nor destroys a separator. *)
Lemma contains_lower_sep (e : string) :
  contains (lower e) ARTIST_SEPARATOR = contains e ARTIST_SEPARATOR.
Proof.
  induction e as [|c e IH]; [done|].
  rewrite (contains_unfold (String c e)), <- startswith_lower_sep, <- IH.
  by rewrite (contains_unfold (lower (String c e))).
Qed.

Lemma first_listing_none (artist : string) (l : list string) (i : nat) :
  Forall (λ x, contains x artist = false) l → first_listing artist l i = None.
Proof.
  intros H. revert i. induction H as [|x l Hx _ IH]; intros i; [done|].
  cbn [first_listing]. by rewrite Hx.
Qed.

Lemma first_listing_first (artist : string) (pre : list string) (a : string)
    (post : list string) (i : nat) :
  Forall (λ x, contains x artist = false) pre →
  contains a artist = true →
  first_listing artist (pre ++ a :: post) i = Some (a, i + length pre + 1).
Proof.
  intros H Ha. revert i. induction H as [|x l Hx _ IH]; intros i.
  - cbn [app first_listing length]. rewrite Ha. do 2 f_equal. lia.
  - cbn [app first_listing length]. rewrite Hx, IH. do 2 f_equal. lia.
Qed.

Lemma match_week_rejected (artist res_str : string) :
  directly_follows artist " featuring " res_str = true →
  match_week artist res_str = None.
Proof. unfold match_week. intros ->. by rewrite andb_false_r. Qed.

Lemma match_week_first (artist res_str : string) (pre : list string) (a : string)
    (post : list string) :
  directly_follows artist " featuring " res_str = false →
  split res_str ARTIST_SEPARATOR = pre ++ a :: post →
  Forall (λ x, contains x artist = false) pre →
  contains a artist = true →
  match_week artist res_str = Some (a, length pre + 1).
Proof.
  unfold match_week. intros -> Hsplit Hpre Ha.
  assert (contains res_str artist = true) as ->.
  { apply contains_trans with a; [|done].
    apply split_pieces with ARTIST_SEPARATOR.
    rewrite Hsplit. apply elem_of_app. right. apply elem_of_cons. by left. }
  cbn [andb negb]. rewrite Hsplit. by rewrite first_listing_first.
Qed.

Lemma app_eq_empty (a b : string) : a +:+ b = "" → a = "" ∧ b = "".
Proof. by destruct a. Qed.

Lemma lower_eq_empty (s : string) : lower s = "" → s = "".
Proof. by destruct s. Qed.

(** A roster with a non-empty entry is stored as a non-empty string. *)
Lemma join_nonempty (l : list string) (a : string) :
  a ∈ l → a ≠ "" → join ARTIST_SEPARATOR l ≠ "".
Proof.
  intros Hin Ha. destruct l as [|x [|y l]].
  - by apply elem_of_nil in Hin.
  - apply list_elem_of_singleton in Hin as ->. done.
  - change (join ARTIST_SEPARATOR (x :: y :: l))
      with (x +:+ ARTIST_SEPARATOR +:+ join ARTIST_SEPARATOR (y :: l)).
    intros [_ [H _]%app_eq_empty]%app_eq_empty. done.
Qed.

End RosterFacts.

(** ** The roster round trip *)

(** C6, as stated, fails on the empty roster: joining no entry gives the empty
    string, and splitting the empty string gives one empty entry. *)
Lemma roundtrip_empty_roster_counterexample :
  Forall (λ e, PyStr.contains e ARTIST_SEPARATOR = false) []
  ∧ PyStr.split (PyStr.lower (PyStr.join ARTIST_SEPARATOR [])) ARTIST_SEPARATOR = [""]
  ∧ PyStr.split (PyStr.lower (PyStr.join ARTIST_SEPARATOR [])) ARTIST_SEPARATOR
    ≠ PyStr.lower <$> [].
Proof. split_and!; [constructor|reflexivity|discriminate]. Qed.

(** C6 (amended): for every non-empty roster whose entries do not contain the
    separator, lowering and joining the entries (line 71) and then splitting
    on the separator (line 109) gives back the lowered entries, in the same
    order and number. *)
Theorem roundtrip_nonempty_roster (roster : list string) :
  roster ≠ [] →
  Forall (λ e, PyStr.contains e ARTIST_SEPARATOR = false) roster →
  PyStr.split (PyStr.lower (PyStr.join ARTIST_SEPARATOR roster)) ARTIST_SEPARATOR
  = PyStr.lower <$> roster.
Proof.
  intros Hne Hsep.
  rewrite PyStrFacts.lower_join, RosterFacts.lower_sep.
  apply RosterFacts.split_join.
  - by destruct roster.
  - apply Forall_fmap. eapply Forall_impl; [exact Hsep|].
    intros e He. simpl. by rewrite RosterFacts.contains_lower_sep.
Qed.

Lemma roundtrip_nonempty_roster_witness :
  PyStr.split
    (PyStr.lower (PyStr.join ARTIST_SEPARATOR ["Avril Lavigne"; "Drake"; "Sia"]))
    ARTIST_SEPARATOR
  = ["avril lavigne"; "drake"; "sia"].
Proof.
  apply (roundtrip_nonempty_roster ["Avril Lavigne"; "Drake"; "Sia"]).
  - discriminate.
  - repeat constructor.
Defined.

(** ** The artist matcher *)

(** C1, as stated, fails: the query is the whole first entry, nothing precedes
    it in the joined string, and still the week is rejected because
    [" featuring drake"] occurs in the second entry. *)
Lemma match_week_rejects_elsewhere_counterexample :
  let roster := ["drake"; "x featuring drake"] in
  let res_str := PyStr.join ARTIST_SEPARATOR roster in
  roster !! 0%nat = Some "drake"
  ∧ PyStr.startswith res_str "drake" = true
  ∧ PyStr.split res_str ARTIST_SEPARATOR = roster
  ∧ match_week "drake" res_str = None.
Proof. split_and!; reflexivity. Qed.

(** C1 (amended): the matcher rejects a week whenever [" featuring "] followed
    by the query occurs anywhere in the joined roster string; when it occurs
    nowhere and some entry contains the query, the matcher returns the first
    such entry with its 1-indexed position. *)
Theorem match_week_spec (artist res_str : string) :
  (directly_follows artist " featuring " res_str = true →
   match_week artist res_str = None)
  ∧ (directly_follows artist " featuring " res_str = false →
     ∀ pre a post,
       PyStr.split res_str ARTIST_SEPARATOR = pre ++ a :: post →
       Forall (λ x, PyStr.contains x artist = false) pre →
       PyStr.contains a artist = true →
       match_week artist res_str = Some (a, length pre + 1)).
Proof.
  split.
  - apply RosterFacts.match_week_rejected.
  - intros Hf pre a post. by apply RosterFacts.match_week_first.
Qed.

Lemma match_week_spec_witness :
  match_week "drake" "bad bunny`~karol g featuring drake`~sia" = None
  ∧ match_week "drake" "avril lavigne`~drake featuring sia`~sia"
    = Some ("drake featuring sia", 2).
Proof.
  split.
  - apply (match_week_spec "drake" "bad bunny`~karol g featuring drake`~sia").
    reflexivity.
  - apply (proj2 (match_week_spec "drake" "avril lavigne`~drake featuring sia`~sia")
             eq_refl ["avril lavigne"] "drake featuring sia" ["sia"]).
    + reflexivity.
    + repeat constructor.
    + reflexivity.
Defined.

(** ** Dates *)
Module PyDateFacts.
Import PyDate.
Local Open Scope Z_scope.

Lemma digit_range (n : Z) : 0 ≤ n ≤ 9 ∨ digit n = "?"%char.
Proof.
  destruct n as [|p|p]; [left; lia| |by right].
  do 4 (try destruct p as [p|p|]); (left; lia) || (by right).
Qed.

Lemma digit_inv (n k : Z) : 0 ≤ k ≤ 9 → digit n = digit k → n = k.
Proof.
  intros Hk H.
  assert (k = 0 ∨ k = 1 ∨ k = 2 ∨ k = 3 ∨ k = 4 ∨ k = 5 ∨ k = 6 ∨ k = 7 ∨ k = 8 ∨ k = 9)
    as Hc' by lia.
  assert (digit k ≠ "?"%char) as Hq by (destruct_or!; subst k; discriminate).
  destruct (digit_range n) as [Hn|Hn]; [|congruence].
  assert (n = 0 ∨ n = 1 ∨ n = 2 ∨ n = 3 ∨ n = 4 ∨ n = 5 ∨ n = 6 ∨ n = 7 ∨ n = 8 ∨ n = 9)
    as Hc by lia.
  destruct_or!; subst n k; try reflexivity; discriminate.
Qed.

Lemma pad4_1976 (y : Z) : pad4 y = "1976" → y = 1976.
Proof.
  unfold pad4. intros H. injection H as H1 H2 H3 H4.
  apply (digit_inv _ 1) in H1; [|lia]. apply (digit_inv _ 9) in H2; [|lia].
  apply (digit_inv _ 7) in H3; [|lia]. apply (digit_inv _ 6) in H4; [|lia].
  Z.to_euclidean_division_equations; lia.
Qed.

(** The ordinals of the year 1976. *)
Lemma year_1976_range (d m dd : Z) :
  ord2ymd d = (1976, m, dd) → 721354 ≤ d ≤ 721719.
Proof.
  unfold ord2ymd, DI400Y, DI100Y, DI4Y. cbv zeta.
  destruct (_ || _) eqn:E1.
  - intros [= H _ _]. apply orb_true_iff in E1 as [E1|E1]; apply Z.eqb_eq in E1;
      Z.to_euclidean_division_equations; lia.
  - apply orb_false_iff in E1 as [E1 E2]. apply Z.eqb_neq in E1, E2.
    destruct (_ <? _); intros [= H _ _];
      Z.to_euclidean_division_equations; lia.
Qed.

Lemma range_forallb (P : Z → bool) (lo : Z) (n : nat) :
  forallb P ((λ i, lo + Z.of_nat i) <$> seq 0 n) = true →
  ∀ d, lo ≤ d < lo + Z.of_nat n → P d = true.
Proof.
  intros H d Hd. rewrite forallb_forall in H. apply H.
  apply list_elem_of_In, list_elem_of_fmap. exists (Z.to_nat (d - lo)). split; [lia|].
  apply elem_of_seq. lia.
Qed.

(** Only one date prints as the key of [ODD_DATES]: the year is read off the
    string, and the days of that year are checked one by one. *)
Lemma isoformat_odd_inv (d : date) :
  isoformat d = "1976-07-03" → d = mkdate 1976 7 3.
Proof.
  intros H.
  assert (721354 ≤ d ≤ 721719) as Hr.
  { unfold isoformat in H. destruct (ord2ymd d) as [[y m] dd] eqn:E.
    assert (y = 1976) as ->.
    { apply pad4_1976. unfold pad4, pad2 in *. simpl in H. by injection H as -> -> -> ->. }
    by apply year_1976_range in E. }
  pose proof (range_forallb
    (λ d, implb (String.eqb (isoformat d) "1976-07-03") (d =? mkdate 1976 7 3))
    721354 366 ltac:(vm_compute; reflexivity) d ltac:(lia)) as Hc.
  simpl in Hc. rewrite H in Hc. simpl in Hc. by apply Z.eqb_eq in Hc.
Qed.

Lemma sub_weeks_one (d d' : date) : sub_weeks d 1 = Some d' → d' = d - 7.
Proof.
  unfold sub_weeks. destruct (_ && _); [|done]. intros [= <-]. lia.
Qed.

End PyDateFacts.

(** ** The odd-date table *)
Module OddDateFacts.
Import PyDate PyDateFacts.
Local Open Scope Z_scope.

Lemma odd_date_subst_odd :
  odd_date_subst (mkdate 1976 7 3) = (true, mkdate 1976 7 4).
Proof. vm_compute. reflexivity. Qed.

Lemma odd_date_subst_cases (curr_week : date) :
  (curr_week = mkdate 1976 7 3 ∧ odd_date_subst curr_week = (true, mkdate 1976 7 4))
  ∨ (curr_week ≠ mkdate 1976 7 3 ∧ odd_date_subst curr_week = (false, curr_week)).
Proof.
  destruct (decide (curr_week = mkdate 1976 7 3)) as [->|Hne].
  - left. split; [done|apply odd_date_subst_odd].
  - right. split; [done|]. unfold odd_date_subst, ODD_DATES. cbn [dict_get].
    destruct (String.eqb_spec "1976-07-03" (isoformat curr_week)) as [E|E]; [|done].
    symmetry in E. by apply isoformat_odd_inv in E.
Qed.

(** The queried date is the canonical one, or the day after it in the odd week. *)
Lemma odd_date_subst_queried (curr_week : date) :
  (odd_date_subst curr_week).2 =
    if decide (curr_week = mkdate 1976 7 3) then curr_week + 1 else curr_week.
Proof.
  destruct (odd_date_subst_cases curr_week) as [[-> ->]|[Hne ->]].
  - rewrite decide_True by done. vm_compute. reflexivity.
  - by rewrite decide_False.
Qed.

(** The reverse lookup undoes the substitution. *)
Lemma restore_after_subst (curr_week : date) :
  restore_week (odd_date_subst curr_week).1 (odd_date_subst curr_week).2
  = Return curr_week.
Proof.
  destruct (odd_date_subst_cases curr_week) as [[-> ->]|[Hne ->]].
  - vm_compute. reflexivity.
  - reflexivity.
Qed.

End OddDateFacts.

(** ** The cache and the loop, step by step *)
Module ScanFacts.
Import PyDate PyDateFacts OddDateFacts.
Local Open Scope Z_scope.

#[local] Arguments isoformat : simpl never.
#[local] Arguments fromisoformat : simpl never.
#[local] Arguments PyStr.lower : simpl never.
#[local] Arguments PyStr.join : simpl never.
#[local] Arguments match_week : simpl never.
#[local] Arguments odd_date_subst : simpl never.
#[local] Arguments chart_name_to_table_name : simpl never.

(** The roster string that [fetch_and_insert_date] builds from a chart. *)
Lemma fetch_source_failed (billboard : source) (datestr chart_name : string) (st : state) :
  billboard (log st) chart_name datestr = None →
  fetch_and_insert_date billboard datestr chart_name st
  = (Raise SourceError,
     mkState (db st) (log st ++ [EvChartData chart_name datestr None])).
Proof.
  intros H. unfold fetch_and_insert_date, bind, billboard_ChartData. by rewrite H.
Qed.

Lemma fetch_inserted (billboard : source) (datestr chart_name : string) (st : state)
    (chart : ChartData) (t : gmap string string) :
  billboard (log st) chart_name datestr = Some chart →
  db st !! chart_name_to_table_name chart_name = Some t →
  t !! chart_date chart = None →
  let artists_str :=
    PyStr.lower (PyStr.join ARTIST_SEPARATOR
      (if String.eqb chart_name "hot-100" then chart_artists chart
       else take 20 (chart_artists chart))) in
  fetch_and_insert_date billboard datestr chart_name st
  = (Return artists_str,
     mkState (<[chart_name_to_table_name chart_name := <[chart_date chart := artists_str]> t]>
                (db st))
             (log st ++ [EvChartData chart_name datestr (Some chart);
                         EvInsert (chart_name_to_table_name chart_name)
                                  (chart_date chart) artists_str])).
Proof.
  intros H Ht Hk. unfold fetch_and_insert_date, bind, billboard_ChartData, sql_insert, ret.
  rewrite H. cbn [db log]. rewrite Ht, Hk. by rewrite <- app_assoc.
Qed.

Lemma fetch_events_of (billboard : source) (datestr chart_name : string) (st : state)
    (r : outcome string) (st' : state) :
  fetch_and_insert_date billboard datestr chart_name st = (r, st') →
  (r = Raise SourceError ∧ db st' = db st
   ∧ log st' = log st ++ [EvChartData chart_name datestr None])
  ∨ (∃ chart e, (e = OperationalError ∨ e = IntegrityError) ∧ r = Raise e
       ∧ db st' = db st
       ∧ log st' = log st ++ [EvChartData chart_name datestr (Some chart)])
  ∨ (∃ chart s, r = Return s
       ∧ log st' = log st ++ [EvChartData chart_name datestr (Some chart);
                              EvInsert (chart_name_to_table_name chart_name)
                                       (chart_date chart) s]).
Proof.
  unfold fetch_and_insert_date, bind, billboard_ChartData, sql_insert, ret.
  destruct (billboard (log st) chart_name datestr) as [chart|].
  - cbn [db log].
    destruct (db st !! chart_name_to_table_name chart_name) as [t|].
    + destruct (t !! chart_date chart).
      * intros [= <- <-]. right. left. exists chart, IntegrityError. auto.
      * intros [= <- <-]. right. right. eexists chart, _. split; [done|].
        cbn [log]. by rewrite <- app_assoc.
    + intros [= <- <-]. right. left. exists chart, OperationalError. auto.
  - intros [= <- <-]. left. auto.
Qed.

Lemma get_or_fetch_events (billboard : source) (table_name chart_name : string)
    (q : date) (st : state) (r : outcome string) (st' : state) :
  get_or_fetch billboard table_name chart_name q st = (r, st') →
  ∃ evs, log st' = log st ++ evs ∧ fetch_events table_name chart_name q r evs.
Proof.
  unfold get_or_fetch, bind, sql_select, ret.
  destruct (db st !! table_name) as [t|].
  - destruct (t !! isoformat q) as [res_str|].
    + intros [= <- <-]. eexists. split; [done|]. constructor.
    + intros H. apply fetch_events_of in H. cbn [db log] in H.
      destruct H as [(-> & _ & ->)|[(chart & e & He & -> & _ & ->)|(chart & s & -> & ->)]];
        rewrite <- app_assoc; eexists; (split; [done|]); cbn [app]; by constructor.
  - intros [= <- <-]. exists []. rewrite app_nil_r. split; [done|]. constructor.
Qed.

(** One iteration, with the odd-date bookkeeping resolved. *)
Lemma find_in_table_body_eq (billboard : source) (artist table_name chart_name : string)
    (curr_week : date) (st : state) :
  find_in_table_body billboard artist table_name chart_name curr_week st =
    let q := (odd_date_subst curr_week).2 in
    match get_or_fetch billboard table_name chart_name q
            (mkState (db st) (log st ++ [EvWeek curr_week q])) with
    | (Return res_str, st1) =>
        match match_week artist res_str with
        | Some (a, position) =>
            (Return (inl (mkFoundInfo (isoformat q) a position)), st1)
        | None =>
            match sub_weeks curr_week 1 with
            | Some next => (Return (inr next), st1)
            | None => (Raise OverflowError, st1)
            end
        end
    | (Raise e, st1) => (Raise e, st1)
    | (OutOfFuel, st1) => (OutOfFuel, st1)
    end.
Proof.
  unfold find_in_table_body. pose proof (restore_after_subst curr_week) as Hr.
  destruct (odd_date_subst curr_week) as [flag q]. cbn [fst snd] in *.
  unfold bind, emit, ret.
  destruct (get_or_fetch _ _ _ _ _) as [[res_str|e|] st1]; [|done|done].
  destruct (match_week artist res_str) as [[a position]|]; [done|].
  by rewrite Hr.
Qed.

Lemma find_in_table_loop_S (fuel : nat) (billboard : source)
    (artist table_name chart_name : string) (stop_date curr_week : date) (st : state) :
  find_in_table_loop (S fuel) billboard artist table_name chart_name stop_date curr_week st =
    if curr_week >? stop_date then
      match find_in_table_body billboard artist table_name chart_name curr_week st with
      | (Return (inl found), st1) => (Return (Some found), st1)
      | (Return (inr next), st1) =>
          find_in_table_loop fuel billboard artist table_name chart_name stop_date next st1
      | (Raise e, st1) => (Raise e, st1)
      | (OutOfFuel, st1) => (OutOfFuel, st1)
      end
    else (Return None, st).
Proof.
  cbn [find_in_table_loop]. destruct (curr_week >? stop_date); [|done].
  unfold bind, ret. by destruct (find_in_table_body _ _ _ _ _ _) as [[[found|next]|e|] st1].
Qed.

(** Every run of the loop logs a trace of [scan_events]. *)
Lemma loop_scan_events (billboard : source) (artist table_name chart_name : string)
    (stop_date : date) (fuel : nat) :
  ∀ (curr_week : date) (st : state) r st',
    find_in_table_loop fuel billboard artist table_name chart_name stop_date curr_week st
    = (r, st') →
    ∃ evs, log st' = log st ++ evs
           ∧ scan_events artist table_name chart_name stop_date curr_week r evs.
Proof.
  induction fuel as [|fuel IH]; intros curr_week st r st' H.
  { injection H as <- <-. exists []. rewrite app_nil_r. split; [done|]. constructor. }
  rewrite find_in_table_loop_S in H.
  destruct (curr_week >? stop_date) eqn:G.
  2:{ injection H as <- <-. exists []. rewrite app_nil_r. split; [done|].
      constructor. lia. }
  assert (stop_date < curr_week) as G' by lia.
  rewrite find_in_table_body_eq in H. cbv zeta in H.
  destruct (get_or_fetch _ _ _ _ _) as [ro st1] eqn:Hg.
  apply get_or_fetch_events in Hg as (evs & Hlog & Hfe). cbn [log] in Hlog.
  destruct ro as [res_str|e|]; [| |inversion Hfe].
  - destruct (match_week artist res_str) as [[a position]|] eqn:Hm.
    + injection H as <- <-. exists (EvWeek curr_week (odd_date_subst curr_week).2 :: evs).
      split; [by rewrite Hlog, <- app_assoc|]. by eapply se_hit.
    + destruct (sub_weeks curr_week 1) as [next|] eqn:Hs.
      * apply sub_weeks_one in Hs as ->.
        apply IH in H as (rest & Hlog' & Hse).
        exists (EvWeek curr_week (odd_date_subst curr_week).2 :: evs ++ rest).
        split; [by rewrite Hlog', Hlog, <- !app_assoc|]. by eapply se_next.
      * injection H as <- <-. exists (EvWeek curr_week (odd_date_subst curr_week).2 :: evs).
        split; [by rewrite Hlog, <- app_assoc|]. by eapply se_overflow.
  - injection H as <- <-. exists (EvWeek curr_week (odd_date_subst curr_week).2 :: evs).
    split; [by rewrite Hlog, <- app_assoc|]. by eapply se_raise.
Qed.

End ScanFacts.

(** ** What every trace of the loop satisfies *)
Module TraceFacts.
Import PyDate PyDateFacts OddDateFacts ScanFacts.
Local Open Scope Z_scope.

#[local] Arguments isoformat : simpl never.
#[local] Arguments odd_date_subst : simpl never.
#[local] Arguments chart_name_to_table_name : simpl never.

Lemma weeks_of_app (a b : list event) : weeks_of (a ++ b) = weeks_of a ++ weeks_of b.
Proof.
  induction a as [|e a IH]; [done|]. destruct e; cbn [app weeks_of]; by rewrite ?IH.
Qed.

Lemma selects_of_app (a b : list event) : selects_of (a ++ b) = selects_of a ++ selects_of b.
Proof.
  induction a as [|e a IH]; [done|]. destruct e; cbn [app selects_of]; by rewrite ?IH.
Qed.

Lemma cache_first_from_weaken (prev : option event) (l : list event) :
  cache_first l → cache_first_from prev l.
Proof.
  unfold cache_first. destruct l as [|e l]; [done|].
  cbn [cache_first_from]. intros [H1 H2]. split; [|done]. by destruct e.
Qed.

Lemma cache_first_from_app (prev : option event) (a b : list event) :
  cache_first_from prev a → cache_first b → cache_first_from prev (a ++ b).
Proof.
  revert prev. induction a as [|e a IH]; intros prev Ha Hb.
  - by apply cache_first_from_weaken.
  - destruct Ha as [H1 H2]. split; [done|]. by apply IH.
Qed.

Section Trace.
Context (artist table_name chart_name : string) (stop_date : date).

#[local] Abbreviation fetched := (fetch_events table_name chart_name).
#[local] Abbreviation scanned := (scan_events artist table_name chart_name stop_date).

Lemma fetch_events_weeks q r evs : fetched q r evs → weeks_of evs = [].
Proof. by destruct 1. Qed.

Lemma fetch_events_selects q r evs :
  fetched q r evs → selects_of evs = [isoformat q] ∨ r = Raise OperationalError.
Proof. destruct 1; auto. Qed.

Lemma fetch_events_cache_first q r evs w :
  table_name = chart_name_to_table_name chart_name →
  fetched q r evs → cache_first_from (Some w) evs.
Proof. intros ->. destruct 1; cbn [cache_first_from]; auto. Qed.

Lemma fetch_events_raise q e evs :
  fetched q (Raise e) evs →
  e = OperationalError ∨ e = SourceError ∨ e = IntegrityError.
Proof. intros H. inversion H as [| | |? ? [->| ->]|]; auto. Qed.

(** A failed fetch is the last event of a lookup and makes it fail. *)
Lemma fetch_events_failed q r evs (i : nat) e :
  fetched q r evs → evs !! i = Some e → is_failed_fetch e = true →
  r = Raise SourceError ∧ S i = length evs.
Proof.
  destruct 1; intros Hi He;
    repeat (destruct i as [|i]; cbn in Hi; simplify_eq; try done).
Qed.

Lemma scan_weeks curr_week r evs :
  scanned curr_week r evs →
  ∀ (k : nat) w, weeks_of evs !! k = Some w →
    w.1 = curr_week - 7 * Z.of_nat k ∧ stop_date < w.1
    ∧ w.2 = (odd_date_subst w.1).2.
Proof.
  induction 1 as [c Hc|c|c evs s a p Hc Hf Hm|c evs e Hc Hf|c evs s Hc Hf Hm Hs
                 |c evs s r rest Hc Hf Hm Hrest IH]; intros k w Hk;
    cbn [weeks_of] in Hk; try done;
    rewrite ?weeks_of_app, ?(fetch_events_weeks _ _ _ Hf) in Hk; cbn [app] in Hk;
    destruct k as [|k]; cbn in Hk; simplify_eq; cbn [fst snd];
    try (split_and!; [lia|done|done]).
  destruct (IH k w Hk) as (H1 & H2 & H3). split_and!; [lia|done|done].
Qed.

Lemma scan_exhausted curr_week r evs :
  scanned curr_week r evs → r = Return None →
  curr_week - 7 * Z.of_nat (length (weeks_of evs)) ≤ stop_date.
Proof.
  induction 1 as [c Hc|c|c evs s a p Hc Hf Hm|c evs e Hc Hf|c evs s Hc Hf Hm Hs
                 |c evs s r rest Hc Hf Hm Hrest IH]; intros Hr; try done.
  - cbn. lia.
  - cbn [weeks_of]. rewrite weeks_of_app, (fetch_events_weeks _ _ _ Hf).
    cbn [app length]. specialize (IH Hr). lia.
Qed.

Lemma scan_selects curr_week r evs :
  scanned curr_week r evs →
  selects_of evs = isoformat <$> (weeks_of evs).*2 ∨ r = Raise OperationalError.
Proof.
  induction 1 as [c Hc|c|c evs s a p Hc Hf Hm|c evs e Hc Hf|c evs s Hc Hf Hm Hs
                 |c evs s r rest Hc Hf Hm Hrest IH]; [by left|by left|..];
    cbn [weeks_of selects_of];
    rewrite ?weeks_of_app, ?selects_of_app, ?(fetch_events_weeks _ _ _ Hf);
    (destruct (fetch_events_selects _ _ _ Hf) as [->|?]; [|simplify_eq; by right]).
  1-3: by left.
  destruct IH as [->|?]; [by left|by right].
Qed.

Lemma scan_cache_first curr_week r evs :
  table_name = chart_name_to_table_name chart_name →
  scanned curr_week r evs → cache_first evs.
Proof.
  intros Ht.
  induction 1 as [c Hc|c|c evs s a p Hc Hf Hm|c evs e Hc Hf|c evs s Hc Hf Hm Hs
                 |c evs s r rest Hc Hf Hm Hrest IH]; try done;
    (split; [done|]); try by eapply fetch_events_cache_first.
  apply cache_first_from_app; [by eapply fetch_events_cache_first|done].
Qed.

Lemma scan_raise curr_week e evs :
  scanned curr_week (Raise e) evs →
  e = OperationalError ∨ e = SourceError ∨ e = IntegrityError ∨ e = OverflowError.
Proof.
  intros H. remember (Raise e) as r eqn:Hr. revert Hr.
  induction H as [c Hc|c|c evs s a p Hc Hf Hm|c evs e' Hc Hf|c evs s Hc Hf Hm Hs
                 |c evs s r rest Hc Hf Hm Hrest IH]; intros Hr; try done.
  - injection Hr as ->. apply fetch_events_raise in Hf. tauto.
  - injection Hr as <-. tauto.
  - by apply IH.
Qed.

(** A failed fetch is the last event of a scan and makes the scan fail. *)
Lemma scan_failed_fetch curr_week r evs :
  scanned curr_week r evs →
  ∀ (i : nat) e, evs !! i = Some e → is_failed_fetch e = true →
    r = Raise SourceError ∧ S i = length evs.
Proof.
  induction 1 as [c Hc|c|c evs s a p Hc Hf Hm|c evs e' Hc Hf|c evs s Hc Hf Hm Hs
                 |c evs s r rest Hc Hf Hm Hrest IH]; intros i e Hi He; try done;
    (destruct i as [|i]; cbn in Hi; [by simplify_eq|]).
  - by destruct (fetch_events_failed _ _ _ _ _ Hf Hi He).
  - destruct (fetch_events_failed _ _ _ _ _ Hf Hi He) as [[= ->] Hl].
    split; [done|]. cbn [length]. lia.
  - by destruct (fetch_events_failed _ _ _ _ _ Hf Hi He).
  - apply lookup_app_Some in Hi as [Hi|[Hlen Hi]].
    + by destruct (fetch_events_failed _ _ _ _ _ Hf Hi He).
    + destruct (IH _ _ Hi He) as [-> Hl]. split; [done|].
      cbn [length]. rewrite length_app. lia.
Qed.

End Trace.

(** The queried dates of a decreasing weekly walk never repeat. *)
Lemma weeks_NoDup (d0 stop_date : date) (ws : list (date * date)) :
  (∀ (k : nat) w, ws !! k = Some w →
     w.1 = d0 - 7 * Z.of_nat k ∧ stop_date < w.1 ∧ w.2 = (odd_date_subst w.1).2) →
  NoDup ws.*1 ∧ NoDup ws.*2.
Proof.
  intros H. split; apply NoDup_alt; intros i j x Hi Hj;
    apply list_lookup_fmap_Some in Hi as (wi & -> & Hwi);
    apply list_lookup_fmap_Some in Hj as (wj & Hx & Hwj);
    destruct (H _ _ Hwi) as (Hi1 & _ & Hi2); destruct (H _ _ Hwj) as (Hj1 & _ & Hj2);
    unfold date in *.
  - lia.
  - rewrite Hi2, Hj2, !odd_date_subst_queried in Hx.
    repeat case_decide; lia.
Qed.

End TraceFacts.

(** ** The whole scan *)
Module FindFacts.
Import PyDate PyDateFacts OddDateFacts ScanFacts TraceFacts.
Local Open Scope Z_scope.

#[local] Arguments isoformat : simpl never.
#[local] Arguments fromisoformat : simpl never.
#[local] Arguments odd_date_subst : simpl never.
#[local] Arguments chart_name_to_table_name : simpl never.

Lemma find_in_table_eq (fuel : nat) (billboard : source) (artist : string)
    (start_date stop_date : date) (chart_name : string) (st : state) :
  find_in_table fuel billboard artist start_date stop_date chart_name st =
    let res := billboard (log st) chart_name (isoformat start_date) in
    let st1 := mkState (db st)
                 (log st ++ [EvChartData chart_name (isoformat start_date) res]) in
    match res with
    | None => (Raise SourceError, st1)
    | Some start_chart =>
        match fromisoformat (chart_date start_chart) with
        | None => (Raise ValueError_isoformat, st1)
        | Some curr_week =>
            find_in_table_loop fuel billboard artist
              (chart_name_to_table_name chart_name) chart_name stop_date curr_week st1
        end
    end.
Proof.
  unfold find_in_table, bind, billboard_ChartData, or_raise.
  destruct (billboard _ _ _) as [start_chart|]; [|done]. cbv zeta.
  by destruct (fromisoformat _).
Qed.

(** The scan as a trace: the call that resolves the starting date, then the
    loop. *)
Lemma find_in_table_trace (fuel : nat) (billboard : source) (artist : string)
    (start_date stop_date : date) (chart_name : string) (st : state) r st' :
  find_in_table fuel billboard artist start_date stop_date chart_name st = (r, st') →
  (∃ res, log st' = log st ++ [EvChartData chart_name (isoformat start_date) res]
     ∧ db st' = db st
     ∧ billboard (log st) chart_name (isoformat start_date) = res
     ∧ ((res = None ∧ r = Raise SourceError)
        ∨ (∃ c, res = Some c ∧ fromisoformat (chart_date c) = None
                 ∧ r = Raise ValueError_isoformat)))
  ∨ (∃ c d0 evs,
       billboard (log st) chart_name (isoformat start_date) = Some c
       ∧ fromisoformat (chart_date c) = Some d0
       ∧ log st' = log st ++ EvChartData chart_name (isoformat start_date) (Some c) :: evs
       ∧ scan_events artist (chart_name_to_table_name chart_name) chart_name stop_date
           d0 r evs).
Proof.
  rewrite find_in_table_eq. cbv zeta.
  destruct (billboard _ _ _) as [c|] eqn:Hb.
  - destruct (fromisoformat (chart_date c)) as [d0|] eqn:Hd.
    + intros H. apply loop_scan_events in H as (evs & Hlog & Hse). cbn [log] in Hlog.
      right. exists c, d0, evs. split_and!; [done|done| |done].
      by rewrite Hlog, <- app_assoc.
    + intros [= <- <-]. left. eexists. split_and!; [done|done|done|].
      right. by exists c.
  - intros [= <- <-]. left. eexists. split_and!; [done|done|done|]. by left.
Qed.

(** The loop ends: each turn brings [curr_week] seven days closer to
    [stop_date]. *)
Lemma loop_not_out_of_fuel (billboard : source) (artist table_name chart_name : string)
    (stop_date : date) (fuel : nat) :
  ∀ (curr_week : date) (st : state),
    (Z.to_nat (curr_week - stop_date) < fuel)%nat →
    (find_in_table_loop fuel billboard artist table_name chart_name
       stop_date curr_week st).1 ≠ OutOfFuel.
Proof.
  induction fuel as [|fuel IH]; intros curr_week st Hf; [lia|].
  rewrite find_in_table_loop_S.
  destruct (curr_week >? stop_date) eqn:G; [|done].
  rewrite find_in_table_body_eq. cbv zeta.
  destruct (get_or_fetch _ _ _ _ _) as [ro st1] eqn:Hg.
  apply get_or_fetch_events in Hg as (evs & _ & Hfe).
  destruct ro as [res_str|e|]; [|done|inversion Hfe].
  destruct (match_week artist res_str) as [[a position]|]; [done|].
  destruct (sub_weeks curr_week 1) as [next|] eqn:Hs; [|done].
  apply sub_weeks_one in Hs as ->. apply IH. lia.
Qed.

Lemma find_in_table_not_out_of_fuel (fuel : nat) (billboard : source) (artist : string)
    (start_date stop_date : date) (chart_name : string) (st : state) c d0 :
  billboard (log st) chart_name (isoformat start_date) = Some c →
  fromisoformat (chart_date c) = Some d0 →
  (Z.to_nat (d0 - stop_date) < fuel)%nat →
  (find_in_table fuel billboard artist start_date stop_date chart_name st).1 ≠ OutOfFuel.
Proof.
  intros Hb Hd Hf. rewrite find_in_table_eq. cbv zeta. rewrite Hb, Hd.
  by apply loop_not_out_of_fuel.
Qed.

Lemma odd_date_subst_snd (d : date) :
  (odd_date_subst d).2 =
    match dict_get ODD_DATES (isoformat d) with
    | Some actual => actual
    | None => d
    end.
Proof. unfold odd_date_subst. by destruct (dict_get _ _). Qed.

End FindFacts.

(** ** The calendar walk *)

Lemma earliest_ordinal : BILLBOARD_200_EARLIEST = 716834%Z.
Proof. reflexivity. Qed.

Lemma odd_ordinal : PyDate.mkdate 1976 7 3 = 721538%Z.
Proof. reflexivity. Qed.

(** C5: the canonical candidates of a scan go down from the resolved starting
    date by exactly seven days per step and all lie after [stop_date]; the
    date queried for a candidate is its entry in [ODD_DATES] when it has one,
    and the candidate itself otherwise, while the next candidate is always
    seven days before the canonical one; no canonical and no queried date
    comes twice; a scan that returns [None] stops at the first candidate at
    or before [stop_date]; and the scan ends within a bounded number of
    turns. *)
Theorem scan_candidate_dates (billboard : source) (fuel : nat) (artist : string)
    (start_date stop_date : date) (chart_name : string) (st : state)
    (c : ChartData) (d0 : date) (r : outcome (option FoundInfo)) (st' : state) :
  billboard (log st) chart_name (PyDate.isoformat start_date) = Some c →
  PyDate.fromisoformat (chart_date c) = Some d0 →
  find_in_table fuel billboard artist start_date stop_date chart_name st = (r, st') →
  ∃ evs,
    log st' = log st ++ EvChartData chart_name (PyDate.isoformat start_date) (Some c) :: evs
    ∧ (∀ (k : nat) w, weeks_of evs !! k = Some w →
         (w.1 = d0 - 7 * Z.of_nat k)%Z ∧ (stop_date < w.1)%Z
         ∧ w.2 = match dict_get ODD_DATES (PyDate.isoformat w.1) with
                 | Some actual => actual
                 | None => w.1
                 end)
    ∧ (selects_of evs = PyDate.isoformat <$> (weeks_of evs).*2
       ∨ r = Raise OperationalError)
    ∧ NoDup (weeks_of evs).*1
    ∧ NoDup (weeks_of evs).*2
    ∧ (r = Return None → (d0 - 7 * Z.of_nat (length (weeks_of evs)) ≤ stop_date)%Z)
    ∧ ((Z.to_nat (d0 - stop_date) < fuel)%nat → r ≠ OutOfFuel).
Proof.
  intros Hb Hd H.
  pose proof (FindFacts.find_in_table_not_out_of_fuel fuel billboard artist
                start_date stop_date chart_name st c d0 Hb Hd) as Hfuel.
  rewrite H in Hfuel.
  apply FindFacts.find_in_table_trace in H
    as [(res & _ & _ & Hres & [[-> _]|(c' & -> & Hnone & _)])|(c' & d0' & evs & Hb' & Hd' & Hlog & Hse)];
    [congruence|congruence|].
  assert (c' = c) as -> by congruence. assert (d0' = d0) as -> by congruence.
  pose proof (TraceFacts.scan_weeks _ _ _ _ _ _ _ Hse) as Hw.
  exists evs. split_and!; [done| | | | | |done].
  - intros k w Hk. destruct (Hw k w Hk) as (H1 & H2 & H3).
    split_and!; [done|done|]. by rewrite <- FindFacts.odd_date_subst_snd.
  - by eapply TraceFacts.scan_selects.
  - by eapply TraceFacts.weeks_NoDup.
  - by eapply TraceFacts.weeks_NoDup.
  - by eapply TraceFacts.scan_exhausted.
Qed.

Lemma scan_candidate_dates_witness :
  let billboard := echo_source ["Nobody"] in
  let start_date := PyDate.mkdate 1976 7 10 in
  let stop_date := PyDate.mkdate 1976 6 20 in
  let run := find_in_table 10 billboard "drake" start_date stop_date "billboard-200"
               empty_db in
  ∃ evs,
    log run.2 = log empty_db
                ++ EvChartData "billboard-200" (PyDate.isoformat start_date)
                     (Some (mkChartData "1976-07-10" ["Nobody"])) :: evs
    ∧ (∀ (k : nat) w, weeks_of evs !! k = Some w →
         (w.1 = start_date - 7 * Z.of_nat k)%Z ∧ (stop_date < w.1)%Z
         ∧ w.2 = match dict_get ODD_DATES (PyDate.isoformat w.1) with
                 | Some actual => actual
                 | None => w.1
                 end)
    ∧ (selects_of evs = PyDate.isoformat <$> (weeks_of evs).*2
       ∨ run.1 = Raise OperationalError)
    ∧ NoDup (weeks_of evs).*1
    ∧ NoDup (weeks_of evs).*2
    ∧ (run.1 = Return None →
       (start_date - 7 * Z.of_nat (length (weeks_of evs)) ≤ stop_date)%Z)
    ∧ ((Z.to_nat (start_date - stop_date) < 10)%nat → run.1 ≠ OutOfFuel).
Proof.
  intros billboard start_date stop_date run.
  apply (scan_candidate_dates billboard 10 "drake" start_date stop_date "billboard-200"
           empty_db (mkChartData "1976-07-10" ["Nobody"]) start_date run.1 run.2).
  - reflexivity.
  - reflexivity.
  - apply surjective_pairing.
Defined.

(** The weeks of the witness above: the odd week is queried as 1976-07-04 and
    the walk goes on from 1976-07-03. *)
Example scan_around_odd_week :
  let run := find_in_table 10 (echo_source ["Nobody"]) "drake"
               (PyDate.mkdate 1976 7 10) (PyDate.mkdate 1976 6 20) "billboard-200"
               empty_db in
  run.1 = Return None
  ∧ weeks_of (log run.2)
    = [(PyDate.mkdate 1976 7 10, PyDate.mkdate 1976 7 10);
       (PyDate.mkdate 1976 7 3, PyDate.mkdate 1976 7 4);
       (PyDate.mkdate 1976 6 26, PyDate.mkdate 1976 6 26)]
  ∧ selects_of (log run.2) = ["1976-07-10"; "1976-07-04"; "1976-06-26"].
Proof. vm_compute. done. Qed.

(** ** Cache before source *)

(** C4, as stated, fails: the week 2020-01-04 is in the cache, yet the scan
    opens with a call to the chart source that no cache lookup precedes. *)
Lemma scan_first_call_uncached_counterexample :
  let roster := "avril lavigne`~drake`~sia" in
  let st := db_with "hot100" "2020-01-04" roster in
  let run := find_in_table 5 (echo_source ["Avril Lavigne"; "Drake"; "Sia"]) "drake"
               (PyDate.mkdate 2020 1 4) (PyDate.mkdate 2000 1 4) "hot-100" st in
  log run.2
  = [EvChartData "hot-100" "2020-01-04"
       (Some (mkChartData "2020-01-04" ["Avril Lavigne"; "Drake"; "Sia"]));
     EvWeek (PyDate.mkdate 2020 1 4) (PyDate.mkdate 2020 1 4);
     EvSelect "hot100" "2020-01-04" (Some roster)]
  ∧ ¬ cache_first (log run.2).
Proof.
  split.
  - vm_compute. reflexivity.
  - intros H. vm_compute in H. destruct H as [H _]. discriminate H.
Qed.

(** C4 (amended): every scan opens with one call to the chart source, for the
    starting date, before any cache lookup; every later call to the chart
    source comes right after a cache lookup of the same chart and date that
    found no row. *)
Theorem scan_source_calls (billboard : source) (fuel : nat) (artist : string)
    (start_date stop_date : date) (chart_name : string) (st : state) :
  ∃ res rest,
    log (find_in_table fuel billboard artist start_date stop_date chart_name st).2
    = log st ++ EvChartData chart_name (PyDate.isoformat start_date) res :: rest
    ∧ res = billboard (log st) chart_name (PyDate.isoformat start_date)
    ∧ cache_first rest.
Proof.
  destruct (find_in_table fuel billboard artist start_date stop_date chart_name st)
    as [r st'] eqn:H. cbn [snd].
  apply FindFacts.find_in_table_trace in H
    as [(res & Hlog & _ & Hres & _)|(c & d0 & evs & Hb & _ & Hlog & Hse)].
  - exists res, []. by split_and!.
  - exists (Some c), evs. split_and!; [done|done|].
    by eapply TraceFacts.scan_cache_first.
Qed.

(** ** The horizon *)

(** C3: a scan of the albums chart that starts on the weekly cadence of
    [BILLBOARD_200_EARLIEST], [n + 1] weeks after it, and finds nothing goes
    through exactly [n + 1] weeks; the last one is the week after
    [BILLBOARD_200_EARLIEST], and the week of [BILLBOARD_200_EARLIEST] itself
    is neither a candidate nor queried.  The scan of the claim, from
    2024-06-01, is the case [n = 3171]. *)
Theorem bb200_scan_excludes_horizon (billboard : source) (fuel : nat) (artist : string)
    (start_date : date) (st st' : state) (c : ChartData) (n : nat) :
  billboard (log st) "billboard-200" (PyDate.isoformat start_date) = Some c →
  PyDate.fromisoformat (chart_date c)
  = Some (BILLBOARD_200_EARLIEST + 7 * Z.of_nat (S n))%Z →
  find_in_bb200 fuel billboard artist start_date st = (Return None, st') →
  ∃ evs,
    log st' = log st
              ++ EvChartData "billboard-200" (PyDate.isoformat start_date) (Some c) :: evs
    ∧ length (weeks_of evs) = S n
    ∧ last (weeks_of evs)
      = Some ((BILLBOARD_200_EARLIEST + 7)%Z, (BILLBOARD_200_EARLIEST + 7)%Z)
    ∧ ∀ w, w ∈ weeks_of evs →
        w.1 ≠ BILLBOARD_200_EARLIEST ∧ w.2 ≠ BILLBOARD_200_EARLIEST.
Proof.
  intros Hb Hd H. unfold find_in_bb200 in H.
  apply FindFacts.find_in_table_trace in H
    as [(res & _ & _ & Hres & [[_ [=]]|(c' & _ & _ & [=])])
       |(c' & d0 & evs & Hb' & Hd' & Hlog & Hse)].
  assert (c' = c) as -> by congruence.
  assert (d0 = BILLBOARD_200_EARLIEST + 7 * Z.of_nat (S n))%Z as -> by congruence.
  pose proof (TraceFacts.scan_weeks _ _ _ _ _ _ _ Hse) as Hw.
  pose proof (TraceFacts.scan_exhausted _ _ _ _ _ _ _ Hse eq_refl) as Hlen.
  exists evs. split; [done|].
  assert (length (weeks_of evs) = S n) as Hn.
  { destruct (weeks_of evs !! pred (length (weeks_of evs))) as [w|] eqn:Hl.
    - destruct (Hw _ _ Hl) as (H1 & H2 & _). apply lookup_lt_Some in Hl.
      unfold date in *. lia.
    - apply lookup_ge_None in Hl. unfold date in *. lia. }
  split; [done|]. split.
  - rewrite last_lookup, Hn. cbn [pred].
    destruct (weeks_of evs !! n) as [[w1 w2]|] eqn:Hl.
    2:{ apply lookup_ge_None in Hl. lia. }
    destruct (Hw _ _ Hl) as (H1 & _ & H3). cbn [fst snd] in *.
    rewrite OddDateFacts.odd_date_subst_queried in H3.
    rewrite earliest_ordinal, odd_ordinal in *. unfold date in *.
    case_decide; [lia|]. do 2 f_equal; lia.
  - intros w [k Hk]%list_elem_of_lookup. destruct (Hw _ _ Hk) as (_ & H2 & H3).
    rewrite OddDateFacts.odd_date_subst_queried in H3. unfold date in *.
    case_decide; lia.
Qed.

Lemma bb200_scan_excludes_horizon_witness :
  let billboard := echo_source ["Nobody"] in
  let start_date := PyDate.mkdate 1963 8 31 in
  let run := find_in_bb200 5 billboard "drake" start_date empty_db in
  ∃ evs,
    log run.2 = log empty_db
                ++ EvChartData "billboard-200" (PyDate.isoformat start_date)
                     (Some (mkChartData "1963-08-31" ["Nobody"])) :: evs
    ∧ length (weeks_of evs) = 2%nat
    ∧ last (weeks_of evs)
      = Some ((BILLBOARD_200_EARLIEST + 7)%Z, (BILLBOARD_200_EARLIEST + 7)%Z)
    ∧ ∀ w, w ∈ weeks_of evs →
        w.1 ≠ BILLBOARD_200_EARLIEST ∧ w.2 ≠ BILLBOARD_200_EARLIEST.
Proof.
  intros billboard start_date run.
  apply (bb200_scan_excludes_horizon billboard 5 "drake" start_date empty_db run.2
           (mkChartData "1963-08-31" ["Nobody"]) 1).
  - reflexivity.
  - reflexivity.
  - vm_compute. reflexivity.
Defined.

(** The dates of the scan in the claim: 2024-06-01 lies 3172 weeks after
    [BILLBOARD_200_EARLIEST], so the walk reaches 1963-08-17 exactly, and the
    loop condition [curr_week > stop_date] is false there. *)
Example scenario_C_dates :
  PyDate.fromisoformat "2024-06-01" = Some (BILLBOARD_200_EARLIEST + 7 * 3172)%Z
  ∧ PyDate.isoformat BILLBOARD_200_EARLIEST = "1963-08-17"
  ∧ PyDate.isoformat (BILLBOARD_200_EARLIEST + 7)%Z = "1963-08-24"
  ∧ (BILLBOARD_200_EARLIEST >? BILLBOARD_200_EARLIEST)%Z = false.
Proof. vm_compute. done. Qed.

(** A short scan run to the end: the last week looked up is 1963-08-24 and no
    row for 1963-08-17 is ever read or written. *)
Example bb200_short_scan :
  let run := find_in_bb200 5 (echo_source ["Nobody"]) "drake"
               (PyDate.mkdate 1963 8 31) empty_db in
  run.1 = Return None
  ∧ selects_of (log run.2) = ["1963-08-31"; "1963-08-24"]
  ∧ (db run.2 !! "bb200") ≫= (.!! "1963-08-17") = None.
Proof. vm_compute. done. Qed.

(** ** The reverse odd-date lookup *)

(** C10: whenever the forward lookup in [ODD_DATES] substitutes a date, the
    reverse lookup [key_from_value] on that date finds the key it came from and
    the loop variable is restored to the canonical date; the loop only ever
    calls the reverse lookup on the result of the forward lookup of the same
    iteration, so no scan ends in the [ValueError] of [list.index] (nor in a
    [KeyError]). *)
Theorem reverse_lookup_never_fails :
  (∀ (curr_week actual : date),
     dict_get ODD_DATES (PyDate.isoformat curr_week) = Some actual →
     odd_date_subst curr_week = (true, actual)
     ∧ key_from_value ODD_DATES actual = Return (PyDate.isoformat curr_week)
     ∧ restore_week true actual = Return curr_week)
  ∧ (∀ curr_week : date,
       restore_week (odd_date_subst curr_week).1 (odd_date_subst curr_week).2
       = Return curr_week)
  ∧ (∀ (billboard : source) (fuel : nat) (artist : string)
       (start_date stop_date : date) (chart_name : string) (st : state),
       let r := (find_in_table fuel billboard artist start_date stop_date
                   chart_name st).1 in
       r ≠ Raise ValueError_not_in_list ∧ r ≠ Raise KeyError).
Proof.
  split_and!.
  - intros curr_week actual H.
    assert (odd_date_subst curr_week = (true, actual)) as Hs
      by (unfold odd_date_subst; by rewrite H).
    split; [done|].
    pose proof (OddDateFacts.restore_after_subst curr_week) as Hr.
    rewrite Hs in Hr. cbn [fst snd] in Hr. split; [|done].
    unfold ODD_DATES in H. cbn [dict_get] in H.
    destruct (String.eqb_spec "1976-07-03" (PyDate.isoformat curr_week)) as [E|E];
      [|done].
    injection H as <-. rewrite <- E. reflexivity.
  - apply OddDateFacts.restore_after_subst.
  - intros billboard fuel artist start_date stop_date chart_name st.
    destruct (find_in_table fuel billboard artist start_date stop_date chart_name st)
      as [r st'] eqn:H. cbn [fst].
    apply FindFacts.find_in_table_trace in H
      as [(res & _ & _ & _ & [[_ ->]|(c & _ & _ & ->)])|(c & d0 & evs & _ & _ & _ & Hse)];
      [done|done|].
    split; intros ->; by apply TraceFacts.scan_raise in Hse as [?|[?|[?|?]]].
Qed.

Lemma reverse_lookup_never_fails_witness :
  odd_date_subst (PyDate.mkdate 1976 7 3) = (true, PyDate.mkdate 1976 7 4)
  ∧ key_from_value ODD_DATES (PyDate.mkdate 1976 7 4)
    = Return (PyDate.isoformat (PyDate.mkdate 1976 7 3))
  ∧ restore_week true (PyDate.mkdate 1976 7 4) = Return (PyDate.mkdate 1976 7 3).
Proof.
  apply (proj1 reverse_lookup_never_fails (PyDate.mkdate 1976 7 3) (PyDate.mkdate 1976 7 4)).
  reflexivity.
Defined.

(** ** A failing chart source *)

(** C7, as stated, fails for a source that has no data: a chart that comes
    back without entries is no error.  Here every chart is empty; the scan of
    two weeks stores two rows with the empty roster string, no call to the
    source fails and the scan returns [None]. *)
Lemma empty_chart_is_cached_counterexample :
  let billboard := echo_source [] in
  let run := find_in_bb200 5 billboard "drake" (PyDate.mkdate 1963 8 31) empty_db in
  run.1 = Return None
  ∧ (db run.2 !! "bb200") ≫= (.!! "1963-08-31") = Some ""
  ∧ (db run.2 !! "bb200") ≫= (.!! "1963-08-24") = Some ""
  ∧ (db empty_db !! "bb200") ≫= (.!! "1963-08-31") = None
  ∧ filter (λ e, is_source_call e = true) (log run.2)
    = [EvChartData "billboard-200" "1963-08-31" (Some (mkChartData "1963-08-31" []));
       EvChartData "billboard-200" "1963-08-31" (Some (mkChartData "1963-08-31" []));
       EvChartData "billboard-200" "1963-08-24" (Some (mkChartData "1963-08-24" []))].
Proof. vm_compute. done. Qed.

(** C7: when the chart source fails, [fetch_and_insert_date] raises and leaves
    the database as it was; in a scan, a failed fetch is the last thing that
    happens (no retry, no write after it) and the scan ends with that error;
    and a loop turn whose lookup misses and whose fetch fails ends the loop
    with the error, the database unchanged.  A chart that comes back without
    entries is not a failure: [fetch_and_insert_date] stores the empty roster
    string under the date the source reports and returns it. *)
Theorem source_failure_aborts_scan :
  (∀ (billboard : source) (datestr chart_name : string) (st : state),
     billboard (log st) chart_name datestr = None →
     fetch_and_insert_date billboard datestr chart_name st
     = (Raise SourceError,
        mkState (db st) (log st ++ [EvChartData chart_name datestr None])))
  ∧ (∀ (billboard : source) (fuel : nat) (artist : string)
       (start_date stop_date : date) (chart_name : string) (st : state) r st',
       find_in_table fuel billboard artist start_date stop_date chart_name st = (r, st') →
       ∀ (i : nat) e,
         log st' !! i = Some e → (length (log st) ≤ i)%nat → is_failed_fetch e = true →
         r = Raise SourceError ∧ S i = length (log st'))
  ∧ (∀ (billboard : source) (fuel : nat) (artist table_name chart_name : string)
       (stop_date curr_week : date) (st : state) (t : gmap string string),
       let q := (odd_date_subst curr_week).2 in
       let looked_up :=
         [EvWeek curr_week q; EvSelect table_name (PyDate.isoformat q) None] in
       (stop_date < curr_week)%Z →
       db st !! table_name = Some t →
       t !! PyDate.isoformat q = None →
       billboard (log st ++ looked_up) chart_name (PyDate.isoformat q) = None →
       find_in_table_loop (S fuel) billboard artist table_name chart_name
         stop_date curr_week st
       = (Raise SourceError,
          mkState (db st)
            (log st ++ looked_up ++ [EvChartData chart_name (PyDate.isoformat q) None])))
  ∧ (∀ (billboard : source) (datestr chart_name : string) (st : state)
       (chart : ChartData) (t : gmap string string),
       let table_name := chart_name_to_table_name chart_name in
       billboard (log st) chart_name datestr = Some chart →
       chart_artists chart = [] →
       db st !! table_name = Some t →
       t !! chart_date chart = None →
       fetch_and_insert_date billboard datestr chart_name st
       = (Return "",
          mkState (<[table_name := <[chart_date chart := ""]> t]> (db st))
            (log st ++ [EvChartData chart_name datestr (Some chart);
                        EvInsert table_name (chart_date chart) ""]))).
Proof.
  split_and!; cycle 3.
  { intros billboard datestr chart_name st chart t table_name Hb Hnil Ht Hrow.
    rewrite (ScanFacts.fetch_inserted billboard datestr chart_name st chart t Hb Ht Hrow).
    rewrite Hnil. by destruct (String.eqb chart_name "hot-100"). }
  - apply ScanFacts.fetch_source_failed.
  - intros billboard fuel artist start_date stop_date chart_name st r st' H i e Hi Hge He.
    apply FindFacts.find_in_table_trace in H
      as [(res & Hlog & _ & _ & Hr)|(c & d0 & evs & _ & _ & Hlog & Hse)];
      rewrite Hlog in Hi |- *; rewrite lookup_app_r in Hi by done.
    + destruct (i - length (log st))%nat as [|j] eqn:Hj; cbn in Hi; [|done].
      injection Hi as <-. rewrite length_app. cbn [length]. split; [|lia].
      destruct Hr as [[_ ->]|(c & -> & _)]; done.
    + destruct (i - length (log st))%nat as [|j] eqn:Hj; cbn in Hi; [by simplify_eq|].
      destruct (TraceFacts.scan_failed_fetch _ _ _ _ _ _ _ Hse _ _ Hi He) as [-> Hl].
      split; [done|]. rewrite length_app. cbn [length]. lia.
  - intros billboard fuel artist table_name chart_name stop_date curr_week st t q
      looked_up Hlt Ht Hq Hb.
    rewrite ScanFacts.find_in_table_loop_S.
    assert ((curr_week >? stop_date)%Z = true) as -> by lia.
    rewrite ScanFacts.find_in_table_body_eq. cbv zeta. fold q.
    unfold get_or_fetch, bind, sql_select. cbn [db log]. rewrite Ht, Hq.
    rewrite ScanFacts.fetch_source_failed; cbn [db log].
    + by rewrite <- !app_assoc.
    + by rewrite <- app_assoc.
Qed.

Lemma source_failure_aborts_scan_witness :
  fetch_and_insert_date dead_source "2020-01-04" "hot-100" empty_db
  = (Raise SourceError,
     mkState (db empty_db) (log empty_db ++ [EvChartData "hot-100" "2020-01-04" None]))
  ∧ find_in_table_loop 3 dead_source "drake" "hot100" "hot-100"
      (PyDate.mkdate 2000 1 4) (PyDate.mkdate 2020 1 4) empty_db
    = (Raise SourceError,
       mkState (db empty_db)
         (log empty_db
          ++ [EvWeek (PyDate.mkdate 2020 1 4)
                (odd_date_subst (PyDate.mkdate 2020 1 4)).2;
              EvSelect "hot100"
                (PyDate.isoformat (odd_date_subst (PyDate.mkdate 2020 1 4)).2) None]
          ++ [EvChartData "hot-100"
                (PyDate.isoformat (odd_date_subst (PyDate.mkdate 2020 1 4)).2) None]))
  ∧ fetch_and_insert_date (fixed_source (mkChartData "2020-01-04" [])) "2020-01-04"
      "hot-100" empty_db
    = (Return "",
       mkState (<["hot100" := <["2020-01-04" := ""]> ∅]> (db empty_db))
         (log empty_db
          ++ [EvChartData "hot-100" "2020-01-04" (Some (mkChartData "2020-01-04" []));
              EvInsert "hot100" "2020-01-04" ""])).
Proof.
  split_and!.
  - apply (proj1 source_failure_aborts_scan dead_source "2020-01-04" "hot-100" empty_db).
    reflexivity.
  - apply (proj1 (proj2 (proj2 source_failure_aborts_scan)) dead_source 2%nat "drake"
             "hot100" "hot-100" (PyDate.mkdate 2000 1 4) (PyDate.mkdate 2020 1 4)
             empty_db ∅).
    + reflexivity.
    + reflexivity.
    + reflexivity.
    + reflexivity.
  - apply (proj2 (proj2 (proj2 source_failure_aborts_scan))
             (fixed_source (mkChartData "2020-01-04" [])) "2020-01-04" "hot-100" empty_db
             (mkChartData "2020-01-04" []) ∅).
    + reflexivity.
    + reflexivity.
    + reflexivity.
    + reflexivity.
Defined.

(** A scan against a source that fails at once: the error comes out and the
    cached row is all the database holds. *)
Example scan_dead_source :
  let st := db_with "hot100" "2020-01-04" "avril lavigne`~drake`~sia" in
  find_in_hot100 5 dead_source (PyDate.mkdate 2000 1 4) "drake" (PyDate.mkdate 2020 1 4) st
  = (Raise SourceError, mkState (db st) [EvChartData "hot-100" "2020-01-04" None]).
Proof. vm_compute. reflexivity. Qed.

(** ** Filling the cache *)

(** C2, as stated, fails: asked for 2020-01-05, the source reports the chart
    of 2020-01-11; the row is stored under the reported date, the requested
    date still has no row, and the same request again calls the source again
    and fails on the primary key.  Besides, a chart without entries is stored
    as an empty roster string. *)
Lemma fetch_keyed_by_reported_date_counterexample :
  let billboard := fixed_source (mkChartData "2020-01-11" ["Drake"]) in
  let requested := PyDate.mkdate 2020 1 5 in
  let run := get_or_fetch billboard "hot100" "hot-100" requested empty_db in
  let again := get_or_fetch billboard "hot100" "hot-100" requested run.2 in
  let empty := get_or_fetch (fixed_source (mkChartData "2020-01-04" [])) "hot100" "hot-100"
                 (PyDate.mkdate 2020 1 4) empty_db in
  (PyDate.isoformat requested = "2020-01-05"
   ∧ run.1 = Return "drake"
   ∧ (db run.2 !! "hot100") ≫= (.!! "2020-01-05") = None
   ∧ (db run.2 !! "hot100") ≫= (.!! "2020-01-11") = Some "drake")
  ∧ (again.1 = Raise IntegrityError
     ∧ length (filter (λ e, is_source_call e = true) (log again.2)) = 2%nat)
  ∧ (empty.1 = Return ""
     ∧ (db empty.2 !! "hot100") ≫= (.!! "2020-01-04") = Some "").
Proof. vm_compute. done. Qed.

(** C2 (amended): on a cache miss, when the source answers and the table has
    no row for the date the source reports, exactly one row is stored; its key
    is the date reported by the source and its value the lowered, joined
    roster, which is non-empty as soon as one kept entry is; and when the
    reported date is the requested one, a later lookup of that date finds the
    row and does not call the source. *)
Theorem cache_miss_stores_reported_date (billboard : source) (chart_name : string)
    (q : date) (st : state) (t : gmap string string) (chart : ChartData) :
  let table_name := chart_name_to_table_name chart_name in
  let datestr := PyDate.isoformat q in
  let entries :=
    if String.eqb chart_name "hot-100" then chart_artists chart
    else take 20 (chart_artists chart) in
  let artists_str := PyStr.lower (PyStr.join ARTIST_SEPARATOR entries) in
  db st !! table_name = Some t →
  t !! datestr = None →
  billboard (log st ++ [EvSelect table_name datestr None]) chart_name datestr
  = Some chart →
  t !! chart_date chart = None →
  ∃ st',
    get_or_fetch billboard table_name chart_name q st = (Return artists_str, st')
    ∧ db st' = <[table_name := <[chart_date chart := artists_str]> t]> (db st)
    ∧ log st' = log st ++ [EvSelect table_name datestr None;
                           EvChartData chart_name datestr (Some chart);
                           EvInsert table_name (chart_date chart) artists_str]
    ∧ ((∃ a, a ∈ entries ∧ a ≠ "") → artists_str ≠ "")
    ∧ (chart_date chart = datestr →
       ∀ billboard' : source,
         get_or_fetch billboard' table_name chart_name q st'
         = (Return artists_str,
            mkState (db st')
              (log st' ++ [EvSelect table_name datestr (Some artists_str)]))).
Proof.
  intros table_name datestr entries artists_str Ht Hmiss Hb Hfree.
  eexists. split.
  { unfold get_or_fetch, bind, sql_select. fold table_name datestr.
    rewrite Ht, Hmiss.
    rewrite (ScanFacts.fetch_inserted _ _ _ _ chart t); [reflexivity|done..]. }
  cbn [db log]. fold table_name entries artists_str.
  split_and!; [done|by rewrite <- app_assoc| |].
  - intros (a & Hin & Ha) Hs. apply RosterFacts.lower_eq_empty in Hs.
    by apply (RosterFacts.join_nonempty entries a).
  - intros Hd billboard'. unfold get_or_fetch, bind, sql_select, ret. cbn [db log].
    fold table_name datestr. rewrite lookup_insert_eq, Hd, lookup_insert_eq. done.
Qed.

Lemma cache_miss_stores_reported_date_witness :
  let billboard := echo_source ["Avril Lavigne"; "Drake"; "Sia"] in
  let q := PyDate.mkdate 2020 1 4 in
  ∃ st',
    get_or_fetch billboard "hot100" "hot-100" q empty_db
    = (Return "avril lavigne`~drake`~sia", st')
    ∧ db st' = <["hot100" := <["2020-01-04" := "avril lavigne`~drake`~sia"]> ∅]>
                 (db empty_db)
    ∧ log st' = log empty_db
                ++ [EvSelect "hot100" "2020-01-04" None;
                    EvChartData "hot-100" "2020-01-04"
                      (Some (mkChartData "2020-01-04" ["Avril Lavigne"; "Drake"; "Sia"]));
                    EvInsert "hot100" "2020-01-04" "avril lavigne`~drake`~sia"]
    ∧ ((∃ a, a ∈ ["Avril Lavigne"; "Drake"; "Sia"] ∧ a ≠ "")
       → "avril lavigne`~drake`~sia" ≠ "")
    ∧ ("2020-01-04" = "2020-01-04" →
       ∀ billboard' : source,
         get_or_fetch billboard' "hot100" "hot-100" q st'
         = (Return "avril lavigne`~drake`~sia",
            mkState (db st')
              (log st' ++ [EvSelect "hot100" "2020-01-04"
                             (Some "avril lavigne`~drake`~sia")]))).
Proof.
  intros billboard q.
  apply (cache_miss_stores_reported_date billboard "hot-100" q empty_db ∅
           (mkChartData "2020-01-04" ["Avril Lavigne"; "Drake"; "Sia"])).
  - reflexivity.
  - reflexivity.
  - reflexivity.
  - reflexivity.
Defined.

(** ** Hits *)

(** C8: when the roster string of the week has an entry containing the query
    and the week is not rejected by the featuring test, the loop returns at
    once, in the state right after the cache lookup, the first such entry in
    full with its 1-indexed position and the queried date. *)
Theorem first_hit_returned (billboard : source) (fuel : nat)
    (artist table_name chart_name : string) (stop_date curr_week : date)
    (st st1 : state) (res_str : string) (pre : list string) (a : string)
    (post : list string) :
  let q := (odd_date_subst curr_week).2 in
  (stop_date < curr_week)%Z →
  get_or_fetch billboard table_name chart_name q
    (mkState (db st) (log st ++ [EvWeek curr_week q])) = (Return res_str, st1) →
  directly_follows artist " featuring " res_str = false →
  PyStr.split res_str ARTIST_SEPARATOR = pre ++ a :: post →
  Forall (λ x, PyStr.contains x artist = false) pre →
  PyStr.contains a artist = true →
  find_in_table_loop (S fuel) billboard artist table_name chart_name
    stop_date curr_week st
  = (Return (Some (mkFoundInfo (PyDate.isoformat q) a (length pre + 1))), st1).
Proof.
  intros q Hlt Hg Hf Hsplit Hpre Ha.
  rewrite ScanFacts.find_in_table_loop_S.
  assert ((curr_week >? stop_date)%Z = true) as -> by lia.
  rewrite ScanFacts.find_in_table_body_eq. cbv zeta. fold q. rewrite Hg.
  by rewrite (RosterFacts.match_week_first artist res_str pre a post).
Qed.

Lemma first_hit_returned_witness :
  let roster := "avril lavigne`~drake`~sia" in
  let st := db_with "hot100" "2020-01-04" roster in
  let d := PyDate.mkdate 2020 1 4 in
  find_in_table_loop 1 (echo_source []) "drake" "hot100" "hot-100"
    (PyDate.mkdate 2000 1 4) d st
  = (Return (Some (mkFoundInfo "2020-01-04" "drake" 2)),
     mkState (db st) [EvWeek d d; EvSelect "hot100" "2020-01-04" (Some roster)]).
Proof.
  intros roster st d.
  apply (first_hit_returned (echo_source []) 0 "drake" "hot100" "hot-100"
           (PyDate.mkdate 2000 1 4) d st
           (mkState (db st) [EvWeek d d; EvSelect "hot100" "2020-01-04" (Some roster)])
           roster ["avril lavigne"] "drake" ["sia"]).
  - reflexivity.
  - reflexivity.
  - reflexivity.
  - reflexivity.
  - repeat constructor.
  - reflexivity.
Defined.

(** Scenario A end to end, from [find_in_hot100]. *)
Example scenario_A :
  let st := db_with "hot100" "2020-01-04" "avril lavigne`~drake`~sia" in
  (find_in_hot100 5 (echo_source []) (PyDate.mkdate 2000 1 4) "drake"
     (PyDate.mkdate 2020 1 4) st).1
  = Return (Some (mkFoundInfo "2020-01-04" "drake" 2)).
Proof. vm_compute. reflexivity. Qed.

(** Scenario B: the featuring test rejects the week. *)
Example scenario_B :
  match_week "drake" "bad bunny`~karol g featuring drake`~sia" = None.
Proof. reflexivity. Qed.

(** C9: a hit in the week whose canonical date is a key of [ODD_DATES] is
    reported under the substituted date, 1976-07-04, not under the canonical
    1976-07-03, and the caller's next starting date is seven days before the
    substituted date. *)
Theorem odd_week_hit_reports_actual_date (billboard : source) (fuel : nat)
    (artist table_name chart_name : string) (stop_date curr_week actual : date)
    (st st1 : state) (res_str a : string) (position : nat) :
  dict_get ODD_DATES (PyDate.isoformat curr_week) = Some actual →
  (stop_date < curr_week)%Z →
  get_or_fetch billboard table_name chart_name actual
    (mkState (db st) (log st ++ [EvWeek curr_week actual])) = (Return res_str, st1) →
  match_week artist res_str = Some (a, position) →
  let found := mkFoundInfo "1976-07-04" a position in
  find_in_table_loop (S fuel) billboard artist table_name chart_name
    stop_date curr_week st = (Return (Some found), st1)
  ∧ PyDate.isoformat curr_week = "1976-07-03"
  ∧ found_date found = PyDate.isoformat actual
  ∧ found_date found ≠ PyDate.isoformat curr_week
  ∧ next_date found = Return (actual - 7)%Z
  ∧ (actual - 7)%Z ≠ (curr_week - 7)%Z.
Proof.
  intros Hodd Hlt Hg Hm found.
  assert (odd_date_subst curr_week = (true, actual)) as Hs
    by (unfold odd_date_subst; by rewrite Hodd).
  destruct (OddDateFacts.odd_date_subst_cases curr_week) as [[-> Hs']|[_ Hs']];
    [|congruence].
  assert (actual = PyDate.mkdate 1976 7 4) as -> by congruence.
  split; [|split_and!; vm_compute; done].
  rewrite ScanFacts.find_in_table_loop_S.
  assert ((PyDate.mkdate 1976 7 3 >? stop_date)%Z = true) as -> by lia.
  rewrite ScanFacts.find_in_table_body_eq. cbv zeta. rewrite Hs. cbn [snd].
  rewrite Hg, Hm. reflexivity.
Qed.

Lemma odd_week_hit_reports_actual_date_witness :
  let st := db_with "bb200" "1976-07-04" "wings`~peter frampton" in
  let canonical := PyDate.mkdate 1976 7 3 in
  let actual := PyDate.mkdate 1976 7 4 in
  let found := mkFoundInfo "1976-07-04" "wings" 1 in
  find_in_table_loop 1 (echo_source []) "wings" "bb200" "billboard-200"
    BILLBOARD_200_EARLIEST canonical st
  = (Return (Some found),
     mkState (db st)
       [EvWeek canonical actual;
        EvSelect "bb200" "1976-07-04" (Some "wings`~peter frampton")])
  ∧ PyDate.isoformat canonical = "1976-07-03"
  ∧ found_date found = PyDate.isoformat actual
  ∧ found_date found ≠ PyDate.isoformat canonical
  ∧ next_date found = Return (actual - 7)%Z
  ∧ (actual - 7)%Z ≠ (canonical - 7)%Z.
Proof.
  intros st canonical actual found.
  apply (odd_week_hit_reports_actual_date (echo_source []) 0 "wings" "bb200"
           "billboard-200" BILLBOARD_200_EARLIEST canonical actual st
           (mkState (db st)
              [EvWeek canonical actual;
               EvSelect "bb200" "1976-07-04" (Some "wings`~peter frampton")])
           "wings`~peter frampton" "wings" 1).
  - reflexivity.
  - reflexivity.
  - reflexivity.
  - reflexivity.
Defined.

(** The caller of [main] after that hit: it resumes from 1976-06-27, a Sunday,
    while the canonical walk would have gone on from 1976-06-26. *)
Example resume_after_odd_week :
  next_date (mkFoundInfo "1976-07-04" "wings" 1) = Return (PyDate.mkdate 1976 6 27)
  ∧ PyDate.sub_weeks (PyDate.mkdate 1976 7 3) 1 = Some (PyDate.mkdate 1976 6 26).
Proof. vm_compute. done. Qed.

(* ===================================================================== *)
(** * Part III.  Further properties of the program                         *)
(* ===================================================================== *)

(** ** The calendar: printing a date and reading it back *)
Module CalendarFacts.
Import PyDate PyDateFacts.
Local Open Scope Z_scope.

Ltac norm_tables :=
  repeat match goal with
  | |- context [nth (Z.to_nat ?x) ?l 0] =>
      let v := eval vm_compute in (nth (Z.to_nat x) l 0) in
      change (nth (Z.to_nat x) l 0) with v
  | H : context [nth (Z.to_nat ?x) ?l 0] |- _ =>
      let v := eval vm_compute in (nth (Z.to_nat x) l 0) in
      change (nth (Z.to_nat x) l 0) with v in H
  end.

Ltac only_dash c :=
  let b0 := fresh in let b1 := fresh in let b2 := fresh in let b3 := fresh in
  let b4 := fresh in let b5 := fresh in let b6 := fresh in let b7 := fresh in
  destruct c as [b0 b1 b2 b3 b4 b5 b6 b7];
  destruct b0; try discriminate; destruct b1; try discriminate;
  destruct b2; try discriminate; destruct b3; try discriminate;
  destruct b4; try discriminate; destruct b5; try discriminate;
  destruct b6; try discriminate; destruct b7; try discriminate.

Lemma month_day_ok_all (leapyear : bool) (n : Z) :
  0 ≤ n < 365 + (if leapyear then 1 else 0) → month_day_ok leapyear n = true.
Proof.
  intros H. destruct leapyear.
  - apply (range_forallb (month_day_ok true) 0 366); [vm_compute; reflexivity|lia].
  - apply (range_forallb (month_day_ok false) 0 365); [vm_compute; reflexivity|lia].
Qed.

(** [_ord2ymd] gives a date, and [_ymd2ord] takes it back to the ordinal. *)
Lemma ord2ymd_spec (n : Z) :
  1 ≤ n ≤ MAXORDINAL →
  ∃ y m d, ord2ymd n = (y, m, d)
    ∧ 1 ≤ y ≤ 9999 ∧ 1 ≤ m ≤ 12 ∧ 1 ≤ d ≤ days_in_month y m
    ∧ ymd2ord y m d = n.
Proof.
  intros Hn. unfold ord2ymd, DI400Y, DI100Y, DI4Y, MAXORDINAL in *. cbv zeta.
  set (n0 := n - 1).
  set (a := n0 / 146097). set (r1 := n0 mod 146097).
  set (b := r1 / 36524). set (r2 := r1 mod 36524).
  set (c := r2 / 1461). set (r3 := r2 mod 1461).
  set (e := r3 / 365). set (r := r3 mod 365).
  assert (n0 = 146097 * a + r1 ∧ 0 ≤ r1 < 146097) as [Ha Hr1]
    by (subst a r1; Z.to_euclidean_division_equations; lia).
  assert (r1 = 36524 * b + r2 ∧ 0 ≤ r2 < 36524) as [Hb Hr2]
    by (subst b r2; Z.to_euclidean_division_equations; lia).
  assert (r2 = 1461 * c + r3 ∧ 0 ≤ r3 < 1461) as [Hc Hr3]
    by (subst c r3; Z.to_euclidean_division_equations; lia).
  assert (r3 = 365 * e + r ∧ 0 ≤ r < 365) as [He Hr]
    by (subst e r; Z.to_euclidean_division_equations; lia).
  clearbody a r1 b r2 c r3 e r.
  assert (0 ≤ a ≤ 24 ∧ 0 ≤ b ≤ 4 ∧ 0 ≤ c ≤ 24 ∧ 0 ≤ e ≤ 4) as (Ba & Bb & Bc & Be) by lia.
  destruct ((e =? 4) || (b =? 4)) eqn:Esp.
  - exists (a * 400 + 1 + b * 100 + c * 4 + e - 1), 12, 31.
    split; [done|].
    assert (is_leap (a * 400 + 1 + b * 100 + c * 4 + e - 1) = true) as Hl.
    { unfold is_leap. apply orb_true_iff in Esp as [E|E]; apply Z.eqb_eq in E;
        rewrite andb_true_iff, orb_true_iff, negb_true_iff, !Z.eqb_eq, Z.eqb_neq;
        Z.to_euclidean_division_equations; lia. }
    unfold days_in_month, ymd2ord, days_before_year, days_before_month.
    rewrite Hl. norm_tables.
    replace (12 =? 2) with false by done. replace (2 <? 12) with true by done.
    cbn [andb]. cbv zeta.
    apply orb_true_iff in Esp as [E|E]; apply Z.eqb_eq in E;
      (split_and!; try lia); subst n0; Z.to_euclidean_division_equations; lia.
  - apply orb_false_iff in Esp as [E1 E2]. apply Z.eqb_neq in E1, E2.
    set (year := a * 400 + 1 + b * 100 + c * 4 + e).
    set (leapyear := (e =? 3) && (negb (c =? 24) || (b =? 3))).
    assert (is_leap year = leapyear) as Hl.
    { apply Bool.eq_iff_eq_true. unfold is_leap, leapyear, year.
      rewrite !andb_true_iff, !orb_true_iff, !negb_true_iff, !Z.eqb_eq, !Z.eqb_neq.
      Z.to_euclidean_division_equations; lia. }
    pose proof (month_day_ok_all leapyear r ltac:(destruct leapyear; lia)) as Hmd.
    unfold month_day_ok, month_day in Hmd. cbv zeta in Hmd.
    destruct (r <? _) eqn:Elt; eexists _, _, _; (split; [reflexivity|]);
      rewrite !andb_true_iff, !Z.leb_le, Z.eqb_eq in Hmd;
      destruct Hmd as ((((Hm1 & Hm2) & Hd1) & Hd2) & Hsum);
      unfold days_in_month, ymd2ord, days_before_month; rewrite Hl.
    all: split_and!; try lia.
    all: try (unfold year; lia).
    all: unfold days_before_year, year; cbv zeta.
    all: subst n0; Z.to_euclidean_division_equations; lia.
Qed.

Lemma digit_val_digit (k : Z) : 0 ≤ k ≤ 9 → digit_val (digit k) = Some k.
Proof.
  intros H.
  assert (k = 0 ∨ k = 1 ∨ k = 2 ∨ k = 3 ∨ k = 4 ∨ k = 5 ∨ k = 6 ∨ k = 7 ∨ k = 8 ∨ k = 9)
    as Hc by lia.
  destruct_or!; subst k; reflexivity.
Qed.

Lemma days_in_month_bounds (y m : Z) : 1 ≤ m ≤ 12 → 28 ≤ days_in_month y m ≤ 31.
Proof.
  intros H. unfold days_in_month.
  assert (m = 1 ∨ m = 2 ∨ m = 3 ∨ m = 4 ∨ m = 5 ∨ m = 6 ∨ m = 7 ∨ m = 8 ∨ m = 9
          ∨ m = 10 ∨ m = 11 ∨ m = 12) as Hc by lia.
  destruct_or!; subst m; destruct (is_leap y); norm_tables; cbn; lia.
Qed.

Lemma fromisoformat_format (y m d : Z) :
  1 ≤ y ≤ 9999 → 1 ≤ m ≤ 12 → 1 ≤ d ≤ days_in_month y m →
  fromisoformat (pad4 y +:+ "-" +:+ pad2 m +:+ "-" +:+ pad2 d) = Some (ymd2ord y m d).
Proof.
  intros Hy Hm Hd. pose proof (days_in_month_bounds y m Hm) as Hdim.
  unfold pad4, pad2. cbn [String.append]. unfold fromisoformat.
  cbn [digits_val].
  rewrite !digit_val_digit by (Z.to_euclidean_division_equations; lia).
  replace (((0 * 10 + y / 1000) * 10 + y / 100 mod 10) * 10 + y / 10 mod 10) with (y / 10)
    by (Z.to_euclidean_division_equations; lia).
  replace (y / 10 * 10 + y mod 10) with y by (Z.to_euclidean_division_equations; lia).
  replace ((0 * 10 + m / 10) * 10 + m mod 10) with m
    by (Z.to_euclidean_division_equations; lia).
  replace ((0 * 10 + d / 10) * 10 + d mod 10) with d
    by (Z.to_euclidean_division_equations; lia).
  assert ((1 <=? y) && (y <=? 9999) && (1 <=? m) && (m <=? 12) && (1 <=? d)
          && (d <=? days_in_month y m) = true) as ->; [|done].
  rewrite !andb_true_iff, !Z.leb_le. lia.
Qed.

(** A date printed by [isoformat] is read back by [fromisoformat]. *)
Lemma fromisoformat_isoformat (d : date) :
  1 ≤ d ≤ MAXORDINAL → fromisoformat (isoformat d) = Some d.
Proof.
  intros H. destruct (ord2ymd_spec d H) as (y & m & dd & E & Hy & Hm & Hd & Ho).
  unfold isoformat. rewrite E, fromisoformat_format by done. by rewrite Ho.
Qed.

Lemma isoformat_inj (d1 d2 : date) :
  1 ≤ d1 ≤ MAXORDINAL → 1 ≤ d2 ≤ MAXORDINAL → isoformat d1 = isoformat d2 → d1 = d2.
Proof.
  intros H1 H2 E. apply fromisoformat_isoformat in H1, H2. congruence.
Qed.

Lemma ymd2ord_range (y m d : Z) :
  1 ≤ y ≤ 9999 → 1 ≤ m ≤ 12 → 1 ≤ d ≤ days_in_month y m →
  1 ≤ ymd2ord y m d ≤ MAXORDINAL.
Proof.
  intros Hy Hm Hd. unfold ymd2ord, days_before_year, days_before_month,
    days_in_month, MAXORDINAL in *. cbv zeta.
  assert (m = 1 ∨ m = 2 ∨ m = 3 ∨ m = 4 ∨ m = 5 ∨ m = 6 ∨ m = 7 ∨ m = 8 ∨ m = 9
          ∨ m = 10 ∨ m = 11 ∨ m = 12) as Hc by lia.
  destruct (is_leap y) eqn:Hl; unfold is_leap in Hl;
    [rewrite !andb_true_iff, !orb_true_iff, !negb_true_iff, !Z.eqb_eq, !Z.eqb_neq in Hl
    |rewrite !andb_false_iff, !orb_false_iff, !negb_false_iff, !Z.eqb_eq, !Z.eqb_neq in Hl];
    destruct_or! Hc; subst m; norm_tables; cbn in Hd |- *;
    Z.to_euclidean_division_equations; lia.
Qed.

Lemma fromisoformat_inv (s : string) (d : date) :
  fromisoformat s = Some d →
  ∃ y m dd, 1 ≤ y ≤ 9999 ∧ 1 ≤ m ≤ 12 ∧ 1 ≤ dd ≤ days_in_month y m
            ∧ d = ymd2ord y m dd.
Proof.
  unfold fromisoformat.
  destruct s as [|y1 s]; [discriminate|].
  destruct s as [|y2 s]; [discriminate|].
  destruct s as [|y3 s]; [discriminate|].
  destruct s as [|y4 s]; [discriminate|].
  destruct s as [|c1 s]; [discriminate|].
  only_dash c1.
  destruct s as [|m1 s]; [discriminate|].
  destruct s as [|m2 s]; [discriminate|].
  destruct s as [|c2 s]; [discriminate|].
  only_dash c2.
  destruct s as [|d1 s]; [discriminate|].
  destruct s as [|d2 s]; [discriminate|].
  destruct s as [|? s]; [|discriminate].
  destruct (digits_val 0 _) as [y|]; [|discriminate].
  destruct (digits_val 0 _) as [m|]; [|discriminate].
  destruct (digits_val 0 _) as [dd|]; [|discriminate].
  destruct (_ && _) eqn:E; [|discriminate].
  intros [= <-]. exists y, m, dd.
  rewrite !andb_true_iff, !Z.leb_le in E. split_and!; (lia || done).
Qed.

(** Whatever [fromisoformat] accepts is a date. *)
Lemma fromisoformat_range (s : string) (d : date) :
  fromisoformat s = Some d → 1 ≤ d ≤ MAXORDINAL.
Proof.
  intros (y & m & dd & Hy & Hm & Hd & ->)%fromisoformat_inv.
  by apply ymd2ord_range.
Qed.

End CalendarFacts.

(** ** More on the matcher and on the reverse lookup *)
Module MatcherFacts.
Import PyStr PyStrFacts RosterFacts.

Lemma startswith_app_l (a b p : string) :
  startswith a p = true → startswith (a +:+ b) p = true.
Proof.
  intros [rest ->]%startswith_spec. rewrite PyStrFacts.app_assoc. apply startswith_app.
Qed.

Lemma contains_empty_string (sep : string) : sep ≠ "" → contains "" sep = false.
Proof. by destruct sep. Qed.

(** No piece of a split contains the separator. *)
Lemma split_go_no_sep (sep : string) (f : nat) :
  sep ≠ "" →
  ∀ s, ∃ h t, split_go f s sep = h :: t
              ∧ (∃ post, s = h +:+ post)
              ∧ contains h sep = false
              ∧ Forall (λ x, contains x sep = false) t.
Proof.
  intros Hsep. induction f as [|f IH]; intros s.
  { exists "", []. split_and!; [done|by exists s|by apply contains_empty_string|done]. }
  destruct s as [|c s].
  { exists "", []. split_and!; [done|by exists ""|by apply contains_empty_string|done]. }
  cbn [split_go]. destruct (startswith (String c s) sep) eqn:E.
  - destruct (IH (drop_chars (String.length sep) (String c s)))
      as (h & t & -> & _ & Hh & Ht).
    exists "", (h :: t).
    split_and!; [done|by eexists|by apply contains_empty_string|by constructor].
  - destruct (IH s) as (h & t & -> & [post Hpost] & Hh & Ht).
    exists (String c h), t. split_and!; [done|exists post; simpl; congruence| |done].
    rewrite contains_unfold, Hh.
    destruct (startswith (String c h) sep) eqn:E'; [|done].
    apply (startswith_app_l _ post) in E'. simpl in E'. rewrite <- Hpost in E'. congruence.
Qed.

Lemma split_no_sep (s sep : string) :
  sep ≠ "" → Forall (λ x, contains x sep = false) (split s sep).
Proof.
  intros Hsep. unfold split.
  destruct (split_go_no_sep sep (String.length s) Hsep s) as (h & t & -> & _ & Hh & Ht).
  by constructor.
Qed.

Lemma split_nonempty (s sep : string) : ∃ h t, split s sep = h :: t.
Proof.
  unfold split. destruct (split_go_pieces (String.length s) s sep) as (h & t & -> & _).
  by exists h, t.
Qed.

Lemma first_listing_Some (artist : string) (l : list string) (i : nat) a p :
  first_listing artist l i = Some (a, p) →
  ∃ n : nat, p = i + n + 1 ∧ l !! n = Some a ∧ contains a artist = true
             ∧ ∀ (j : nat) x, j < n → l !! j = Some x → contains x artist = false.
Proof.
  revert i. induction l as [|x l IH]; intros i H; [done|].
  cbn [first_listing] in H. destruct (contains x artist) eqn:E.
  - injection H as <- <-. exists 0. split_and!; [lia|done|done|lia].
  - apply IH in H as (n & -> & Hn & Ha & Hbefore).
    exists (S n). split_and!; [lia|done|done|].
    intros [|j] y Hj Hy; cbn in Hy; [by simplify_eq|]. apply (Hbefore j); [lia|done].
Qed.

Lemma match_week_Some (artist res_str a : string) (p : nat) :
  match_week artist res_str = Some (a, p) →
  directly_follows artist " featuring " res_str = false
  ∧ contains res_str artist = true
  ∧ ∃ n : nat, p = n + 1 ∧ split res_str ARTIST_SEPARATOR !! n = Some a
               ∧ contains a artist = true
               ∧ ∀ (j : nat) x, j < n → split res_str ARTIST_SEPARATOR !! j = Some x →
                                 contains x artist = false.
Proof.
  unfold match_week.
  destruct (contains res_str artist); [|done].
  destruct (directly_follows artist " featuring " res_str); [done|].
  cbn [andb negb]. intros (n & -> & H)%first_listing_Some.
  split_and!; [done|done|]. by exists n.
Qed.

Lemma list_index_None (l : list date) (x : date) : list_index l x = None → x ∉ l.
Proof.
  induction l as [|y l IH]; cbn [list_index]; intros H.
  - apply not_elem_of_nil.
  - destruct (Z.eqb_spec y x) as [->|Hne]; [done|].
    destruct (list_index l x); [done|].
    apply not_elem_of_cons. split; [done|]. by apply IH.
Qed.

Lemma list_index_Some (l : list date) (x : date) (i : nat) :
  list_index l x = Some i →
  l !! i = Some x ∧ ∀ (j : nat) y, j < i → l !! j = Some y → y ≠ x.
Proof.
  revert i. induction l as [|y l IH]; cbn [list_index]; intros i H; [done|].
  destruct (Z.eqb_spec y x) as [->|Hne].
  - injection H as <-. split; [done|]. lia.
  - destruct (list_index l x) as [n|]; [|done]. injection H as <-.
    destruct (IH n eq_refl) as [Hn Hb]. split; [done|].
    intros [|j] z Hj Hz; cbn in Hz; [by simplify_eq|]. apply (Hb j); [lia|done].
Qed.

End MatcherFacts.

(** X1: [key_from_value] either raises the [ValueError] of [list.index], which
    happens exactly when no key has the value, or returns the first key, in
    insertion order, that has the value; the subscript on the list of keys
    never fails. *)
Theorem key_from_value_first_key (d : list (string * date)) (val : date) :
((val ∉ d.*2) ∧ key_from_value d val = Raise ValueError_not_in_list)
  ∨ (∃ (i : nat) k,
       key_from_value d val = Return k
       ∧ d !! i = Some (k, val)
       ∧ ∀ (j : nat) kv, j < i → d !! j = Some kv → kv.2 ≠ val).
Proof.
  unfold key_from_value. destruct (list_index d.*2 val) as [i|] eqn:Hi.
  - right. apply MatcherFacts.list_index_Some in Hi as [Hi Hb].
    apply list_lookup_fmap_Some in Hi as ([k v] & Hv & Hkv). cbn in Hv. subst v.
    exists i, k. rewrite list_lookup_fmap, Hkv. split_and!; [done|done|].
    intros j kv Hj Hl. apply (Hb j); [done|]. by rewrite list_lookup_fmap, Hl.
  - left. by apply MatcherFacts.list_index_None in Hi.
Qed.

(** X2: in a dict whose values are all different, [key_from_value] takes the
    value of a key back to that key. *)
Theorem key_from_value_round_trip (d : list (string * date)) (k : string) (v : date) :
  NoDup d.*2 → (k, v) ∈ d → key_from_value d v = Return k.
Proof.
  intros Hnd [n Hn]%list_elem_of_lookup.
  unfold key_from_value. destruct (list_index d.*2 v) as [i|] eqn:Hi.
  - apply MatcherFacts.list_index_Some in Hi as [Hi _].
    assert (d.*2 !! n = Some v) as Hn' by (by rewrite list_lookup_fmap, Hn).
    assert (i = n) as -> by (by eapply NoDup_lookup).
    by rewrite list_lookup_fmap, Hn.
  - apply MatcherFacts.list_index_None in Hi. exfalso. apply Hi.
    apply list_elem_of_fmap. exists (k, v). split; [done|].
    by eapply list_elem_of_lookup_2.
Qed.

Lemma key_from_value_round_trip_witness :
  key_from_value ODD_DATES (PyDate.mkdate 1976 7 4) = Return "1976-07-03".
Proof.
  apply (key_from_value_round_trip ODD_DATES "1976-07-03" (PyDate.mkdate 1976 7 4)).
  - change (NoDup [PyDate.mkdate 1976 7 4]). apply NoDup_singleton.
  - change ODD_DATES with [("1976-07-03", PyDate.mkdate 1976 7 4)].
    apply list_elem_of_singleton. reflexivity.
Defined.

(** With two keys of the same value the reverse lookup gives the older key. *)
Example key_from_value_shared_value :
  key_from_value [("1976-07-03", 5%Z); ("1976-07-10", 5%Z)] 5%Z = Return "1976-07-03".
Proof. reflexivity. Qed.

(** X3: a hit of the matcher is sound: the week passed the featuring test, the
    returned listing is the entry at the returned 1-indexed position of the
    split roster string, it contains the query, and no earlier entry does. *)
Theorem match_week_hit_sound (artist res_str a : string) (p : nat) :
  match_week artist res_str = Some (a, p) →
  directly_follows artist " featuring " res_str = false
  ∧ 1 ≤ p ≤ length (PyStr.split res_str ARTIST_SEPARATOR)
  ∧ PyStr.split res_str ARTIST_SEPARATOR !! (p - 1) = Some a
  ∧ PyStr.contains a artist = true
  ∧ ∀ (j : nat) x, j < p - 1 → PyStr.split res_str ARTIST_SEPARATOR !! j = Some x →
                    PyStr.contains x artist = false.
Proof.
  intros (Hf & _ & n & -> & Hn & Ha & Hb)%MatcherFacts.match_week_Some.
  replace (n + 1 - 1) with n by lia.
  split_and!; [done|lia|apply lookup_lt_Some in Hn; lia|done|done|done].
Qed.

Lemma match_week_hit_sound_witness :
  directly_follows "drake" " featuring " "avril lavigne`~drake`~sia" = false
  ∧ 1 ≤ 2 ≤ length (PyStr.split "avril lavigne`~drake`~sia" ARTIST_SEPARATOR)
  ∧ PyStr.split "avril lavigne`~drake`~sia" ARTIST_SEPARATOR !! (2 - 1) = Some "drake"
  ∧ PyStr.contains "drake" "drake" = true
  ∧ ∀ (j : nat) x, j < 2 - 1 →
      PyStr.split "avril lavigne`~drake`~sia" ARTIST_SEPARATOR !! j = Some x →
      PyStr.contains x "drake" = false.
Proof.
  apply (match_week_hit_sound "drake" "avril lavigne`~drake`~sia" "drake" 2).
  reflexivity.
Defined.

(** X4: a query that contains the separator is never found, whatever the
    roster string: the entries the roster is split into cannot contain it. *)
Theorem match_week_query_with_separator (artist res_str : string) :
  PyStr.contains artist ARTIST_SEPARATOR = true →
  match_week artist res_str = None.
Proof.
  intros Hsep. unfold match_week.
  destruct (_ && _); [|done].
  apply RosterFacts.first_listing_none.
  eapply Forall_impl; [apply (MatcherFacts.split_no_sep res_str ARTIST_SEPARATOR); done|].
  intros x Hx. cbn in Hx. destruct (PyStr.contains x artist) eqn:E; [|done].
  by rewrite (PyStrFacts.contains_trans x artist ARTIST_SEPARATOR E Hsep) in Hx.
Qed.

Lemma match_week_query_with_separator_witness :
  match_week "lavigne`~drake" "avril lavigne`~drake`~sia" = None.
Proof.
  apply (match_week_query_with_separator "lavigne`~drake" "avril lavigne`~drake`~sia").
  reflexivity.
Defined.

(** X5: the empty query matches every week whose roster string does not
    contain [" featuring "], at position 1 with the first listing, and no
    other week. *)
Theorem match_week_empty_query (res_str : string) :
  if PyStr.contains res_str " featuring "
  then match_week "" res_str = None
  else ∃ a rest, PyStr.split res_str ARTIST_SEPARATOR = a :: rest
                 ∧ match_week "" res_str = Some (a, 1).
Proof.
  unfold match_week, directly_follows. rewrite PyStrFacts.contains_empty.
  change (" featuring " +:+ "") with " featuring ".
  destruct (PyStr.contains res_str " featuring "); [done|].
  destruct (MatcherFacts.split_nonempty res_str ARTIST_SEPARATOR) as (a & rest & ->).
  exists a, rest. split; [done|]. cbn [andb negb first_listing].
  by rewrite PyStrFacts.contains_empty.
Qed.

(** ** The cache under fetches and scans *)
Module CacheFacts.
Import PyDate ScanFacts.
Local Open Scope Z_scope.

#[local] Arguments isoformat : simpl never.
#[local] Arguments fromisoformat : simpl never.
#[local] Arguments PyStr.lower : simpl never.
#[local] Arguments PyStr.join : simpl never.
#[local] Arguments match_week : simpl never.
#[local] Arguments odd_date_subst : simpl never.
#[local] Arguments chart_name_to_table_name : simpl never.

(** [d'] has every table and every row of [d], and differs from it at most in
    the table [table_name]. *)
#[local] Abbreviation grows table_name d d' :=
  ((∀ tn (t : gmap string string), d !! tn = Some t →
      ∃ t' : gmap string string,
        d' !! tn = Some t' ∧ ∀ k v, t !! k = Some v → t' !! k = Some v)
   ∧ (∀ tn : string, tn ≠ table_name → d' !! tn = d !! tn)).

Lemma grows_refl (table_name : string) (d : gmap string (gmap string string)) :
  grows table_name d d.
Proof. split; [|done]. intros tn t Ht. by exists t. Qed.

Lemma grows_trans (table_name : string) (d1 d2 d3 : gmap string (gmap string string)) :
  grows table_name d1 d2 → grows table_name d2 d3 → grows table_name d1 d3.
Proof.
  intros [H1 H1'] [H2 H2']. split.
  - intros tn t Ht. destruct (H1 tn t Ht) as (t' & Ht' & Hrows).
    destruct (H2 tn t' Ht') as (t'' & Ht'' & Hrows'). exists t''. split; [done|].
    intros k v Hk. by apply Hrows', Hrows.
  - intros tn Hne. by rewrite H2', H1'.
Qed.

Lemma grows_insert (table_name key val : string) (d : gmap string (gmap string string))
    (t : gmap string string) :
  d !! table_name = Some t → t !! key = None →
  grows table_name d (<[table_name := <[key := val]> t]> d).
Proof.
  intros Ht Hk. split.
  - intros tn t0 Ht0. destruct (decide (tn = table_name)) as [->|Hne].
    + rewrite lookup_insert_eq. eexists. split; [done|].
      intros k v Hv. assert (t0 = t) as -> by congruence.
      rewrite lookup_insert_ne; [done|]. intros ->. congruence.
    + rewrite lookup_insert_ne by done. by exists t0.
  - intros tn Hne. by rewrite lookup_insert_ne.
Qed.

Lemma fetch_grows (billboard : source) (datestr chart_name : string) (st : state) r st' :
  fetch_and_insert_date billboard datestr chart_name st = (r, st') →
  grows (chart_name_to_table_name chart_name) (db st) (db st').
Proof.
  unfold fetch_and_insert_date, bind, billboard_ChartData, sql_insert, ret.
  destruct (billboard (log st) chart_name datestr) as [chart|]; cbn [db log].
  - destruct (db st !! chart_name_to_table_name chart_name) as [t|] eqn:Ht.
    + destruct (t !! chart_date chart) eqn:Hk; intros [= <- <-]; cbn [db].
      * apply grows_refl.
      * by apply grows_insert.
    + intros [= <- <-]. apply grows_refl.
  - intros [= <- <-]. apply grows_refl.
Qed.

Lemma get_or_fetch_grows (billboard : source) (table_name chart_name : string)
    (q : date) (st : state) r st' :
  get_or_fetch billboard table_name chart_name q st = (r, st') →
  grows (chart_name_to_table_name chart_name) (db st) (db st').
Proof.
  unfold get_or_fetch, bind, sql_select, ret.
  destruct (db st !! table_name) as [t|].
  - destruct (t !! isoformat q).
    + intros [= <- <-]. apply grows_refl.
    + intros H. by apply fetch_grows in H.
  - intros [= <- <-]. apply grows_refl.
Qed.

Lemma body_grows (billboard : source) (artist table_name chart_name : string)
    (curr_week : date) (st : state) r st' :
  find_in_table_body billboard artist table_name chart_name curr_week st = (r, st') →
  grows (chart_name_to_table_name chart_name) (db st) (db st').
Proof.
  rewrite find_in_table_body_eq. cbv zeta.
  destruct (get_or_fetch _ _ _ _ _) as [ro st1] eqn:Hg.
  apply get_or_fetch_grows in Hg. cbn [db] in Hg.
  destruct ro as [res_str|e|]; [|by intros [= <- <-]..].
  destruct (match_week artist res_str) as [[a p]|]; [by intros [= <- <-]|].
  destruct (sub_weeks curr_week 1); by intros [= <- <-].
Qed.

Lemma loop_grows (billboard : source) (artist table_name chart_name : string)
    (stop_date : date) (fuel : nat) :
  ∀ (curr_week : date) (st : state) r st',
    find_in_table_loop fuel billboard artist table_name chart_name stop_date curr_week st
    = (r, st') →
    grows (chart_name_to_table_name chart_name) (db st) (db st').
Proof.
  induction fuel as [|fuel IH]; intros curr_week st r st' H.
  { injection H as <- <-. apply grows_refl. }
  rewrite find_in_table_loop_S in H.
  destruct (curr_week >? stop_date); [|injection H as <- <-; apply grows_refl].
  destruct (find_in_table_body _ _ _ _ _ _) as [rb st1] eqn:Hb.
  apply body_grows in Hb.
  destruct rb as [[found|next]|e|]; try (injection H as <- <-; exact Hb).
  apply IH in H. by eapply grows_trans.
Qed.

Lemma find_in_table_grows (fuel : nat) (billboard : source) (artist : string)
    (start_date stop_date : date) (chart_name : string) (st : state) r st' :
  find_in_table fuel billboard artist start_date stop_date chart_name st = (r, st') →
  grows (chart_name_to_table_name chart_name) (db st) (db st').
Proof.
  rewrite FindFacts.find_in_table_eq. cbv zeta.
  destruct (billboard _ _ _) as [c|]; [|intros [= <- <-]; apply grows_refl].
  destruct (fromisoformat _); [|intros [= <- <-]; apply grows_refl].
  intros H. by apply loop_grows in H.
Qed.

(** With its table in place, a lookup never fails on the database schema. *)
Lemma get_or_fetch_table (billboard : source) (chart_name : string)
    (q : date) (st : state) r st' :
  is_Some (db st !! chart_name_to_table_name chart_name) →
  get_or_fetch billboard (chart_name_to_table_name chart_name) chart_name q st = (r, st') →
  r ≠ Raise OperationalError.
Proof.
  intros [t Ht]. unfold get_or_fetch, bind, sql_select, ret. rewrite Ht.
  destruct (t !! isoformat q); [by intros [= <- <-]|].
  unfold fetch_and_insert_date, bind, billboard_ChartData, sql_insert, ret.
  destruct (billboard _ _ _) as [chart|]; cbn [db log]; [|by intros [= <- <-]].
  rewrite Ht. destruct (t !! chart_date chart); by intros [= <- <-].
Qed.

Lemma loop_table (billboard : source) (artist chart_name : string)
    (stop_date : date) (fuel : nat) :
  ∀ (curr_week : date) (st : state),
    is_Some (db st !! chart_name_to_table_name chart_name) →
    (find_in_table_loop fuel billboard artist (chart_name_to_table_name chart_name)
       chart_name stop_date curr_week st).1 ≠ Raise OperationalError.
Proof.
  induction fuel as [|fuel IH]; intros curr_week st Ht; [done|].
  rewrite find_in_table_loop_S.
  destruct (curr_week >? stop_date); [|done].
  rewrite find_in_table_body_eq. cbv zeta.
  destruct (get_or_fetch _ _ _ _ _) as [ro st1] eqn:Hg.
  pose proof (get_or_fetch_grows _ _ _ _ _ _ _ Hg) as [Hgrow _].
  apply get_or_fetch_table in Hg; [|done]. cbn [db] in Hgrow.
  destruct ro as [res_str|e|]; [|cbn; congruence|done].
  destruct (match_week artist res_str) as [[a p]|]; [done|].
  destruct (sub_weeks curr_week 1); [|done].
  apply IH. destruct Ht as [t Ht]. destruct (Hgrow _ _ Ht) as (t' & Ht' & _). by exists t'.
Qed.

End CacheFacts.

(** ** Starting up: [init_db] *)
Module InitFacts.

#[local] Abbreviation recent cutoff := (λ row : string * string, String.ltb row.1 cutoff = false).
#[local] Abbreviation nonempty := (λ row : string * string, String.eqb row.2 "" = false).

(** The tables that [init_db] leaves. *)
Lemma init_db_eq (cutoff : string) (file : gmap string (gmap string string)) :
  init_db cutoff file =
    Return (mkState
              (<["bb200" := filter nonempty (default ∅ (file !! "bb200"))]>
                 (<["hot100" := filter nonempty
                                  (filter (recent cutoff) (default ∅ (file !! "hot100")))]>
                    file))
              []).
Proof.
  unfold init_db, sql_create_table, sql_delete_where.
  destruct (file !! "hot100") as [h|] eqn:Hh; destruct (file !! "bb200") as [b|] eqn:Hb;
    cbn [default];
    repeat (rewrite ?lookup_insert_eq, ?lookup_insert_ne, ?Hh, ?Hb by done; cbn [default]).
  all: apply (f_equal Return), (f_equal (λ d, mkState d [])), map_eq; intros tn;
    destruct (decide (tn = "bb200")) as [E1|?];
    destruct (decide (tn = "hot100")) as [E2|?]; subst; try done;
    repeat (rewrite ?lookup_insert_eq, ?lookup_insert_ne by done); done.
Qed.

End InitFacts.

(** X6: [init_db] never fails and starts with an empty log.  Afterwards both
    tables exist; [hot100] holds exactly the rows of the file with a non-empty
    roster whose date is not before [cutoff] (as texts), [bb200] exactly the
    rows of the file with a non-empty roster, all unchanged; any other table
    of the file is left alone. *)
Theorem init_db_purges (cutoff : string) (file : gmap string (gmap string string)) :
  ∃ st (h b : gmap string string),
    init_db cutoff file = Return st
    ∧ log st = []
    ∧ db st !! "hot100" = Some h
    ∧ db st !! "bb200" = Some b
    ∧ (∀ k v, h !! k = Some v ↔
              (file !! "hot100") ≫= (.!! k) = Some v ∧ v ≠ ""
              ∧ String.ltb k cutoff = false)
    ∧ (∀ k v, b !! k = Some v ↔ (file !! "bb200") ≫= (.!! k) = Some v ∧ v ≠ "")
    ∧ (∀ tn, tn ≠ "hot100" → tn ≠ "bb200" → db st !! tn = file !! tn).
Proof.
  rewrite InitFacts.init_db_eq. eexists _, _, _. split; [reflexivity|]. cbn [db log].
  split_and!; [done| | | | |].
  - rewrite lookup_insert_ne by done. by rewrite lookup_insert_eq.
  - by rewrite lookup_insert_eq.
  - intros k v. rewrite !map_lookup_filter_Some. cbn [fst snd].
    rewrite String.eqb_neq. destruct (file !! "hot100"); cbn; [tauto|].
    rewrite lookup_empty. intuition discriminate.
  - intros k v. rewrite !map_lookup_filter_Some. cbn [fst snd].
    rewrite String.eqb_neq. destruct (file !! "bb200"); cbn; [tauto|].
    rewrite lookup_empty. intuition discriminate.
  - intros tn H1 H2. by rewrite !lookup_insert_ne.
Qed.

(** X7: running [init_db] again on what it left, with the same [cutoff],
    changes nothing. *)
Theorem init_db_idempotent (cutoff : string) (file : gmap string (gmap string string))
    (st : state) :
  init_db cutoff file = Return st →
  init_db cutoff (db st) = Return st.
Proof.
  rewrite !InitFacts.init_db_eq. intros [= <-]. cbn [db].
  apply (f_equal Return), (f_equal (λ d, mkState d [])).
  rewrite lookup_insert_eq. rewrite lookup_insert_ne by done. rewrite lookup_insert_eq.
  apply map_eq. intros tn.
  destruct (decide (tn = "bb200")) as [E1|?];
    destruct (decide (tn = "hot100")) as [E2|?]; subst; try done;
    repeat (rewrite ?lookup_insert_eq, ?lookup_insert_ne by done); [..|done];
    f_equal; apply map_eq; intros k; apply option_eq; intros v;
    unfold default; cbn [from_option id]; rewrite !map_lookup_filter_Some; tauto.
Qed.

Lemma init_db_idempotent_witness :
  init_db "2004-11-04"
    (db (mkState (<["hot100" := {["2020-01-04" := "drake"]}]> (<["bb200" := ∅]> ∅)) []))
  = Return (mkState (<["hot100" := {["2020-01-04" := "drake"]}]> (<["bb200" := ∅]> ∅)) []).
Proof.
  apply (init_db_idempotent "2004-11-04"
           (<["hot100" := {["2020-01-04" := "drake"; "1999-01-02" := "cher";
                            "2021-01-02" := ""]}]> ∅)).
  vm_compute. reflexivity.
Defined.

(** What [init_db] does to a file with an old row and an empty roster. *)
Example init_db_sample :
  init_db "2004-11-04"
    (<["hot100" := {["2020-01-04" := "drake"; "1999-01-02" := "cher"; "2021-01-02" := ""]}]> ∅)
  = Return (mkState (<["hot100" := {["2020-01-04" := "drake"]}]> (<["bb200" := ∅]> ∅)) []).
Proof. vm_compute. reflexivity. Qed.

(** X8: a scan only ever adds rows: every table and every row present before
    it is still there, unchanged, after it, and no table other than the
    chart's own is touched. *)
Theorem scan_only_adds_rows (fuel : nat) (billboard : source) (artist : string)
    (start_date stop_date : date) (chart_name : string) (st : state) :
  let st' := (find_in_table fuel billboard artist start_date stop_date chart_name st).2 in
  (∀ tn (t : gmap string string), db st !! tn = Some t →
     ∃ t' : gmap string string,
       db st' !! tn = Some t' ∧ ∀ k v, t !! k = Some v → t' !! k = Some v)
  ∧ (∀ tn : string, tn ≠ chart_name_to_table_name chart_name →
       db st' !! tn = db st !! tn).
Proof.
  intros st'. subst st'.
  destruct (find_in_table fuel billboard artist start_date stop_date chart_name st)
    as [r st'] eqn:H.
  by apply CacheFacts.find_in_table_grows in H.
Qed.

(** X9: a scan of a chart whose table exists never fails on the database
    schema, and the table is still there afterwards. *)
Theorem scan_no_schema_error (fuel : nat) (billboard : source) (artist : string)
    (start_date stop_date : date) (chart_name : string) (st : state) :
  is_Some (db st !! chart_name_to_table_name chart_name) →
  let run := find_in_table fuel billboard artist start_date stop_date chart_name st in
  run.1 ≠ Raise OperationalError
  ∧ is_Some (db run.2 !! chart_name_to_table_name chart_name).
Proof.
  intros Ht run. subst run. split.
  - rewrite FindFacts.find_in_table_eq. cbv zeta.
    destruct (billboard _ _ _) as [c|]; [|done].
    destruct (PyDate.fromisoformat _); [|done].
    by apply CacheFacts.loop_table.
  - destruct (find_in_table fuel billboard artist start_date stop_date chart_name st)
      as [r st'] eqn:H.
    apply CacheFacts.find_in_table_grows in H as [H _].
    destruct Ht as [t Ht]. destruct (H _ _ Ht) as (t' & Ht' & _). by exists t'.
Qed.

Lemma scan_no_schema_error_witness :
  let run := find_in_table 5 (echo_source ["Nobody"]) "drake"
               (PyDate.mkdate 1963 8 31) BILLBOARD_200_EARLIEST "billboard-200" empty_db in
  run.1 ≠ Raise OperationalError
  ∧ is_Some (db run.2 !! chart_name_to_table_name "billboard-200").
Proof.
  apply (scan_no_schema_error 5 (echo_source ["Nobody"]) "drake"
           (PyDate.mkdate 1963 8 31) BILLBOARD_200_EARLIEST "billboard-200" empty_db).
  by exists ∅.
Defined.

(** ** Hits, and where main goes on from *)
Module HitFacts.
Import PyDate PyDateFacts OddDateFacts TraceFacts CalendarFacts.
Local Open Scope Z_scope.

#[local] Arguments isoformat : simpl never.
#[local] Arguments fromisoformat : simpl never.
#[local] Arguments odd_date_subst : simpl never.

(** A hit comes from a week of the walk and from the matcher. *)
Lemma scan_events_hit (artist table_name chart_name : string) (stop_date : date)
    (curr_week : date) r evs found :
  scan_events artist table_name chart_name stop_date curr_week r evs →
  r = Return (Some found) →
  ∃ (k : nat) res_str a p,
    stop_date < curr_week - 7 * Z.of_nat k
    ∧ found = mkFoundInfo (isoformat (odd_date_subst (curr_week - 7 * Z.of_nat k)).2) a p
    ∧ match_week artist res_str = Some (a, p).
Proof.
  induction 1 as [c Hc|c|c evs s a p Hc Hf Hm|c evs e Hc Hf|c evs s Hc Hf Hm Hs
                 |c evs s r rest Hc Hf Hm Hrest IH]; intros Hr; try done.
  - injection Hr as <-. exists 0%nat, s, a, p.
    replace (c - 7 * Z.of_nat 0) with c by lia. done.
  - destruct (IH Hr) as (k & res_str & a & p & Hk & Hfound & Hmatch).
    exists (S k), res_str, a, p.
    replace (c - 7 * Z.of_nat (S k)) with (c - 7 - 7 * Z.of_nat k) by lia. done.
Qed.

Lemma queried_range (c : date) :
  1 ≤ c ≤ MAXORDINAL →
  1 ≤ (odd_date_subst c).2 ≤ MAXORDINAL ∧ c ≤ (odd_date_subst c).2 ≤ c + 1.
Proof.
  intros H. rewrite odd_date_subst_queried. unfold MAXORDINAL in *.
  case_decide as E; [rewrite E; vm_compute; intuition discriminate|lia].
Qed.

End HitFacts.

(** X10: a hit is sound.  When the horizon is a date and a scan returns a
    [FoundInfo], its listing contains the query, its position is at least 1,
    both come from the matcher on some roster string, and its date is the
    print of a date after the horizon that [date.fromisoformat] reads back,
    so that the caller's next starting date is that date minus seven days (or
    the [OverflowError] of [date] when that would fall before 0001-01-01),
    never a [ValueError]. *)
Theorem scan_hit_sound (fuel : nat) (billboard : source) (artist : string)
    (start_date stop_date : date) (chart_name : string) (st st' : state)
    (found : FoundInfo) :
  (1 ≤ stop_date)%Z →
  find_in_table fuel billboard artist start_date stop_date chart_name st
  = (Return (Some found), st') →
  ∃ (q : date) res_str,
    (stop_date < q)%Z
    ∧ found_date found = PyDate.isoformat q
    ∧ PyDate.fromisoformat (found_date found) = Some q
    ∧ match_week artist res_str = Some (found_artist found, found_position found)
    ∧ PyStr.contains (found_artist found) artist = true
    ∧ 1 ≤ found_position found
    ∧ next_date found = (if (8 <=? q)%Z then Return (q - 7)%Z else Raise OverflowError).
Proof.
  intros Hstop H.
  apply FindFacts.find_in_table_trace in H
    as [(res & _ & _ & _ & [[_ [=]]|(c & _ & _ & [=])])|(c & d0 & evs & _ & Hd0 & _ & Hse)].
  apply CalendarFacts.fromisoformat_range in Hd0.
  destruct (HitFacts.scan_events_hit _ _ _ _ _ _ _ _ Hse eq_refl)
    as (k & res_str & a & p & Hk & -> & Hm).
  set (cw := (d0 - 7 * Z.of_nat k)%Z) in *.
  destruct (HitFacts.queried_range cw) as [Hq Hq']; [unfold date in *; lia|].
  set (q := (odd_date_subst cw).2) in *.
  pose proof (CalendarFacts.fromisoformat_isoformat q Hq) as Hparse.
  destruct (MatcherFacts.match_week_Some _ _ _ _ Hm) as (_ & _ & n & -> & _ & Ha & _).
  exists q, res_str. cbn [found_date found_artist found_position].
  split_and!; [unfold date in *; lia|done|done|done|done|lia|].
  unfold next_date. cbn [found_date]. rewrite Hparse. unfold PyDate.sub_weeks.
  unfold PyDate.MAXORDINAL in *. unfold date in *.
  destruct (8 <=? q)%Z eqn:E.
  - assert (((1 <=? q - 7 * 1) && (q - 7 * 1 <=? 3652059))%Z = true) as ->.
    { rewrite andb_true_iff, !Z.leb_le. lia. }
    f_equal; lia.
  - assert (((1 <=? q - 7 * 1) && (q - 7 * 1 <=? 3652059))%Z = false) as ->; [|done].
    rewrite andb_false_iff, !Z.leb_gt. lia.
Qed.

Lemma scan_hit_sound_witness :
  let st := db_with "hot100" "2020-01-04" "avril lavigne`~drake`~sia" in
  let found := mkFoundInfo "2020-01-04" "drake" 2 in
  ∃ (q : date) res_str,
    (PyDate.mkdate 2000 1 4 < q)%Z
    ∧ found_date found = PyDate.isoformat q
    ∧ PyDate.fromisoformat (found_date found) = Some q
    ∧ match_week "drake" res_str = Some (found_artist found, found_position found)
    ∧ PyStr.contains (found_artist found) "drake" = true
    ∧ 1 ≤ found_position found
    ∧ next_date found = (if (8 <=? q)%Z then Return (q - 7)%Z else Raise OverflowError).
Proof.
  intros st found.
  apply (scan_hit_sound 5 (echo_source []) "drake" (PyDate.mkdate 2020 1 4)
           (PyDate.mkdate 2000 1 4) "hot-100" st
           (find_in_table 5 (echo_source []) "drake" (PyDate.mkdate 2020 1 4)
              (PyDate.mkdate 2000 1 4) "hot-100" st).2 found).
  - vm_compute. discriminate.
  - vm_compute. reflexivity.
Defined.

Module ResumeFacts.
Import PyDate CalendarFacts.
Local Open Scope Z_scope.

#[local] Arguments isoformat : simpl never.
#[local] Arguments fromisoformat : simpl never.
#[local] Arguments odd_date_subst : simpl never.

(** The date of a hit lies after the horizon and at most one day after the
    date the scan started from. *)
Lemma find_in_table_hit_date (fuel : nat) (billboard : source) (artist : string)
    (start_date stop_date : date) (chart_name : string) (st st' : state)
    (found : FoundInfo) :
  1 ≤ stop_date →
  find_in_table fuel billboard artist start_date stop_date chart_name st
  = (Return (Some found), st') →
  ∃ c d0 q,
    billboard (log st) chart_name (isoformat start_date) = Some c
    ∧ fromisoformat (chart_date c) = Some d0
    ∧ stop_date < q ≤ d0 + 1
    ∧ fromisoformat (found_date found) = Some q.
Proof.
  intros Hstop H.
  apply FindFacts.find_in_table_trace in H
    as [(res & _ & _ & _ & [[_ [=]]|(c & _ & _ & [=])])|(c & d0 & evs & Hb & Hd0 & _ & Hse)].
  pose proof (fromisoformat_range _ _ Hd0) as Hr.
  destruct (HitFacts.scan_events_hit _ _ _ _ _ _ _ _ Hse eq_refl)
    as (k & res_str & a & p & Hk & -> & Hm).
  set (cw := (d0 - 7 * Z.of_nat k)%Z) in *.
  destruct (HitFacts.queried_range cw) as [Hq Hq']; [unfold date in *; lia|].
  exists c, d0, (odd_date_subst cw).2. cbn [found_date].
  split_and!; [done|done|unfold date in *; lia|unfold date in *; lia|].
  by apply fromisoformat_isoformat.
Qed.

End ResumeFacts.

(** X11: searching on after a hit goes back in time.  When main resumes from
    [next_date] of a hit and the chart source resolves that starting date to a
    chart date not after it, a second hit is dated at least six days before
    the first: no week is reported twice. *)
Theorem resume_goes_back (fuel1 fuel2 : nat) (billboard : source) (artist : string)
    (start_date stop_date next : date) (chart_name : string) (st st1 st2 : state)
    (found1 found2 : FoundInfo) (c2 : ChartData) (d2 : date) :
  (1 ≤ stop_date)%Z →
  find_in_table fuel1 billboard artist start_date stop_date chart_name st
  = (Return (Some found1), st1) →
  next_date found1 = Return next →
  billboard (log st1) chart_name (PyDate.isoformat next) = Some c2 →
  PyDate.fromisoformat (chart_date c2) = Some d2 →
  (d2 ≤ next)%Z →
  find_in_table fuel2 billboard artist next stop_date chart_name st1
  = (Return (Some found2), st2) →
  ∃ q1 q2 : date,
    PyDate.fromisoformat (found_date found1) = Some q1
    ∧ PyDate.fromisoformat (found_date found2) = Some q2
    ∧ (q2 ≤ q1 - 6)%Z.
Proof.
  intros Hstop H1 Hnext Hb2 Hd2 Hle H2.
  destruct (ResumeFacts.find_in_table_hit_date _ _ _ _ _ _ _ _ _ Hstop H1)
    as (c & d0 & q1 & _ & _ & _ & Hq1).
  destruct (ResumeFacts.find_in_table_hit_date _ _ _ _ _ _ _ _ _ Hstop H2)
    as (c2' & d2' & q2 & Hb2' & Hd2' & Hq2r & Hq2).
  assert (c2' = c2) as -> by congruence. assert (d2' = d2) as -> by congruence.
  exists q1, q2. split_and!; [done|done|].
  unfold next_date in Hnext. rewrite Hq1 in Hnext.
  destruct (PyDate.sub_weeks q1 1) as [n|] eqn:Hs; [|done].
  injection Hnext as ->. apply PyDateFacts.sub_weeks_one in Hs. unfold date in *. lia.
Qed.

Lemma resume_goes_back_witness :
  ∃ q1 q2 : date,
    PyDate.fromisoformat (found_date (mkFoundInfo "2020-01-11" "drake" 1)) = Some q1
    ∧ PyDate.fromisoformat (found_date (mkFoundInfo "2020-01-04" "drake" 1)) = Some q2
    ∧ (q2 ≤ q1 - 6)%Z.
Proof.
  apply (resume_goes_back 5 5 (echo_source ["Drake"]) "drake"
           (PyDate.mkdate 2020 1 11) (PyDate.mkdate 2000 1 4) (PyDate.mkdate 2020 1 4)
           "hot-100" empty_db
           (find_in_table 5 (echo_source ["Drake"]) "drake" (PyDate.mkdate 2020 1 11)
              (PyDate.mkdate 2000 1 4) "hot-100" empty_db).2
           (find_in_table 5 (echo_source ["Drake"]) "drake" (PyDate.mkdate 2020 1 4)
              (PyDate.mkdate 2000 1 4) "hot-100"
              (find_in_table 5 (echo_source ["Drake"]) "drake" (PyDate.mkdate 2020 1 11)
                 (PyDate.mkdate 2000 1 4) "hot-100" empty_db).2).2
           (mkFoundInfo "2020-01-11" "drake" 1) (mkFoundInfo "2020-01-04" "drake" 1)
           (mkChartData "2020-01-04" ["Drake"]) (PyDate.mkdate 2020 1 4)).
  - vm_compute. discriminate.
  - vm_compute. reflexivity.
  - vm_compute. reflexivity.
  - reflexivity.
  - vm_compute. reflexivity.
  - vm_compute. discriminate.
  - vm_compute. reflexivity.
Defined.

(** ** The keys of [continue_or_quit] *)

(** X12: [continue_or_quit] is decided by the first key that is [c], [q] or,
    on Windows, a byte of 128 or more: it returns on [c], exits on [q] and
    ends with the [UnicodeDecodeError] of [get_char] on such a byte, having
    skipped every other key before it (capitals included) and left the keys
    after it unread; with no such key it keeps waiting.  Off Windows, and on
    Windows for keys below 128, it never fails. *)
Theorem continue_or_quit_first_key (win32 : bool) (keys : list ascii) :
  let skips := λ k : ascii,
    k ≠ "c"%char ∧ k ≠ "q"%char ∧ (win32 = true → (N_of_ascii k < 128)%N) in
  match continue_or_quit win32 keys with
  | Continue rest => ∃ skipped, keys = skipped ++ "c"%char :: rest ∧ Forall skips skipped
  | Quit rest => ∃ skipped, keys = skipped ++ "q"%char :: rest ∧ Forall skips skipped
  | AwaitingKey => Forall skips keys
  | DecodeError rest =>
      ∃ skipped k, keys = skipped ++ k :: rest ∧ Forall skips skipped
                   ∧ win32 = true ∧ (128 ≤ N_of_ascii k)%N
  end.
Proof.
  intros skips. induction keys as [|key keys IH]; [by constructor|].
  cbn [continue_or_quit]. unfold get_char.
  destruct (win32 && (128 <=? N_of_ascii key)%N) eqn:E.
  { apply andb_true_iff in E as [-> E]. apply N.leb_le in E. by exists [], key. }
  assert (win32 = true → (N_of_ascii key < 128)%N) as Hdec.
  { intros ->. cbn in E. by apply N.leb_gt in E. }
  destruct (Ascii.eqb_spec key "c") as [->|Hc].
  { exists []. by split. }
  destruct (Ascii.eqb_spec key "q") as [->|Hq].
  { exists []. by split. }
  assert (skips key) as Hkey by done.
  destruct (continue_or_quit win32 keys) as [rest|rest| |rest].
  - destruct IH as (skipped & -> & Hs). exists (key :: skipped). split; [done|].
    by constructor.
  - destruct IH as (skipped & -> & Hs). exists (key :: skipped). split; [done|].
    by constructor.
  - by constructor.
  - destruct IH as (skipped & k & -> & Hs & Hw & Hk). exists (key :: skipped), k.
    split_and!; [done| |done..]. by constructor.
Qed.

(** [Ascii.ascii_of_N 224] is the byte 0xE0 that opens an arrow key on
    Windows. *)
Example continue_or_quit_sample :
  continue_or_quit false ["x"; "C"; " "; "c"; "q"]%char = Continue ["q"%char]
  ∧ continue_or_quit true ["Q"; "q"; "c"]%char = Quit ["c"%char]
  ∧ continue_or_quit true ["y"; "n"]%char = AwaitingKey
  ∧ continue_or_quit true ["y"%char; Ascii.ascii_of_N 224; "c"%char]
    = DecodeError ["c"%char]
  ∧ continue_or_quit false ["y"%char; Ascii.ascii_of_N 224; "c"%char] = Continue [].
Proof. vm_compute. done. Qed.

(** ** More on fetching *)

(** X13: what [fetch_and_insert_date] caches splits back into the lowered
    artists of the chart, all of them for ["hot-100"] and the first twenty for
    any other chart, provided the chart has an entry and no artist contains
    the separator; the row is stored under the date the source reports. *)
Theorem fetch_stores_capped_roster (billboard : source) (datestr chart_name : string)
    (st : state) (chart : ChartData) (t : gmap string string) :
  billboard (log st) chart_name datestr = Some chart →
  db st !! chart_name_to_table_name chart_name = Some t →
  t !! chart_date chart = None →
  chart_artists chart ≠ [] →
  Forall (λ e, PyStr.contains e ARTIST_SEPARATOR = false) (chart_artists chart) →
  ∃ artists_str st',
    fetch_and_insert_date billboard datestr chart_name st = (Return artists_str, st')
    ∧ (db st' !! chart_name_to_table_name chart_name) ≫= (.!! chart_date chart)
      = Some artists_str
    ∧ PyStr.split artists_str ARTIST_SEPARATOR
      = PyStr.lower <$> (if String.eqb chart_name "hot-100" then chart_artists chart
                         else take 20 (chart_artists chart))
    ∧ (chart_name ≠ "hot-100" →
       length (PyStr.split artists_str ARTIST_SEPARATOR) ≤ 20).
Proof.
  intros Hb Ht Hfree Hne Hsep.
  rewrite (ScanFacts.fetch_inserted _ _ _ _ chart t) by done. cbv zeta.
  eexists _, _. split; [reflexivity|]. cbn [db].
  set (entries := if String.eqb chart_name "hot-100" then chart_artists chart
                  else take 20 (chart_artists chart)).
  assert (PyStr.split (PyStr.lower (PyStr.join ARTIST_SEPARATOR entries)) ARTIST_SEPARATOR
          = PyStr.lower <$> entries) as Hsplit.
  { rewrite PyStrFacts.lower_join, RosterFacts.lower_sep.
    apply RosterFacts.split_join.
    - subst entries. destruct (String.eqb chart_name "hot-100");
        by destruct (chart_artists chart).
    - apply Forall_fmap. subst entries.
      assert (Forall (λ e, PyStr.contains e ARTIST_SEPARATOR = false)
                (if String.eqb chart_name "hot-100" then chart_artists chart
                 else take 20 (chart_artists chart))) as Hs.
      { destruct (String.eqb chart_name "hot-100"); [done|by apply Forall_take]. }
      eapply Forall_impl; [exact Hs|].
      intros e He. cbn. by rewrite RosterFacts.contains_lower_sep. }
  split_and!.
  - rewrite lookup_insert_eq. cbn. by rewrite lookup_insert_eq.
  - done.
  - intros Hc. rewrite Hsplit, length_fmap. subst entries.
    destruct (String.eqb_spec chart_name "hot-100") as [E|_]; [done|].
    rewrite length_take. lia.
Qed.

Lemma fetch_stores_capped_roster_witness :
  let artists := (λ n : nat, String (ascii_of_nat (65 + n)) "") <$> seq 0 25 in
  let chart := mkChartData "1963-08-24" artists in
  ∃ artists_str st',
    fetch_and_insert_date (fixed_source chart) "1963-08-24" "billboard-200" empty_db
    = (Return artists_str, st')
    ∧ (db st' !! chart_name_to_table_name "billboard-200") ≫= (.!! chart_date chart)
      = Some artists_str
    ∧ PyStr.split artists_str ARTIST_SEPARATOR
      = PyStr.lower <$> (if String.eqb "billboard-200" "hot-100" then chart_artists chart
                         else take 20 (chart_artists chart))
    ∧ ("billboard-200" ≠ "hot-100" →
       length (PyStr.split artists_str ARTIST_SEPARATOR) ≤ 20).
Proof.
  intros artists chart.
  apply (fetch_stores_capped_roster (fixed_source chart) "1963-08-24" "billboard-200"
           empty_db chart ∅).
  - reflexivity.
  - reflexivity.
  - reflexivity.
  - discriminate.
  - vm_compute. repeat constructor.
Defined.

(** X14: a week that misses the cache while the date the source reports for
    it already has a row ends the scan with sqlite's [IntegrityError], after
    the call to the source and with the database unchanged. *)
Theorem reported_date_already_cached (billboard : source) (fuel : nat)
    (artist chart_name : string) (stop_date curr_week : date) (st : state)
    (t : gmap string string) (chart : ChartData) (v : string) :
  let table_name := chart_name_to_table_name chart_name in
  let q := (odd_date_subst curr_week).2 in
  let looked_up :=
    [EvWeek curr_week q; EvSelect table_name (PyDate.isoformat q) None] in
  (stop_date < curr_week)%Z →
  db st !! table_name = Some t →
  t !! PyDate.isoformat q = None →
  billboard (log st ++ looked_up) chart_name (PyDate.isoformat q) = Some chart →
  t !! chart_date chart = Some v →
  find_in_table_loop (S fuel) billboard artist table_name chart_name
    stop_date curr_week st
  = (Raise IntegrityError,
     mkState (db st)
       (log st ++ looked_up
        ++ [EvChartData chart_name (PyDate.isoformat q) (Some chart)])).
Proof.
  intros table_name q looked_up Hlt Ht Hq Hb Hv.
  rewrite ScanFacts.find_in_table_loop_S.
  assert ((curr_week >? stop_date)%Z = true) as -> by lia.
  rewrite ScanFacts.find_in_table_body_eq. cbv zeta. fold q.
  unfold get_or_fetch, bind, sql_select. cbn [db log]. rewrite Ht, Hq.
  unfold fetch_and_insert_date, bind, billboard_ChartData, sql_insert. cbn [db log].
  rewrite <- app_assoc. cbn [app]. fold table_name.
  subst looked_up. cbn [app] in Hb. rewrite Hb. cbn [db log]. fold table_name.
  rewrite Ht, Hv. by rewrite <- !app_assoc.
Qed.

Lemma reported_date_already_cached_witness :
  let st := db_with "hot100" "2020-01-11" "drake" in
  let chart := mkChartData "2020-01-11" ["Drake"] in
  let curr_week := PyDate.mkdate 2020 1 4 in
  let q := (odd_date_subst curr_week).2 in
  let looked_up :=
    [EvWeek curr_week q;
     EvSelect (chart_name_to_table_name "hot-100") (PyDate.isoformat q) None] in
  find_in_table_loop 1 (fixed_source chart) "sia" (chart_name_to_table_name "hot-100")
    "hot-100" (PyDate.mkdate 2000 1 4) curr_week st
  = (Raise IntegrityError,
     mkState (db st)
       (log st ++ looked_up ++ [EvChartData "hot-100" (PyDate.isoformat q) (Some chart)])).
Proof.
  intros st chart curr_week q looked_up.
  apply (reported_date_already_cached (fixed_source chart) 0 "sia" "hot-100"
           (PyDate.mkdate 2000 1 4) curr_week st {["2020-01-11" := "drake"]} chart "drake").
  - reflexivity.
  - reflexivity.
  - reflexivity.
  - reflexivity.
  - reflexivity.
Defined.

(** ** Edges of the scan *)

(** X15: when the starting date resolves to a date at or before the horizon,
    the scan returns [None] after its one call to the chart source, without
    reading or writing the cache. *)
Theorem scan_from_before_horizon (fuel : nat) (billboard : source) (artist : string)
    (start_date stop_date : date) (chart_name : string) (st : state)
    (c : ChartData) (d0 : date) :
  billboard (log st) chart_name (PyDate.isoformat start_date) = Some c →
  PyDate.fromisoformat (chart_date c) = Some d0 →
  (d0 ≤ stop_date)%Z →
  find_in_table (S fuel) billboard artist start_date stop_date chart_name st
  = (Return None,
     mkState (db st)
       (log st ++ [EvChartData chart_name (PyDate.isoformat start_date) (Some c)])).
Proof.
  intros Hb Hd Hle. rewrite FindFacts.find_in_table_eq. cbv zeta. rewrite Hb, Hd.
  rewrite ScanFacts.find_in_table_loop_S.
  by assert ((d0 >? stop_date)%Z = false) as -> by lia.
Qed.

Lemma scan_from_before_horizon_witness :
  find_in_table 1 (echo_source ["Drake"]) "drake" BILLBOARD_200_EARLIEST
    BILLBOARD_200_EARLIEST "billboard-200" empty_db
  = (Return None,
     mkState (db empty_db)
       (log empty_db
        ++ [EvChartData "billboard-200" (PyDate.isoformat BILLBOARD_200_EARLIEST)
              (Some (mkChartData "1963-08-17" ["Drake"]))])).
Proof.
  apply (scan_from_before_horizon 0 (echo_source ["Drake"]) "drake" BILLBOARD_200_EARLIEST
           BILLBOARD_200_EARLIEST "billboard-200" empty_db
           (mkChartData "1963-08-17" ["Drake"]) BILLBOARD_200_EARLIEST).
  - reflexivity.
  - reflexivity.
  - reflexivity.
Defined.

(** X16: for a chart name other than ["hot-100"] and ["billboard-200"] the
    table name is empty, and in a database without a table of that name the
    scan never finds anything: it leaves the database as it was and ends with
    the error of the source, of the date parser or of sqlite, or with [None]
    when the starting date is not after the horizon. *)
Theorem scan_unknown_chart (fuel : nat) (billboard : source) (artist : string)
    (start_date stop_date : date) (chart_name : string) (st : state) :
  chart_name ≠ "hot-100" → chart_name ≠ "billboard-200" →
  db st !! "" = None →
  let run := find_in_table (S fuel) billboard artist start_date stop_date chart_name st in
  chart_name_to_table_name chart_name = ""
  ∧ db run.2 = db st
  ∧ selects_of (log run.2) = selects_of (log st)
  ∧ (run.1 = Raise SourceError ∨ run.1 = Raise ValueError_isoformat
     ∨ run.1 = Raise OperationalError ∨ run.1 = Return None).
Proof.
  intros H1 H2 Hdb run.
  assert (chart_name_to_table_name chart_name = "") as Ht.
  { unfold chart_name_to_table_name.
    destruct (String.eqb_spec chart_name "hot-100"); [done|].
    by destruct (String.eqb_spec chart_name "billboard-200"). }
  split; [done|]. subst run.
  rewrite FindFacts.find_in_table_eq. cbv zeta. rewrite Ht.
  destruct (billboard _ _ _) as [c|];
    [|cbn [fst snd db log]; rewrite TraceFacts.selects_of_app; cbn;
      rewrite app_nil_r; auto].
  destruct (PyDate.fromisoformat _) as [d0|];
    [|cbn [fst snd db log]; rewrite TraceFacts.selects_of_app; cbn;
      rewrite app_nil_r; auto].
  rewrite ScanFacts.find_in_table_loop_S.
  destruct (d0 >? stop_date)%Z;
    [|cbn [fst snd db log]; rewrite TraceFacts.selects_of_app; cbn;
      rewrite app_nil_r; auto 6].
  rewrite ScanFacts.find_in_table_body_eq. cbv zeta.
  unfold get_or_fetch, bind, sql_select. cbn [db log]. rewrite Hdb.
  cbn [fst snd db log]. rewrite !TraceFacts.selects_of_app. cbn.
  rewrite !app_nil_r. auto 6.
Qed.

Lemma scan_unknown_chart_witness :
  let run := find_in_table 3 (echo_source ["Drake"]) "drake" (PyDate.mkdate 2020 1 4)
               (PyDate.mkdate 2000 1 4) "hot100" empty_db in
  chart_name_to_table_name "hot100" = ""
  ∧ db run.2 = db empty_db
  ∧ selects_of (log run.2) = selects_of (log empty_db)
  ∧ (run.1 = Raise SourceError ∨ run.1 = Raise ValueError_isoformat
     ∨ run.1 = Raise OperationalError ∨ run.1 = Return None).
Proof.
  apply (scan_unknown_chart 2 (echo_source ["Drake"]) "drake" (PyDate.mkdate 2020 1 4)
           (PyDate.mkdate 2000 1 4) "hot100" empty_db).
  - discriminate.
  - discriminate.
  - reflexivity.
Defined.

(** ** The singles horizon *)
Module HorizonFacts.
Import PyDate.
Local Open Scope Z_scope.

Lemma leap_iff (y : Z) :
  is_leap y = true ↔ y mod 4 = 0 ∧ (y mod 100 ≠ 0 ∨ y mod 400 = 0).
Proof.
  unfold is_leap.
  rewrite andb_true_iff, orb_true_iff, negb_true_iff, !Z.eqb_eq, Z.eqb_neq. tauto.
Qed.

End HorizonFacts.

(** X17: [TWENTY_YEARS_AGO] cannot be built, and the program stops at start-up
    with a [ValueError], exactly when today's year is 20 or less or today is a
    29 February whose year minus twenty is not a leap year; otherwise it is
    the same day and month twenty years earlier, 7304 or 7305 days before
    today. *)
Theorem twenty_years_ago_spec (TODAY : date) :
  (1 ≤ TODAY ≤ PyDate.MAXORDINAL)%Z →
  ∃ y m d : Z,
    PyDate.ord2ymd TODAY = (y, m, d)
    ∧ (TWENTY_YEARS_AGO TODAY = None ↔
       (y ≤ 20)%Z ∨ (m = 2%Z ∧ d = 29%Z ∧ PyDate.is_leap (y - 20) = false))
    ∧ ∀ h, TWENTY_YEARS_AGO TODAY = Some h →
           h = PyDate.ymd2ord (y - 20) m d
           ∧ (1 ≤ h)%Z ∧ (TODAY - 7305 ≤ h ≤ TODAY - 7304)%Z.
Proof.
  intros H. destruct (CalendarFacts.ord2ymd_spec TODAY H)
    as (y & m & d & E & Hy & Hm & Hd & Ho).
  exists y, m, d. split; [done|]. unfold TWENTY_YEARS_AGO. rewrite E. unfold date_new.
  pose proof (CalendarFacts.days_in_month_bounds y m Hm) as Hb1.
  pose proof (CalendarFacts.days_in_month_bounds (y - 20) m Hm) as Hb2.
  split.
  - destruct (_ && _) eqn:Ev.
    + split; [done|]. rewrite !andb_true_iff, !Z.leb_le in Ev.
      intros [Hy20|(-> & -> & Hl)]; exfalso; [lia|].
      unfold PyDate.days_in_month in Ev. rewrite Hl in Ev.
      CalendarFacts.norm_tables. cbn in Ev. lia.
    + split; [intros _|done]. rewrite !andb_false_iff, !Z.leb_gt in Ev.
      destruct (decide (y ≤ 20)%Z); [by left|right].
      assert (PyDate.days_in_month (y - 20) m < d)%Z as Hlt by lia.
      unfold PyDate.days_in_month in Hlt, Hd.
      destruct (decide (m = 2%Z)) as [->|Hm2].
      * CalendarFacts.norm_tables. cbn in Hlt, Hd.
        destruct (PyDate.is_leap (y - 20)), (PyDate.is_leap y); cbn in Hlt, Hd; lia.
      * assert ((m =? 2)%Z = false) as Em by lia. rewrite Em in Hlt, Hd.
        cbn in Hlt, Hd. lia.
  - intros h. destruct (_ && _) eqn:Ev; [|done]. intros [= <-].
    rewrite !andb_true_iff, !Z.leb_le in Ev. split; [done|].
    pose proof (CalendarFacts.ymd2ord_range (y - 20) m d
                  ltac:(lia) ltac:(lia) ltac:(lia)) as Hr.
    split; [lia|]. rewrite <- Ho.
    unfold PyDate.ymd2ord, PyDate.days_before_year, PyDate.days_before_month. cbv zeta.
    destruct (PyDate.is_leap y) eqn:L1; destruct (PyDate.is_leap (y - 20)) eqn:L2;
      [apply HorizonFacts.leap_iff in L1|apply HorizonFacts.leap_iff in L1
      |apply not_true_iff_false in L1; rewrite HorizonFacts.leap_iff in L1
      |apply not_true_iff_false in L1; rewrite HorizonFacts.leap_iff in L1];
      [apply HorizonFacts.leap_iff in L2
      |apply not_true_iff_false in L2; rewrite HorizonFacts.leap_iff in L2
      |apply HorizonFacts.leap_iff in L2
      |apply not_true_iff_false in L2; rewrite HorizonFacts.leap_iff in L2];
      destruct (2 <? m)%Z eqn:Em; cbn [andb];
      Z.to_euclidean_division_equations; lia.
Qed.

Lemma twenty_years_ago_spec_witness :
  ∃ y m d : Z,
    PyDate.ord2ymd (PyDate.mkdate 2024 2 29) = (y, m, d)
    ∧ (TWENTY_YEARS_AGO (PyDate.mkdate 2024 2 29) = None ↔
       (y ≤ 20)%Z ∨ (m = 2%Z ∧ d = 29%Z ∧ PyDate.is_leap (y - 20) = false))
    ∧ ∀ h, TWENTY_YEARS_AGO (PyDate.mkdate 2024 2 29) = Some h →
           h = PyDate.ymd2ord (y - 20) m d
           ∧ (1 ≤ h)%Z
           ∧ (PyDate.mkdate 2024 2 29 - 7305 ≤ h ≤ PyDate.mkdate 2024 2 29 - 7304)%Z.
Proof.
  apply (twenty_years_ago_spec (PyDate.mkdate 2024 2 29)).
  vm_compute. split; discriminate.
Defined.

(** On 29 February 2024 the horizon is 29 February 2004; on 29 February 2120
    there is none, 2100 not being a leap year. *)
Example twenty_years_ago_leap_days :
  TWENTY_YEARS_AGO (PyDate.mkdate 2024 2 29) = Some (PyDate.mkdate 2004 2 29)
  ∧ TWENTY_YEARS_AGO (PyDate.mkdate 2120 2 29) = None
  ∧ TWENTY_YEARS_AGO (PyDate.mkdate 2026 11 4) = Some (PyDate.mkdate 2006 11 4).
Proof. vm_compute. done. Qed.

(** ** The first match *)
Module FirstMatchFacts.
Import TraceFacts.

Lemma rosters_of_app (a b : list event) :
  rosters_of (a ++ b) = rosters_of a ++ rosters_of b.
Proof.
  induction a as [|e a IH]; [done|].
  destruct e as [| ? ? [?|] | |]; cbn [app rosters_of]; by rewrite ?IH.
Qed.

Lemma fetch_events_roster (table_name chart_name : string) (q : date) res_str evs :
  fetch_events table_name chart_name q (Return res_str) evs →
  rosters_of evs = [res_str].
Proof. by inversion 1. Qed.

Lemma scan_rosters (artist table_name chart_name : string) (stop_date curr_week : date)
    r evs :
  scan_events artist table_name chart_name stop_date curr_week r evs →
  (∀ found, r = Return (Some found) →
     ∃ pre s, rosters_of evs = pre ++ [s]
              ∧ Forall (λ x, match_week artist x = None) pre
              ∧ match_week artist s = Some (found_artist found, found_position found))
  ∧ (r = Return None → Forall (λ x, match_week artist x = None) (rosters_of evs)).
Proof.
  induction 1 as [c Hc|c|c evs s a p Hc Hf Hm|c evs e Hc Hf|c evs s Hc Hf Hm Hs
                 |c evs s r rest Hc Hf Hm Hrest IH]; (split; [intros found Hr|intros Hr]);
    try done.
  - injection Hr as <-. exists [], s. cbn [rosters_of].
    rewrite (fetch_events_roster _ _ _ _ _ Hf). done.
  - destruct IH as [IH _]. destruct (IH found Hr) as (pre & s' & Hros & Hpre & Hm').
    exists (s :: pre), s'. cbn [rosters_of].
    rewrite rosters_of_app, (fetch_events_roster _ _ _ _ _ Hf), Hros.
    split_and!; [done|by constructor|done].
  - destruct IH as [_ IH]. cbn [rosters_of].
    rewrite rosters_of_app, (fetch_events_roster _ _ _ _ _ Hf).
    constructor; [done|by apply IH].
Qed.

End FirstMatchFacts.

(** X18: a scan returns the first match on its way back in time: when it
    returns a hit, the roster strings of all the weeks it went through before
    the last were turned down by the matcher and the hit is the matcher's
    answer on the last one; when it returns [None], the matcher turned down
    every week it went through. *)
Theorem scan_returns_first_match (fuel : nat) (billboard : source) (artist : string)
    (start_date stop_date : date) (chart_name : string) (st : state) :
  let run := find_in_table fuel billboard artist start_date stop_date chart_name st in
  let rosters := rosters_of (drop (length (log st)) (log run.2)) in
  match run.1 with
  | Return (Some found) =>
      ∃ pre s, rosters = pre ++ [s]
               ∧ Forall (λ x, match_week artist x = None) pre
               ∧ match_week artist s = Some (found_artist found, found_position found)
  | Return None => Forall (λ x, match_week artist x = None) rosters
  | _ => True
  end.
Proof.
  intros run rosters. subst run rosters.
  destruct (find_in_table fuel billboard artist start_date stop_date chart_name st)
    as [r st'] eqn:H. cbn [fst snd].
  apply FindFacts.find_in_table_trace in H
    as [(res & _ & _ & _ & [[_ ->]|(c & _ & _ & ->)])|(c & d0 & evs & _ & _ & -> & Hse)];
    [done|done|].
  rewrite drop_app_length. cbn [rosters_of].
  destruct (FirstMatchFacts.scan_rosters _ _ _ _ _ _ _ Hse) as [Hhit Hnone].
  destruct r as [[found|]|e|]; [by apply Hhit|by apply Hnone|done|done].
Qed.

(** Two cached weeks, the artist in the older one only. *)
Example scan_first_match_sample :
  let st := mkState (<["hot100" := {["2020-01-11" := "sia"; "2020-01-04" := "drake"]}]> ∅)
              [] in
  let run := find_in_table 5 (echo_source []) "drake" (PyDate.mkdate 2020 1 11)
               (PyDate.mkdate 2000 1 4) "hot-100" st in
  run.1 = Return (Some (mkFoundInfo "2020-01-04" "drake" 1))
  ∧ rosters_of (log run.2) = ["sia"; "drake"].
Proof. vm_compute. done. Qed.

(** ** The search loop of [main] *)
Module SearchFacts.
Import PyDate CalendarFacts.
Local Open Scope Z_scope.

#[local] Arguments isoformat : simpl never.
#[local] Arguments fromisoformat : simpl never.

(** Each date is at least six days before the one in front of it. *)
#[local] Abbreviation going_back qs :=
  (∀ (i : nat) (qa qb : date), qs !! i = Some qa → qs !! S i = Some qb → qb ≤ qa - 6).

#[local] Abbreviation dated hits qs :=
  (Forall2 (λ (h : FoundInfo) (q : date), fromisoformat (found_date h) = Some q) hits qs).

Section Search.
Context (win32 : bool) (sfuel : nat) (billboard : source) (artist : string)
  (stop_date : date) (chart_name : string).
Hypothesis stop_valid : 1 ≤ stop_date.
Hypothesis resolves_back :
  ∀ l (d : date) c d0, 1 ≤ d ≤ MAXORDINAL →
    billboard l chart_name (isoformat d) = Some c →
    fromisoformat (chart_date c) = Some d0 → d0 ≤ d.

#[local] Abbreviation scan :=
  (λ d : date, find_in_table sfuel billboard artist d stop_date chart_name).

Lemma scan_hit_bound (d : date) (st st' : state) (found : FoundInfo) :
  1 ≤ d ≤ MAXORDINAL →
  scan d st = (Return (Some found), st') →
  ∃ q, fromisoformat (found_date found) = Some q ∧ stop_date < q ≤ d + 1.
Proof.
  intros Hd H.
  destruct (ResumeFacts.find_in_table_hit_date _ _ _ _ _ _ _ _ _ stop_valid H)
    as (c & d0 & q & Hb & Hd0 & Hq & Hparse).
  exists q. split; [done|]. pose proof (resolves_back _ _ _ _ Hd Hb Hd0). lia.
Qed.

Lemma report_hits_dates (fuel : nat) :
  ∀ (found_data : option FoundInfo) (keys : list ascii) (st : state) (bound : date),
    (∀ data, found_data = Some data →
       ∃ q, fromisoformat (found_date data) = Some q ∧ stop_date < q ≤ bound) →
    ∃ qs, dated (report_hits fuel win32 scan found_data keys st).1.1.2 qs
          ∧ going_back qs
          ∧ Forall (λ q, stop_date < q ≤ bound) qs.
Proof.
  induction fuel as [|fuel IH]; intros found_data keys st bound Hfound.
  - destruct found_data as [data|]; [|by exists []].
    destruct (Hfound data eq_refl) as (q & Hq & Hb).
    assert (∃ qs, dated [data] qs ∧ going_back qs
                  ∧ Forall (λ q, stop_date < q ≤ bound) qs) as Hone.
    { exists [q]. split_and!; [by apply Forall2_cons| |by apply Forall_singleton].
      intros [|i] qa qb Ha Hb'; done. }
    cbn [report_hits]. destruct (continue_or_quit win32 keys); [|done..].
    destruct (next_date data); done.
  - destruct found_data as [data|]; [|by exists []].
    destruct (Hfound data eq_refl) as (q & Hq & Hb).
    assert (∃ qs, dated [data] qs ∧ going_back qs
                  ∧ Forall (λ q, stop_date < q ≤ bound) qs) as Hone.
    { exists [q]. split_and!; [by apply Forall2_cons| |by apply Forall_singleton].
      intros [|i] qa qb Ha Hb'; done. }
    cbn [report_hits]. destruct (continue_or_quit win32 keys) as [rest| | |]; [|done..].
    destruct (next_date data) as [next|e|] eqn:Hnext; [|done..].
    unfold next_date in Hnext. rewrite Hq in Hnext.
    destruct (sub_weeks q 1) as [n|] eqn:Hs; [|done]. injection Hnext as ->.
    pose proof (PyDateFacts.sub_weeks_one _ _ Hs) as ->.
    assert (1 ≤ q - 7 ≤ MAXORDINAL) as Hn.
    { unfold sub_weeks in Hs. destruct (_ && _) eqn:E; [|done].
      rewrite andb_true_iff, !Z.leb_le in E. lia. }
    destruct (scan (q - 7) st) as [[found_data'|e|] st'] eqn:Hscan; [|done..].
    destruct (IH found_data' rest st' (q - 6)) as (qs & Hdated & Hback & Hbound).
    { intros data' ->. destruct (scan_hit_bound _ _ _ _ Hn Hscan) as (q' & Hq' & Hb').
      exists q'. split; [done|]. lia. }
    destruct (report_hits fuel win32 scan found_data' rest st') as [[[e hits] keys'] st''].
    cbn [fst snd] in *. exists (q :: qs). split_and!.
    + by constructor.
    + intros [|i] qa qb Ha Hb'; cbn in Ha, Hb'.
      * injection Ha as <-. destruct qs as [|q' qs]; [done|]. injection Hb' as <-.
        apply Forall_cons in Hbound as [Hq' _]. lia.
      * by apply (Hback i).
    + constructor; [done|]. eapply Forall_impl; [exact Hbound|]. cbn. lia.
Qed.

End Search.
End SearchFacts.

(** X19: the hits that the search loop of [main] reports go back in time.
    When the horizon and today are dates and the chart source resolves every
    starting date to a chart date not after it, the dates of the reported hits
    all read back as dates after the horizon and at most one day after today,
    and each is at least six days before the one reported before it: no week
    is reported twice and the reports cannot go on for ever. *)
Theorem search_reports_go_back (fuel sfuel : nat) (win32 : bool) (billboard : source)
    (artist : string) (stop_date TODAY : date) (chart_name : string)
    (keys : list ascii) (st : state) :
  (1 ≤ stop_date)%Z →
  (1 ≤ TODAY ≤ PyDate.MAXORDINAL)%Z →
  (∀ l (d : date) c d0, (1 ≤ d ≤ PyDate.MAXORDINAL)%Z →
     billboard l chart_name (PyDate.isoformat d) = Some c →
     PyDate.fromisoformat (chart_date c) = Some d0 → (d0 ≤ d)%Z) →
  let hits :=
    (search_chart fuel win32
       (λ d, find_in_table sfuel billboard artist d stop_date chart_name)
       TODAY keys st).1.1.2 in
  ∃ qs : list date,
    Forall2 (λ h q, PyDate.fromisoformat (found_date h) = Some q) hits qs
    ∧ (∀ (i : nat) (qa qb : date),
         qs !! i = Some qa → qs !! S i = Some qb → (qb ≤ qa - 6)%Z)
    ∧ Forall (λ q, (stop_date < q ≤ TODAY + 1)%Z) qs.
Proof.
  intros Hstop Htoday Hres hits. subst hits. unfold search_chart.
  destruct (find_in_table sfuel billboard artist TODAY stop_date chart_name st)
    as [[found_data|e|] st'] eqn:Hscan;
    [|exists []; split_and!; [constructor|done|constructor]..].
  apply (SearchFacts.report_hits_dates win32 sfuel billboard artist stop_date chart_name
           Hstop Hres fuel found_data keys st' (TODAY + 1)%Z).
  intros data ->.
  by apply (SearchFacts.scan_hit_bound sfuel billboard artist stop_date chart_name
              Hstop Hres TODAY st st' data).
Qed.

Lemma search_reports_go_back_witness :
  let hits :=
    (search_chart 5 true
       (λ d, find_in_table 5 (echo_source ["Drake"]) "drake" d
               (PyDate.mkdate 2019 12 25) "hot-100")
       (PyDate.mkdate 2020 1 11) ["c"; "x"; "c"; "c"]%char empty_db).1.1.2 in
  ∃ qs : list date,
    Forall2 (λ h q, PyDate.fromisoformat (found_date h) = Some q) hits qs
    ∧ (∀ (i : nat) (qa qb : date),
         qs !! i = Some qa → qs !! S i = Some qb → (qb ≤ qa - 6)%Z)
    ∧ Forall (λ q, (PyDate.mkdate 2019 12 25 < q ≤ PyDate.mkdate 2020 1 11 + 1)%Z) qs.
Proof.
  apply (search_reports_go_back 5 5 true (echo_source ["Drake"]) "drake"
           (PyDate.mkdate 2019 12 25) (PyDate.mkdate 2020 1 11) "hot-100"
           ["c"; "x"; "c"; "c"]%char empty_db).
  - vm_compute. discriminate.
  - vm_compute. split; discriminate.
  - intros l d c d0 Hd [= <-] Hparse. cbn [chart_date] in Hparse.
    rewrite (CalendarFacts.fromisoformat_isoformat d Hd) in Hparse.
    injection Hparse as <-. apply Z.le_refl.
Defined.

(** The run of the witness above: three hits, then nothing more. *)
Example search_chart_sample :
  let run :=
    search_chart 5 true
      (λ d, find_in_table 5 (echo_source ["Drake"]) "drake" d
              (PyDate.mkdate 2019 12 25) "hot-100")
      (PyDate.mkdate 2020 1 11) ["c"; "x"; "c"; "c"]%char empty_db in
  run.1.1.1 = Exhausted
  ∧ found_date <$> run.1.1.2 = ["2020-01-11"; "2020-01-04"; "2019-12-28"]
  ∧ run.1.2 = [].
Proof. vm_compute. done. Qed.

(** The same search on Windows when an arrow key is pressed at the first
    prompt: one hit is reported, then [get_char] fails. *)
Example search_chart_arrow_key :
  let run :=
    search_chart 5 true
      (λ d, find_in_table 5 (echo_source ["Drake"]) "drake" d
              (PyDate.mkdate 2019 12 25) "hot-100")
      (PyDate.mkdate 2020 1 11) [Ascii.ascii_of_N 224; "H"%char; "c"%char] empty_db in
  run.1.1.1 = KeyDecodeError
  ∧ found_date <$> run.1.1.2 = ["2020-01-11"]
  ∧ run.1.2 = ["H"; "c"]%char.
Proof. vm_compute. done. Qed.

(** ** Scanning again *)
Module ReplayFacts.
Import PyDate ScanFacts.
Local Open Scope Z_scope.

#[local] Arguments isoformat : simpl never.
#[local] Arguments fromisoformat : simpl never.
#[local] Arguments PyStr.lower : simpl never.
#[local] Arguments PyStr.join : simpl never.
#[local] Arguments match_week : simpl never.
#[local] Arguments odd_date_subst : simpl never.
#[local] Arguments chart_name_to_table_name : simpl never.

(** The table [tn] of [d2] has every row of the table [tn] of [d]. *)
#[local] Abbreviation covers tn d d2 :=
  (∀ t : gmap string string, d !! tn = Some t →
     ∃ t2 : gmap string string,
       d2 !! tn = Some t2 ∧ ∀ k v, t !! k = Some v → t2 !! k = Some v).

Section Replay.
Context (billboard : source) (artist chart_name : string) (stop_date : date).
Hypothesis dated_as_asked :
  ∀ l cn datestr c, billboard l cn datestr = Some c → chart_date c = datestr.

#[local] Abbreviation table_name := (chart_name_to_table_name chart_name).

(** After a lookup that gave a roster string, the table holds it for the
    queried date. *)
Lemma get_or_fetch_cached (q : date) (st st1 : state) (res_str : string) :
  get_or_fetch billboard table_name chart_name q st = (Return res_str, st1) →
  ∃ t1, db st1 !! table_name = Some t1 ∧ t1 !! isoformat q = Some res_str.
Proof.
  unfold get_or_fetch, bind, sql_select, ret.
  destruct (db st !! table_name) as [t|] eqn:Ht; [|done].
  destruct (t !! isoformat q) as [s|] eqn:Hq.
  - intros [= <- <-]. by exists t.
  - unfold fetch_and_insert_date, bind, billboard_ChartData, sql_insert, ret.
    destruct (billboard _ _ _) as [chart|] eqn:Hb; [|done]. cbn [db log].
    apply dated_as_asked in Hb. rewrite Ht, Hb, Hq.
    intros [= <- <-]. cbn [db]. rewrite lookup_insert_eq. eexists. split; [done|].
    by rewrite lookup_insert_eq.
Qed.

(** A lookup of a cached week: one [SELECT], nothing else. *)
Lemma get_or_fetch_hit (billboard2 : source) (q : date) (st : state)
    (t : gmap string string) (res_str : string) :
  db st !! table_name = Some t → t !! isoformat q = Some res_str →
  get_or_fetch billboard2 table_name chart_name q st
  = (Return res_str,
     mkState (db st) (log st ++ [EvSelect table_name (isoformat q) (Some res_str)])).
Proof.
  intros Ht Hq. unfold get_or_fetch, bind, sql_select, ret. by rewrite Ht, Hq.
Qed.

Lemma loop_replay (billboard2 : source) (fuel : nat) :
  ∀ (curr_week : date) (st st' : state) x,
    find_in_table_loop fuel billboard artist table_name chart_name stop_date curr_week st
    = (Return x, st') →
    ∀ st2 : state, covers table_name (db st') (db st2) →
      ∃ evs2,
        find_in_table_loop fuel billboard2 artist table_name chart_name
          stop_date curr_week st2
        = (Return x, mkState (db st2) (log st2 ++ evs2))
        ∧ Forall (λ e, is_source_call e = false) evs2.
Proof.
  induction fuel as [|fuel IH]; intros curr_week st st' x H st2 Hcov; [done|].
  rewrite find_in_table_loop_S in H |- *.
  destruct (curr_week >? stop_date).
  2:{ injection H as <- <-. exists []. rewrite app_nil_r. by destruct st2. }
  rewrite find_in_table_body_eq in H |- *. cbv zeta in H |- *.
  set (q := (odd_date_subst curr_week).2) in *.
  destruct (get_or_fetch billboard _ _ _ _) as [[res_str|e|] st1] eqn:Hg; [|done..].
  pose proof (CacheFacts.get_or_fetch_grows _ _ _ _ _ _ _ Hg) as [Hgrow1 _].
  apply get_or_fetch_cached in Hg as (t1 & Ht1 & Hrow).
  assert (covers table_name (db st1) (db st2) →
          ∃ t2, db st2 !! table_name = Some t2 ∧ t2 !! isoformat q = Some res_str)
    as Hrow2.
  { intros Hc. destruct (Hc t1 Ht1) as (t2 & Ht2 & Hrows). exists t2. auto. }
  destruct (match_week artist res_str) as [[a p]|] eqn:Hm.
  - injection H as <- <-. destruct (Hrow2 Hcov) as (t2 & Ht2 & Hq2).
    rewrite (get_or_fetch_hit billboard2 q _ t2 res_str) by done.
    rewrite Hm. cbn [db log]. rewrite <- app_assoc. eexists. split; [reflexivity|].
    by repeat constructor.
  - destruct (sub_weeks curr_week 1) as [next|]; [|done].
    pose proof (CacheFacts.loop_grows _ _ _ _ _ _ _ _ _ _ H) as [Hgrow2 _].
    assert (covers table_name (db st1) (db st2)) as Hcov1.
    { intros t Ht. destruct (Hgrow2 _ _ Ht) as (t' & Ht' & Hr').
      destruct (Hcov _ Ht') as (t2 & Ht2 & Hr2). exists t2. split; [done|].
      intros k v Hk. by apply Hr2, Hr'. }
    destruct (Hrow2 Hcov1) as (t2 & Ht2 & Hq2).
    rewrite (get_or_fetch_hit billboard2 q _ t2 res_str) by done. rewrite Hm.
    destruct (IH next st1 st' x H
                (mkState (db st2)
                   ((log st2 ++ [EvWeek curr_week q])
                    ++ [EvSelect table_name (isoformat q) (Some res_str)])))
      as (evs2 & Hrun & Hno); [done|].
    cbn [db log] in Hrun |- *. rewrite Hrun.
    eexists. split; [by rewrite <- !app_assoc|].
    by repeat constructor.
Qed.

End Replay.
End ReplayFacts.

(** X20: a finished scan serves its repetition from the cache.  When the chart
    source dates its charts as they are asked for and a scan has returned (a
    hit or [None]), the same scan from the state it left, against any source
    that resolves the starting date as before, returns the same result,
    leaves the database as it is and calls the source only once, for the
    starting date. *)
Theorem cache_serves_second_scan (fuel : nat) (billboard billboard2 : source)
    (artist : string) (start_date stop_date : date) (chart_name : string)
    (st st1 : state) (x : option FoundInfo) :
  (∀ l cn datestr c, billboard l cn datestr = Some c → chart_date c = datestr) →
  find_in_table fuel billboard artist start_date stop_date chart_name st
  = (Return x, st1) →
  billboard2 (log st1) chart_name (PyDate.isoformat start_date)
  = billboard (log st) chart_name (PyDate.isoformat start_date) →
  ∃ c evs2,
    find_in_table fuel billboard2 artist start_date stop_date chart_name st1
    = (Return x,
       mkState (db st1)
         (log st1
          ++ EvChartData chart_name (PyDate.isoformat start_date) (Some c) :: evs2))
    ∧ Forall (λ e, is_source_call e = false) evs2.
Proof.
  intros Hecho H Hsame. rewrite FindFacts.find_in_table_eq in H |- *. cbv zeta in H |- *.
  rewrite Hsame. destruct (billboard _ _ _) as [c|]; [|done].
  destruct (PyDate.fromisoformat (chart_date c)) as [d0|]; [|done].
  destruct (ReplayFacts.loop_replay billboard artist chart_name stop_date Hecho
              billboard2 fuel d0 _ _ _ H
              (mkState (db st1)
                 (log st1 ++ [EvChartData chart_name (PyDate.isoformat start_date) (Some c)])))
    as (evs2 & Hrun & Hno).
  { cbn [db]. intros t Ht. by exists t. }
  exists c, evs2. cbn [db log] in Hrun. rewrite Hrun. split; [|done].
  by rewrite <- app_assoc.
Qed.

Lemma cache_serves_second_scan_witness :
  let billboard := echo_source ["Nobody"] in
  let first := find_in_table 5 billboard "drake" (PyDate.mkdate 1963 8 31)
                 BILLBOARD_200_EARLIEST "billboard-200" empty_db in
  ∃ c evs2,
    find_in_table 5 billboard "drake" (PyDate.mkdate 1963 8 31)
      BILLBOARD_200_EARLIEST "billboard-200" first.2
    = (Return None,
       mkState (db first.2)
         (log first.2
          ++ EvChartData "billboard-200" (PyDate.isoformat (PyDate.mkdate 1963 8 31))
               (Some c) :: evs2))
    ∧ Forall (λ e, is_source_call e = false) evs2.
Proof.
  intros billboard first.
  apply (cache_serves_second_scan 5 billboard billboard "drake" (PyDate.mkdate 1963 8 31)
           BILLBOARD_200_EARLIEST "billboard-200" empty_db first.2 None).
  - by intros l cn datestr c [= <-].
  - vm_compute. reflexivity.
  - reflexivity.
Defined.

(** The two scans of the witness above: the first makes three source calls
    (one for the starting date, one per missing week), the second adds only
    the call for the starting date. *)
Example second_scan_sample :
  let billboard := echo_source ["Nobody"] in
  let first := find_in_table 5 billboard "drake" (PyDate.mkdate 1963 8 31)
                 BILLBOARD_200_EARLIEST "billboard-200" empty_db in
  let second := find_in_table 5 billboard "drake" (PyDate.mkdate 1963 8 31)
                  BILLBOARD_200_EARLIEST "billboard-200" first.2 in
  length (filter (λ e, is_source_call e = true) (log first.2)) = 3
  ∧ length (filter (λ e, is_source_call e = true) (log second.2)) = 4.
Proof. split; vm_compute; reflexivity. Qed.
